(** * polaris-gslb health monitors: TCP/TLS socket, TCP monitor, external script

    A shallow embedding of
      - [polaris_health/protocols/tcp.py]  (class [TCPSocket]),
      - [polaris_health/monitors/tcp.py]   (class [TCP]),
      - [polaris_health/monitors/external.py] (class [ExternalScript]),
    and the properties of the specification checked against it.

    Conventions of the embedding.
      - A Python [str] is a list of Unicode code points ([pystr]); [bytes] is a
        list of [Byte.byte].
      - Timeouts and elapsed times are Python floats; they are modelled as
        rationals [Q], and [T - t] stands for the one subtraction the source
        performs.  The statements take the decay one operation at a time and
        compare timeouts by order; none relies on the exact sum of several
        subtractions, which binary64 rounding does not give.
      - A call that may raise returns a [result]; an exception is its class and
        its [str()] text.
      - What the operating system, the TLS library and the child process do is
        an input of the model: every OS call is answered by an [os_call]
        giving the time the call took and its outcome.
      - Python's [re] module is an interface ([PythonLib]); the theorems hold
        for every engine. *)

From Stdlib Require Import ZArith NArith QArith Lqa List String Ascii Bool Lia.
From Stdlib.Strings Require Import Byte.
From Stdlib Require Import DecimalString.
Import ListNotations.

Set Implicit Arguments.

(* ================================================================== *)
(** * Python values *)
(* ================================================================== *)

(** A Python [str]: a sequence of code points. *)
Definition pystr := list N.

(** A Python [bytes] object. *)
Definition bytes := list byte.

(** An ASCII literal of the source as a [pystr]. *)
Definition lit (s : string) : pystr :=
  map N_of_ascii (list_ascii_of_string s).

(** [str(n)] for a Python [int]. *)
Definition str_of_int (z : Z) : pystr :=
  lit (NilZero.string_of_int (Z.to_int z)).

(** [s.startswith(p)] and [needle in hay], to state what a message
    contains. *)
Fixpoint starts_with (p s : pystr) : bool :=
  match p, s with
  | [], _ => true
  | c :: p', d :: s' => N.eqb c d && starts_with p' s'
  | _ :: _, [] => false
  end.

Fixpoint contains (needle hay : pystr) : bool :=
  starts_with needle hay ||
  match hay with
  | [] => false
  | _ :: hay' => contains needle hay'
  end.

(** The dynamically typed values a monitor constructor can be handed. *)
Inductive pyval :=
| PyNone
| PyBool (b : bool)
| PyInt (z : Z)
| PyStr (s : pystr)
| PyOther (text : pystr).   (* any other object (float, bytes, list, ...),
                               with its str() *)

(** [isinstance(v, int)]: [bool] is a subclass of [int]. *)
Definition as_int (v : pyval) : option Z :=
  match v with
  | PyInt z => Some z
  | PyBool b => Some (if b then 1 else 0)%Z
  | _ => None
  end.

(** [str(v)], as [format] renders a value. *)
Definition str_of_pyval (v : pyval) : pystr :=
  match v with
  | PyNone => lit "None"
  | PyBool true => lit "True"
  | PyBool false => lit "False"
  | PyInt z => str_of_int z
  | PyStr s => s
  | PyOther text => text
  end.

(** [isinstance(v, str)]. *)
Definition as_str (v : pyval) : option pystr :=
  match v with
  | PyStr s => Some s
  | _ => None
  end.

(* ================================================================== *)
(** * Exceptions *)
(* ================================================================== *)

(** The exception classes that occur: builtins, [ssl], [subprocess], and the
    three classes of [polaris_health] ([Error], [ProtocolError],
    [MonitorFailed]; the source imports them, only their identity matters). *)
Inductive exn_class :=
| Exception_
| AttributeError_
| TypeError_
| re_error_                (* re.error *)
| ValueError_
| UnicodeEncodeError_
| OSError_
| TimeoutError_            (* socket.timeout *)
| BlockingIOError_
| ConnectionError_
| ConnectionRefusedError_
| ConnectionResetError_
| BrokenPipeError_
| FileNotFoundError_
| PermissionError_
| SSLError_                (* ssl.SSLError *)
| SSLCertVerificationError_
| SubprocessError_
| TimeoutExpired_          (* subprocess.TimeoutExpired *)
| CalledProcessError_
| Error_                   (* polaris_health.Error *)
| ProtocolError_
| MonitorFailed_.

Definition exn_class_eq_dec (a b : exn_class) : {a = b} + {a <> b}.
Proof. decide equality. Defined.

Definition class_eqb (a b : exn_class) : bool :=
  if exn_class_eq_dec a b then true else false.

(** The direct base class. *)
Definition base_class (c : exn_class) : option exn_class :=
  match c with
  | Exception_ => None
  | AttributeError_ => Some Exception_
  | TypeError_ => Some Exception_
  | re_error_ => Some Exception_
  | ValueError_ => Some Exception_
  | UnicodeEncodeError_ => Some ValueError_
  | OSError_ => Some Exception_
  | TimeoutError_ => Some OSError_
  | BlockingIOError_ => Some OSError_
  | ConnectionError_ => Some OSError_
  | ConnectionRefusedError_ => Some ConnectionError_
  | ConnectionResetError_ => Some ConnectionError_
  | BrokenPipeError_ => Some ConnectionError_
  | FileNotFoundError_ => Some OSError_
  | PermissionError_ => Some OSError_
  | SSLError_ => Some OSError_
  | SSLCertVerificationError_ => Some SSLError_
  | SubprocessError_ => Some Exception_
  | TimeoutExpired_ => Some SubprocessError_
  | CalledProcessError_ => Some SubprocessError_
  | Error_ => Some Exception_
  | ProtocolError_ => Some Error_
  | MonitorFailed_ => Some Error_
  end.

Fixpoint issubclass_fuel (fuel : nat) (c d : exn_class) : bool :=
  class_eqb c d ||
  match fuel, base_class c with
  | S fuel', Some b => issubclass_fuel fuel' b d
  | _, _ => false
  end.

(** [issubclass(c, d)]; the hierarchy is three levels deep. *)
Definition issubclass (c d : exn_class) : bool := issubclass_fuel 4 c d.

(** [e.__class__.__name__]. *)
Definition class_name (c : exn_class) : pystr :=
  lit match c with
      | Exception_ => "Exception"
      | AttributeError_ => "AttributeError"
      | TypeError_ => "TypeError"
      | re_error_ => "error"
      | ValueError_ => "ValueError"
      | UnicodeEncodeError_ => "UnicodeEncodeError"
      | OSError_ => "OSError"
      | TimeoutError_ => "TimeoutError"
      | BlockingIOError_ => "BlockingIOError"
      | ConnectionError_ => "ConnectionError"
      | ConnectionRefusedError_ => "ConnectionRefusedError"
      | ConnectionResetError_ => "ConnectionResetError"
      | BrokenPipeError_ => "BrokenPipeError"
      | FileNotFoundError_ => "FileNotFoundError"
      | PermissionError_ => "PermissionError"
      | SSLError_ => "SSLError"
      | SSLCertVerificationError_ => "SSLCertVerificationError"
      | SubprocessError_ => "SubprocessError"
      | TimeoutExpired_ => "TimeoutExpired"
      | CalledProcessError_ => "CalledProcessError"
      | Error_ => "Error"
      | ProtocolError_ => "ProtocolError"
      | MonitorFailed_ => "MonitorFailed"
      end.

(** A raised exception: its class and [str(e)]. *)
Record exn := mkExn { e_class : exn_class; e_str : pystr }.

(** The outcome of a call that may raise. *)
Inductive result (A : Type) :=
| Ok (a : A)
| Raise (e : exn).
Arguments Ok {A} a.
Arguments Raise {A} e.

(** [except cls as e]: does the handler catch [e]? *)
Definition catches (cls : exn_class) (e : exn) : bool :=
  issubclass (e_class e) cls.

(** One call into the operating system (or the TLS library): the time it took
    on the monotonic clock, and how it ended. *)
Record os_call (A : Type) := mkCall { elapsed : Q; outcome : result A }.

(* ================================================================== *)
(** * Logging *)
(* ================================================================== *)

(** The module loggers only collect records; logging never changes control
    flow.  A computation that logs returns its records with its value. *)
Inductive log_level := INFO | WARNING | ERROR.

Definition log_record := (log_level * pystr)%type.

Definition logged (A : Type) := (list log_record * A)%type.

(* ================================================================== *)
(** * Text: UTF-8 and whitespace *)
(* ================================================================== *)

Local Open Scope N_scope.

Definition byte_of_N (n : N) : byte :=
  match Byte.of_N (n mod 256) with
  | Some b => b
  | None => x00
  end.

Definition is_continuation_byte (ch : N) : bool :=
  (0x80 <=? ch) && (ch <? 0xC0).

(** [b.decode(errors='ignore')], UTF-8.  The cases are those of CPython's
    decoder: an invalid start byte, or a sequence broken at its 2nd, 3rd or
    4th byte, is an error over the bytes before the offending one; a sequence
    cut by the end of the data is an error up to the end.  The 'ignore'
    handler produces nothing for the bytes of an error and decoding resumes
    after them. *)
Fixpoint utf8_decode_ignore (s : bytes) : pystr :=
  match s with
  | [] => []
  | b1 :: r1 =>
    let ch := Byte.to_N b1 in
    if ch <? 0x80 then ch :: utf8_decode_ignore r1
    else if ch <? 0xC2 then utf8_decode_ignore r1
    else if ch <? 0xE0 then
      match r1 with
      | [] => []
      | b2 :: r2 =>
        let ch2 := Byte.to_N b2 in
        if is_continuation_byte ch2
        then (N.shiftl (N.land ch 0x1F) 6 + N.land ch2 0x3F)
               :: utf8_decode_ignore r2
        else utf8_decode_ignore r1
      end
    else if ch <? 0xF0 then
      match r1 with
      | [] => []
      | b2 :: r2 =>
        let ch2 := Byte.to_N b2 in
        if negb (is_continuation_byte ch2)
           || (if ch2 <? 0xA0 then ch =? 0xE0 else ch =? 0xED)
        then utf8_decode_ignore r1
        else
          match r2 with
          | [] => []
          | b3 :: r3 =>
            let ch3 := Byte.to_N b3 in
            if is_continuation_byte ch3
            then (N.shiftl (N.land ch 0x0F) 12
                  + N.shiftl (N.land ch2 0x3F) 6
                  + N.land ch3 0x3F) :: utf8_decode_ignore r3
            else utf8_decode_ignore r2
          end
      end
    else if ch <? 0xF5 then
      match r1 with
      | [] => []
      | b2 :: r2 =>
        let ch2 := Byte.to_N b2 in
        if negb (is_continuation_byte ch2)
           || (if ch2 <? 0x90 then ch =? 0xF0 else ch =? 0xF4)
        then utf8_decode_ignore r1
        else
          match r2 with
          | [] => []
          | b3 :: r3 =>
            let ch3 := Byte.to_N b3 in
            if negb (is_continuation_byte ch3) then utf8_decode_ignore r2
            else
              match r3 with
              | [] => []
              | b4 :: r4 =>
                let ch4 := Byte.to_N b4 in
                if is_continuation_byte ch4
                then (N.shiftl (N.land ch 0x07) 18
                      + N.shiftl (N.land ch2 0x3F) 12
                      + N.shiftl (N.land ch3 0x3F) 6
                      + N.land ch4 0x3F) :: utf8_decode_ignore r4
                else utf8_decode_ignore r3
              end
          end
      end
    else utf8_decode_ignore r1
  end.

(** U+FFFD, what [errors='replace'] would put for an undecodable byte. *)
Definition REPLACEMENT_CHARACTER : N := 0xFFFD.

Definition is_surrogate (c : N) : bool := (0xD800 <=? c) && (c <=? 0xDFFF).

(** A Unicode scalar value: a code point that is not a surrogate; these are
    the characters UTF-8 encodes. *)
Definition is_scalar (c : N) : bool := (c <? 0x110000) && negb (is_surrogate c).

Definition utf8_encode_char (c : N) : bytes :=
  if c <? 0x80 then [byte_of_N c]
  else if c <? 0x800 then
    [byte_of_N (N.lor 0xC0 (N.shiftr c 6));
     byte_of_N (N.lor 0x80 (N.land c 0x3F))]
  else if c <? 0x10000 then
    [byte_of_N (N.lor 0xE0 (N.shiftr c 12));
     byte_of_N (N.lor 0x80 (N.land (N.shiftr c 6) 0x3F));
     byte_of_N (N.lor 0x80 (N.land c 0x3F))]
  else
    [byte_of_N (N.lor 0xF0 (N.shiftr c 18));
     byte_of_N (N.lor 0x80 (N.land (N.shiftr c 12) 0x3F));
     byte_of_N (N.lor 0x80 (N.land (N.shiftr c 6) 0x3F));
     byte_of_N (N.lor 0x80 (N.land c 0x3F))].

(** [s.encode()]: UTF-8, strict; a surrogate code point cannot be encoded. *)
Definition encode (s : pystr) : result bytes :=
  if existsb is_surrogate s
  then Raise (mkExn UnicodeEncodeError_
                (lit "'utf-8' codec can't encode: surrogates not allowed"))
  else Ok (flat_map utf8_encode_char s).

(** [c.isspace()]: the characters [str.strip()] removes. *)
Definition isspace (c : N) : bool :=
  ((0x09 <=? c) && (c <=? 0x0D)) || ((0x1C <=? c) && (c <=? 0x20))
  || (c =? 0x85) || (c =? 0xA0) || (c =? 0x1680)
  || ((0x2000 <=? c) && (c <=? 0x200A))
  || (c =? 0x2028) || (c =? 0x2029) || (c =? 0x202F) || (c =? 0x205F)
  || (c =? 0x3000).

Fixpoint lstrip (s : pystr) : pystr :=
  match s with
  | c :: s' => if isspace c then lstrip s' else s
  | [] => []
  end.

Definition rstrip (s : pystr) : pystr := rev (lstrip (rev s)).

(** [s.strip()]. *)
Definition strip (s : pystr) : pystr := rstrip (lstrip s).

Local Close Scope N_scope.

(* ================================================================== *)
(** * The Python library taken as given *)
(* ================================================================== *)

(** [re] and number formatting are not part of the repository.
    [re_compile_I p] is [re.compile(p, flags=re.I)], which may raise;
    [re_search r s] tells whether [r.search(s)] found a match;
    [str_of_number q] is [str()] of a timeout value. *)
Class PythonLib := {
  regex : Type;
  re_compile_I : pystr -> result regex;
  re_search : regex -> pystr -> bool;
  str_of_number : Q -> pystr
}.

(* ================================================================== *)
(** * polaris_health/protocols/tcp.py *)
(* ================================================================== *)

Module TCPSocket.

(** Buffer size for receiving data. *)
Definition RECV_BUFF_SIZE : N := 8192%N.

Inductive address_family := AF_INET | AF_INET6.

(** The [socket.socket] object behind [self._sock]: its address family, the
    timeout last applied with [settimeout], whether [shutdown(SHUT_RDWR)]
    has been done, whether the handle has been closed, and whether it has
    been wrapped by an SSL context. *)
Record socket := mkSocket {
  family : address_family;
  sock_timeout : Q;
  shut_down : bool;
  closed : bool;
  tls : bool
}.

Inductive verify_mode := CERT_NONE | CERT_REQUIRED.

(** An [ssl.SSLContext], as far as the monitor configures it. *)
Record SSLContext := mkContext {
  check_hostname : bool;
  verify : verify_mode
}.

(** [ssl.create_default_context()]. *)
Definition create_default_context : SSLContext :=
  {| check_hostname := true; verify := CERT_REQUIRED |}.

(** The attributes of a [TCPSocket]. *)
Record t := mkTCPSocket {
  ip : pystr;
  port : Z;
  timeout : Q;
  auto_timeout : bool;
  _sock : socket
}.

Definition set_sock (self : t) (s : socket) : t :=
  {| ip := ip self; port := port self; timeout := timeout self;
     auto_timeout := auto_timeout self; _sock := s |}.

Definition set_timeout (self : t) (x : Q) : t :=
  {| ip := ip self; port := port self; timeout := x;
     auto_timeout := auto_timeout self; _sock := _sock self |}.

(** [self._sock.close()]: releases the handle. *)
Definition sock_close (s : socket) : socket :=
  {| family := family s; sock_timeout := sock_timeout s;
     shut_down := shut_down s; closed := true; tls := tls s |}.

(** [settimeout]: set timeout on the socket. *)
Definition settimeout (self : t) (x : Q) : t :=
  let s := _sock self in
  set_sock self
    {| family := family s; sock_timeout := x; shut_down := shut_down s;
       closed := closed s; tls := tls s |}.

(** [_decrease_timeout]: decrease the timeout by the time taken for an I/O
    operation if [auto_timeout] is true.  The subtraction is the source's
    [self.timeout -= time_taken], one float operation; a sequence of decays
    is the iteration of this step, not the subtraction of a sum. *)
Definition _decrease_timeout (self : t) (time_taken : Q) : t :=
  if auto_timeout self then
    let self1 := set_timeout self (timeout self - time_taken) in
    let self2 :=
      if Qlt_le_dec (timeout self1) 0 then set_timeout self1 0 else self1 in
    settimeout self2 (timeout self2)
  else self.

(** [__init__]: a colon in [ip] selects IPv6. *)
Definition __init__ (ip : pystr) (port : Z) (timeout : Q)
    (auto_timeout : bool) : t :=
  let fam := if existsb (N.eqb 58) ip then AF_INET6 else AF_INET in
  let self :=
    {| ip := ip; port := port; timeout := timeout;
       auto_timeout := auto_timeout;
       _sock := {| family := fam; sock_timeout := 0; shut_down := false;
                   closed := false; tls := false |} |} in
  settimeout self timeout.

(** The text of the [ProtocolError] the three socket operations raise:
    ['{} {} during socket.<op>()'.format(e.__class__.__name__, e)]. *)
Definition during (e : exn) (op : string) : exn :=
  mkExn ProtocolError_
    (class_name (e_class e) ++ lit " " ++ e_str e ++ lit " during " ++ lit op).

(** [connect]: [c] is what [self._sock.connect((ip, port))] does. *)
Definition connect (self : t) (c : os_call unit) : t * result unit :=
  match outcome c with
  | Raise e =>
    if catches OSError_ e
    then (set_sock self (sock_close (_sock self)),
          Raise (during e "socket.connect()"))
    else (self, Raise e)
  | Ok _ => (_decrease_timeout self (elapsed c), Ok tt)
  end.

(** [wrap_ssl]: [c] is what [context.wrap_socket] (the handshake) does.
    [wrap_socket] takes the descriptor over from the plain socket and, when
    the handshake fails with an [OSError] or a [ValueError], closes it before
    the exception propagates ([ssl.SSLSocket._create]): after such a failure
    the handle is closed, whether [wrap_ssl] catches the exception or not. *)
Definition wrap_ssl (self : t) (context : option SSLContext)
    (c : SSLContext -> os_call unit) : t * result unit :=
  let context :=
    match context with
    | None => create_default_context
    | Some ctx => ctx
    end in
  match outcome (c context) with
  | Raise e =>
    if catches SSLError_ e
    then (set_sock self (sock_close (_sock self)),
          Raise (mkExn ProtocolError_
                   (lit "SSL error: " ++ e_str e
                    ++ lit " during TLS handshake")))
    else if catches OSError_ e || catches ValueError_ e
    then (set_sock self (sock_close (_sock self)), Raise e)
    else (self, Raise e)
  | Ok _ =>
    let s := _sock self in
    (set_sock self
       {| family := family s; sock_timeout := sock_timeout s;
          shut_down := shut_down s; closed := closed s; tls := true |},
     Ok tt)
  end.

(** [sendall]: [c] is what [self._sock.sendall(b)] does. *)
Definition sendall (self : t) (b : bytes) (c : os_call unit)
    : t * result unit :=
  match outcome c with
  | Raise e =>
    if catches OSError_ e
    then (set_sock self (sock_close (_sock self)),
          Raise (during e "socket.sendall()"))
    else (self, Raise e)
  | Ok _ => (_decrease_timeout self (elapsed c), Ok tt)
  end.

(** [recv]: [c] is what [self._sock.recv(RECV_BUFF_SIZE)] does. *)
Definition recv (self : t) (c : os_call bytes) : t * result bytes :=
  match outcome c with
  | Raise e =>
    if catches OSError_ e
    then (set_sock self (sock_close (_sock self)),
          Raise (during e "socket.recv()"))
    else (self, Raise e)
  | Ok received => (_decrease_timeout self (elapsed c), Ok received)
  end.

(** [close]: [sd] is what [self._sock.shutdown(SHUT_RDWR)] does.  The
    handle is closed by the statement after the shutdown, inside the same
    [try]; [socket.close()] itself is taken not to raise. *)
Definition close (self : t) (sd : result unit)
    : logged (t * result unit) :=
  match sd with
  | Ok _ =>
    let s := _sock self in
    ([], (set_sock self
            (sock_close
               {| family := family s; sock_timeout := sock_timeout s;
                  shut_down := true; closed := closed s; tls := tls s |}),
          Ok tt))
  | Raise e =>
    if catches OSError_ e
    then ([(WARNING,
            lit "Got " ++ class_name (e_class e) ++ lit " " ++ e_str e
            ++ lit " when shutting down and closing the socket")],
          (self, Ok tt))
    else ([], (self, Raise e))
  end.

End TCPSocket.

(* ================================================================== *)
(** * polaris_health/monitors: the base class *)
(* ================================================================== *)

(** Modelled from the spec: [BaseMonitor] and its [__init__]
    (polaris_health/monitors/__init__.py is not among the sources).  The
    monitor configuration is interval, timeout and retries, owned by the
    monitor instance; the specification puts no construction-time constraint
    on them, so the base constructor only stores them. *)
Record BaseMonitor := mkBase {
  interval : Q;
  timeout : Q;
  retries : Z
}.

Definition BaseMonitor__init__ (interval timeout : Q) (retries : Z)
    : BaseMonitor :=
  {| interval := interval; timeout := timeout; retries := retries |}.

(** [LOG.error(log_msg); raise Error(log_msg)]. *)
Definition raise_Error {A : Type} (log_msg : pystr) : logged (result A) :=
  ([(ERROR, log_msg)], Raise (mkExn Error_ log_msg)).

(** [LOG.error(log_msg); raise MonitorFailed(log_msg)]. *)
Definition raise_MonitorFailed {A : Type} (log_msg : pystr)
    : logged (result A) :=
  ([(ERROR, log_msg)], Raise (mkExn MonitorFailed_ log_msg)).

(* ================================================================== *)
(** * polaris_health/monitors/tcp.py *)
(* ================================================================== *)

Module TCP.
Section WithPython.
Context {Py : PythonLib}.

(** Maximum allowed length of the [match_re] parameter. *)
Definition MAX_MATCH_RE_LEN : nat := 128.
(** Maximum allowed length of the [send_string] parameter. *)
Definition MAX_SEND_STRING_LEN : nat := 256.

(** The attributes of a [TCP] monitor. *)
Record t := mkTCP {
  base : BaseMonitor;
  name : pystr;
  port : Z;
  use_tls : bool;
  verify_tls : bool;
  match_re : option pystr;
  _match_re_compiled : option regex;
  send_string : option pystr;
  _send_bytes : option bytes
}.

(** The [### port ###] block of [__init__]. *)
Definition init_port (port : pyval) : logged (result Z) :=
  match as_int port with
  | Some z =>
    if (z <? 1)%Z || (z >? 65535)%Z
    then raise_Error (lit "port " ++ [34%N] ++ str_of_pyval port ++ [34%N]
                      ++ lit " must be an integer between 1 and 65535")
    else ([], Ok z)
  | None =>
    raise_Error (lit "port " ++ [34%N] ++ str_of_pyval port ++ [34%N]
                 ++ lit " must be an integer between 1 and 65535")
  end.

(** The [### match_re ###] block of [__init__]: the pattern and its compiled
    form. *)
Definition init_match_re (match_re : pyval)
    : logged (result (option pystr * option regex)) :=
  match match_re with
  | PyNone => ([], Ok (None, None))
  | _ =>
    match as_str match_re with
    | Some s =>
      if (MAX_MATCH_RE_LEN <? List.length s)%nat
      then raise_Error (lit "match_re " ++ [34%N] ++ s ++ [34%N]
                        ++ lit " must be a string, "
                        ++ str_of_int (Z.of_nat MAX_MATCH_RE_LEN)
                        ++ lit " chars max")
      else
        match re_compile_I s with
        | Ok r => ([], Ok (Some s, Some r))
        | Raise e =>
          if catches Exception_ e
          then raise_Error
                 (lit "failed to compile a regular expression from "
                  ++ [34%N] ++ s ++ [34%N] ++ lit ", " ++ e_str e)
          else ([], Raise e)
        end
    | None =>
      raise_Error (lit "match_re " ++ [34%N] ++ str_of_pyval match_re
                   ++ [34%N] ++ lit " must be a string, "
                        ++ str_of_int (Z.of_nat MAX_MATCH_RE_LEN)
                        ++ lit " chars max")
    end
  end.

(** The [### send_string ###] block of [__init__]: the string and its bytes. *)
Definition init_send_string (send_string : pyval)
    : logged (result (option pystr * option bytes)) :=
  match send_string with
  | PyNone => ([], Ok (None, None))
  | _ =>
    match as_str send_string with
    | Some s =>
      if (MAX_SEND_STRING_LEN <? List.length s)%nat
      then raise_Error (lit "send_string " ++ [34%N] ++ s ++ [34%N]
                        ++ lit " must be a string, "
                        ++ str_of_int (Z.of_nat MAX_SEND_STRING_LEN)
                        ++ lit " chars max")
      else
        match encode s with
        | Ok b => ([], Ok (Some s, Some b))
        | Raise e => ([], Raise e)
        end
    | None =>
      raise_Error (lit "send_string " ++ [34%N] ++ str_of_pyval send_string
                   ++ [34%N] ++ lit " must be a string, "
                        ++ str_of_int (Z.of_nat MAX_SEND_STRING_LEN)
                        ++ lit " chars max")
    end
  end.

(** [TCP.__init__]: the checks run in the order port, match_re, send_string;
    the first that fails ends the construction. *)
Definition __init__ (port : pyval) (use_tls verify_tls : bool)
    (send_string match_re : pyval) (interval timeout : Q) (retries : Z)
    : logged (result t) :=
  let b := BaseMonitor__init__ interval timeout retries in
  match init_port port with
  | (l, Raise e) => (l, Raise e)
  | (l, Ok p) =>
    match init_match_re match_re with
    | (l', Raise e) => (l ++ l', Raise e)
    | (l', Ok (re, compiled)) =>
      match init_send_string send_string with
      | (l'', Raise e) => (l ++ l' ++ l'', Raise e)
      | (l'', Ok (ss, sb)) =>
        (l ++ l' ++ l'',
         Ok {| base := b; name := lit "tcp"; port := p; use_tls := use_tls;
               verify_tls := verify_tls; match_re := re;
               _match_re_compiled := compiled; send_string := ss;
               _send_bytes := sb |})
      end
    end
  end.

(** What the network does during one [run]: the outcome of the connect, of
    the TLS handshake (it may depend on the context), of the send, of the
    successive receives, and of the shutdown inside [close]. *)
Record network := mkNetwork {
  net_connect : os_call unit;
  net_handshake : TCPSocket.SSLContext -> os_call unit;
  net_sendall : os_call unit;
  net_recv : list (os_call bytes);
  net_shutdown : result unit
}.

(** How a [run] stands when the events of the network have been consumed:
    it returned, it raised, or it is still in the read loop, waiting in
    [recv] with the response accumulated so far. *)
Inductive status :=
| Returned
| Raised (e : exn)
| Receiving (response_string : pystr).

Record outcome := mkOutcome {
  sock : TCPSocket.t;
  log : list log_record;
  result_of : status
}.

(** [tcp_sock.close(); return]. *)
Definition close_and_return (tcp_sock : TCPSocket.t) (sd : result unit)
    : outcome :=
  match TCPSocket.close tcp_sock sd with
  | (l, (s, Ok _)) => {| sock := s; log := l; result_of := Returned |}
  | (l, (s, Raise e)) => {| sock := s; log := l; result_of := Raised e |}
  end.

(** The [try] block of [run]: connect, TLS handshake if [use_tls], send if
    there is a [send_string]. *)
Definition connect_and_send (self : t) (tcp_sock : TCPSocket.t)
    (net : network) : TCPSocket.t * result unit :=
  match TCPSocket.connect tcp_sock (net_connect net) with
  | (s1, Raise e) => (s1, Raise e)
  | (s1, Ok _) =>
    let wrapped :=
      if use_tls self then
        let context := TCPSocket.create_default_context in
        let context :=
          if negb (verify_tls self)
          then {| TCPSocket.check_hostname := false;
                  TCPSocket.verify := TCPSocket.CERT_NONE |}
          else context in
        TCPSocket.wrap_ssl s1 (Some context) (net_handshake net)
      else (s1, Ok tt) in
    match wrapped with
    | (s2, Raise e) => (s2, Raise e)
    | (s2, Ok _) =>
      match send_string self with
      | Some _ =>
        match _send_bytes self with
        | Some b => TCPSocket.sendall s2 b (net_sendall net)
        | None =>
          (s2, Raise (mkExn TypeError_
                        (lit "a bytes-like object is required, not 'NoneType'")))
        end
      | None => (s2, Ok tt)
      end
    end
  end.

(** [response_string[:512]]. *)
Definition up_to_512 (response_string : pystr) : pystr :=
  firstn 512 response_string.

(** The message of the failure after [recv] raised [e]. *)
Definition recv_error_msg (e : exn) (response_string : pystr) : pystr :=
  match response_string with
  | [] => lit "got " ++ e_str e ++ lit ", no data received from the peer"
  | _ =>
    lit "failed to match the regexp within the timeout, got " ++ e_str e
    ++ lit ", response(up to 512 chars): " ++ up_to_512 response_string
  end.

(** The message of the failure after [recv] returned [b'']. *)
Definition remote_closed_msg (response_string : pystr) : pystr :=
  match response_string with
  | [] => lit "remote closed the connection, no data received from the peer"
  | _ =>
    lit "remote closed the connection, failed to match the regexp in the response(up to 512 chars): "
    ++ up_to_512 response_string
  end.

(** The [while True] loop of [run], over the receives the network delivers.
    When they are used up the run is still waiting in [recv]. *)
Fixpoint read_loop (self : t) (tcp_sock : TCPSocket.t)
    (response_string : pystr) (recvs : list (os_call bytes))
    (sd : result unit) : outcome :=
  match recvs with
  | [] =>
    {| sock := tcp_sock; log := [];
       result_of := Receiving response_string |}
  | c :: recvs' =>
    match TCPSocket.recv tcp_sock c with
    | (s, Raise e) =>
      if catches ProtocolError_ e
      then {| sock := s; log := [];
              result_of :=
                Raised (mkExn MonitorFailed_
                          (recv_error_msg e response_string)) |}
      else {| sock := s; log := []; result_of := Raised e |}
    | (s, Ok []) =>
      (* remote side closed connection, no call of close() *)
      {| sock := s; log := [];
         result_of :=
           Raised (mkExn MonitorFailed_
                     (remote_closed_msg response_string)) |}
    | (s, Ok recv_bytes) =>
      let response_string :=
        response_string ++ utf8_decode_ignore recv_bytes in
      match _match_re_compiled self with
      | Some r =>
        if re_search r response_string
        then close_and_return s sd
        else read_loop self s response_string recvs' sd
      | None =>
        {| sock := s; log := [];
           result_of :=
             Raised (mkExn AttributeError_
                       (lit "'NoneType' object has no attribute 'search'")) |}
      end
    end
  end.

(** [TCP.run]. *)
Definition run (self : t) (dst_ip : pystr) (net : network) : outcome :=
  let tcp_sock :=
    TCPSocket.__init__ dst_ip (port self) (timeout (base self)) true in
  match connect_and_send self tcp_sock net with
  | (s, Raise e) =>
    if catches ProtocolError_ e
    then {| sock := s; log := [];
            result_of := Raised (mkExn MonitorFailed_ (e_str e)) |}
    else {| sock := s; log := []; result_of := Raised e |}
  | (s, Ok _) =>
    match match_re self with
    | None => close_and_return s (net_shutdown net)
    | Some _ => read_loop self s [] (net_recv net) (net_shutdown net)
    end
  end.

End WithPython.
End TCP.

(* ================================================================== *)
(** * polaris_health/monitors/external.py *)
(* ================================================================== *)

Module ExternalScript.
Section WithPython.
Context {Py : PythonLib}.

(** Maximum allowed length of the [match_re] parameter. *)
Definition MAX_MATCH_RE_LEN : nat := 128.

(** The attributes of an [ExternalScript] monitor. *)
Record t := mkExternalScript {
  base : BaseMonitor;
  name : pystr;
  script_path : pystr;
  match_re : option pystr;
  _match_re_compiled : option regex
}.

(** [ExternalScript.__init__]. *)
Definition __init__ (script_path match_re : pyval) (interval timeout : Q)
    (retries : Z) : logged (result t) :=
  let b := BaseMonitor__init__ interval timeout retries in
  match as_str script_path with
  | None =>
    raise_Error (lit "script_path must be a valid string, received "
                 ++ [34%N] ++ str_of_pyval script_path ++ [34%N])
  | Some path =>
    let mk re compiled :=
      {| base := b; name := lit "external_script"; script_path := path;
         match_re := re; _match_re_compiled := compiled |} in
    match match_re with
    | PyNone => ([], Ok (mk None None))
    | _ =>
      match as_str match_re with
      | Some s =>
        if (MAX_MATCH_RE_LEN <? List.length s)%nat
        then raise_Error (lit "match_re " ++ [34%N] ++ s ++ [34%N]
                          ++ lit " must be a string, "
                        ++ str_of_int (Z.of_nat MAX_MATCH_RE_LEN)
                        ++ lit " chars max")
        else
          match re_compile_I s with
          | Ok r => ([], Ok (mk (Some s) (Some r)))
          | Raise e =>
            if catches Exception_ e
            then raise_Error
                   (lit "failed to compile a regular expression from "
                    ++ [34%N] ++ s ++ [34%N] ++ lit ": " ++ e_str e)
            else ([], Raise e)
          end
      | None =>
        raise_Error (lit "match_re " ++ [34%N] ++ str_of_pyval match_re
                     ++ [34%N] ++ lit " must be a string, "
                        ++ str_of_int (Z.of_nat MAX_MATCH_RE_LEN)
                        ++ lit " chars max")
      end
    end
  end.

(** The [subprocess.CompletedProcess] of the script, as captured with
    [capture_output=True, text=True]. *)
Record CompletedProcess := mkCompleted {
  stdout : pystr;
  stderr : pystr;
  returncode : Z
}.

(** [ExternalScript.run]: [proc] is what
    [subprocess.run([script_path, dst_ip], capture_output=True,
    timeout=self.timeout, text=True)] does. *)
Definition run (self : t) (dst_ip : pystr) (proc : result CompletedProcess)
    : logged (result unit) :=
  match proc with
  | Raise e =>
    if catches TimeoutExpired_ e
    then raise_MonitorFailed
           (lit "external script timed out after "
            ++ str_of_number (timeout (base self)) ++ lit " seconds")
    else if catches CalledProcessError_ e
    then raise_MonitorFailed
           (lit "external script failed with error: " ++ e_str e)
    else ([], Raise e)
  | Ok result =>
    let stdout := strip (stdout result) in
    let stderr := strip (stderr result) in
    let exit_code := returncode result in
    if negb (exit_code =? 0)%Z
    then raise_MonitorFailed
           (lit "external script failed with exit code "
            ++ str_of_int exit_code ++ lit ": stderr=" ++ stderr)
    else
      let success :=
        ([(INFO, lit "external script ran successfully with output: "
                 ++ stdout)], Ok tt) in
      match match_re self with
      | Some re =>
        match _match_re_compiled self with
        | Some r =>
          if negb (re_search r stdout)
          then raise_MonitorFailed
                 (lit "failed to match regexp " ++ [34%N] ++ re ++ [34%N]
                  ++ lit " in script output")
          else success
        | None =>
          ([], Raise (mkExn AttributeError_
                        (lit "'NoneType' object has no attribute 'search'")))
        end
      | None => success
      end
  end.

End WithPython.
End ExternalScript.

(* ================================================================== *)
(** * A small instance of the library interface *)
(* ================================================================== *)

(** An engine to run the model on concrete inputs: case-insensitive (ASCII)
    search of a literal text, optionally anchored with a leading [^] and a
    trailing [$]; every other use of a metacharacter is rejected with
    [re.error].  As in Python, [$] matches at the end of the text and before
    a newline that ends the text. *)
Module LiteralEngine.

Record t := mkRegex {
  at_start : bool;
  at_end : bool;
  text : pystr
}.

Definition lower (c : N) : N :=
  if ((65 <=? c) && (c <=? 90))%N then (c + 32)%N else c.

Definition metacharacters : pystr := lit ".^$*+?{}[]\|()".

Definition is_meta (c : N) : bool := existsb (N.eqb c) metacharacters.

Definition compile (p : pystr) : result t :=
  let (anchored, p1) :=
    match p with
    | 94%N :: p' => (true, p')
    | _ => (false, p)
    end in
  let (ended, p2) :=
    match rev p1 with
    | 36%N :: q => (true, rev q)
    | _ => (false, p1)
    end in
  if existsb is_meta p2
  then Raise (mkExn re_error_ (lit "unsupported pattern"))
  else Ok {| at_start := anchored; at_end := ended; text := map lower p2 |}.

Definition ends_here (s : pystr) : bool :=
  match s with
  | [] => true
  | [10%N] => true
  | _ => false
  end.

Definition match_here (r : t) (s : pystr) : bool :=
  starts_with (text r) s
  && (negb (at_end r) || ends_here (skipn (List.length (text r)) s)).

Fixpoint match_anywhere (r : t) (s : pystr) : bool :=
  match_here r s ||
  match s with
  | [] => false
  | _ :: s' => match_anywhere r s'
  end.

Definition search (r : t) (s : pystr) : bool :=
  let s := map lower s in
  if at_start r then match_here r s else match_anywhere r s.

(** Numbers print as an integer when they are one, as a fraction
    otherwise. *)
Definition str_of_number (q : Q) : pystr :=
  let q := Qred q in
  if Pos.eqb (Qden q) 1 then str_of_int (Qnum q)
  else str_of_int (Qnum q) ++ lit "/" ++ str_of_int (Z.pos (Qden q)).

End LiteralEngine.

#[export] Instance LiteralPython : PythonLib := {
  regex := LiteralEngine.t;
  re_compile_I := LiteralEngine.compile;
  re_search := LiteralEngine.search;
  str_of_number := LiteralEngine.str_of_number
}.

(** Two monitors as the constructor builds them with this engine, on which
    the model is run: port 80, no TLS, pattern "pong"; the same with the send
    string "PING" and the pattern "hello". *)
Definition pong_monitor : TCP.t :=
  {| TCP.base := BaseMonitor__init__ 10 5 2;
     TCP.name := lit "tcp";
     TCP.port := 80;
     TCP.use_tls := false;
     TCP.verify_tls := true;
     TCP.match_re := Some (lit "pong");
     TCP._match_re_compiled :=
       Some (LiteralEngine.mkRegex false false (lit "pong"));
     TCP.send_string := None;
     TCP._send_bytes := None |}.

Definition hello_monitor : TCP.t :=
  {| TCP.base := BaseMonitor__init__ 10 5 2;
     TCP.name := lit "tcp";
     TCP.port := 80;
     TCP.use_tls := false;
     TCP.verify_tls := true;
     TCP.match_re := Some (lit "hello");
     TCP._match_re_compiled :=
       Some (LiteralEngine.mkRegex false false (lit "hello"));
     TCP.send_string := Some (lit "PING");
     TCP._send_bytes := Some [x50; x49; x4e; x47] |}.

(** A script monitor with the pattern ^OK$. *)
Definition ok_script : ExternalScript.t :=
  {| ExternalScript.base := BaseMonitor__init__ 10 5 2;
     ExternalScript.name := lit "external_script";
     ExternalScript.script_path := lit "/usr/local/bin/check.sh";
     ExternalScript.match_re := Some (lit "^OK$");
     ExternalScript._match_re_compiled :=
       Some (LiteralEngine.mkRegex true true (lit "ok")) |}.

(* ================================================================== *)
(** * Notions used to state the properties *)
(* ================================================================== *)

(** Deadline decay, in the words of the specification: from a remaining
    timeout [T], after an operation that took [t], the remaining timeout of
    [self'] is [T - t] clamped at zero, it is not negative, and it is the
    timeout in force on the socket. *)
Definition decayed (T t : Q) (self' : TCPSocket.t) : Prop :=
  (t <= T -> TCPSocket.timeout self' = T - t)
  /\ (T < t -> TCPSocket.timeout self' = 0)
  /\ 0 <= TCPSocket.timeout self'
  /\ TCPSocket.sock_timeout (TCPSocket._sock self') = TCPSocket.timeout self'.

(** The exception is an [OSError] (of any subclass). *)
Definition os_failure (e : exn) : Prop := catches OSError_ e = true.

(** A monitor that its constructor has built. *)
Definition constructed `{PythonLib} (m : TCP.t) : Prop :=
  exists port use_tls verify_tls send_string match_re interval timeout retries,
    snd (TCP.__init__ port use_tls verify_tls send_string match_re
           interval timeout retries) = Ok m.

Definition script_constructed `{PythonLib} (m : ExternalScript.t) : Prop :=
  exists script_path match_re interval timeout retries,
    snd (ExternalScript.__init__ script_path match_re interval timeout retries)
    = Ok m.

(** The connection phase of a run of [m] meets no error: the connect
    succeeds, and so do the handshake when [m] uses TLS and the send when
    [m] has a string to send. *)
Definition connection_succeeds `{PythonLib} (m : TCP.t) (net : TCP.network)
    : Prop :=
  outcome (TCP.net_connect net) = Ok tt
  /\ (TCP.use_tls m = true ->
      forall ctx, outcome (TCP.net_handshake net ctx) = Ok tt)
  /\ (TCP.send_string m <> None -> outcome (TCP.net_sendall net) = Ok tt).

(** The shutdown inside [close] succeeds or fails with an OS error. *)
Definition shutdown_is_os_level `{PythonLib} (net : TCP.network) : Prop :=
  forall e, TCP.net_shutdown net = Raise e -> os_failure e.

(** The receives [recvs] deliver exactly the chunks [chunks], each of them
    with data in it. *)
Definition delivers (recvs : list (os_call bytes)) (chunks : list bytes)
    : Prop :=
  map (@outcome bytes) recvs = map Ok chunks
  /\ Forall (fun c => c <> []) chunks.

(** The text accumulated from the chunks: each chunk decoded, in order. *)
Definition accumulated (chunks : list bytes) : pystr :=
  List.concat (map utf8_decode_ignore chunks).

(** No match has been found while the chunks came in: after each chunk the
    search in the buffer accumulated from [buf] fails. *)
Fixpoint unmatched `{PythonLib} (r : regex) (buf : pystr)
    (chunks : list bytes) : bool :=
  match chunks with
  | [] => true
  | c :: cs =>
    negb (re_search r (buf ++ utf8_decode_ignore c))
    && unmatched r (buf ++ utf8_decode_ignore c) cs
  end.

(** Bytes by their role in UTF-8: an ASCII byte, a byte that cannot start a
    sequence (a continuation byte, C0, C1, F5..FF), a lead byte of a
    multi-byte sequence. *)
Definition is_ascii (b : byte) : bool := (Byte.to_N b <? 0x80)%N.

Definition invalid_start (b : byte) : bool :=
  let n := Byte.to_N b in
  ((0x80 <=? n) && (n <? 0xC2) || (0xF5 <=? n))%N.

Definition is_lead (b : byte) : bool :=
  let n := Byte.to_N b in ((0xC2 <=? n) && (n <? 0xF5))%N.

(** The data starts with the encoding of a character. *)
Definition starts_character (s : bytes) : Prop :=
  exists c rest, is_scalar c = true /\ s = utf8_encode_char c ++ rest.

(** [subsequence a b]: [a] is [b] with some of its elements taken out. *)
Inductive subsequence {A : Type} : list A -> list A -> Prop :=
| sub_nil : subsequence [] []
| sub_keep x a b : subsequence a b -> subsequence (x :: a) (x :: b)
| sub_drop x a b : subsequence a b -> subsequence a (x :: b).

(** The construction-time constraints, in the words of the specification:
    the port is an integer in [1, 65535]; the pattern, when there is one, is
    textual, of at most 128 characters, and compiles as a case-insensitive
    regular expression; the send payload, when there is one, is textual and
    of at most 256 characters. *)
Definition port_ok (port : pyval) : bool :=
  match as_int port with
  | Some z => ((1 <=? z) && (z <=? 65535))%Z
  | None => false
  end.

Definition pattern_ok `{PythonLib} (match_re : pyval) : bool :=
  match match_re with
  | PyNone => true
  | PyStr p =>
    (List.length p <=? 128)%nat
    && match re_compile_I p with Ok _ => true | Raise _ => false end
  | _ => false
  end.

Definition payload_ok (send_string : pyval) : bool :=
  match send_string with
  | PyNone => true
  | PyStr s => (List.length s <=? 256)%nat
  | _ => false
  end.

(** The payload has a UTF-8 encoding (it holds no surrogate code point). *)
Definition encodable (send_string : pyval) : bool :=
  match send_string with
  | PyStr s => negb (existsb is_surrogate s)
  | _ => true
  end.

(** The construction raised the validation error [polaris_health.Error]. *)
Definition raises_Error {A : Type} (r : logged (result A)) : bool :=
  match snd r with
  | Raise e => class_eqb (e_class e) Error_
  | Ok _ => false
  end.

(** A text with no white space at either end. *)
Definition trimmed (s : pystr) : bool :=
  match s, rev s with
  | c :: _, d :: _ => negb (isspace c) && negb (isspace d)
  | _, _ => true
  end.

(* ================================================================== *)
(** * Sequences of socket operations *)
(* ================================================================== *)

(** The operations a client performs on a [TCPSocket], each with what the
    operating system does when it is called. *)
Inductive socket_op :=
| do_connect (c : os_call unit)
| do_wrap_ssl (context : option TCPSocket.SSLContext)
    (c : TCPSocket.SSLContext -> os_call unit)
| do_sendall (b : bytes) (c : os_call unit)
| do_recv (c : os_call bytes)
| do_close (sd : result unit).

(** The socket after one operation, and after a sequence of them. *)
Definition perform (self : TCPSocket.t) (o : socket_op) : TCPSocket.t :=
  match o with
  | do_connect c => fst (TCPSocket.connect self c)
  | do_wrap_ssl context c => fst (TCPSocket.wrap_ssl self context c)
  | do_sendall b c => fst (TCPSocket.sendall self b c)
  | do_recv c => fst (TCPSocket.recv self c)
  | do_close sd => fst (snd (TCPSocket.close self sd))
  end.

Definition perform_all (self : TCPSocket.t) (ops : list socket_op)
    : TCPSocket.t :=
  fold_left perform ops self.

(** The clock is monotonic: the time measured for an operation is not
    negative. *)
Definition measured_nonneg (o : socket_op) : Prop :=
  match o with
  | do_connect c => 0 <= elapsed c
  | do_sendall _ c => 0 <= elapsed c
  | do_recv c => 0 <= elapsed c
  | do_wrap_ssl _ _ => True
  | do_close _ => True
  end.

(** The times measured during a run of [m] that consumes the receives
    [recvs]: the connect, the send when there is a string to send, and each
    receive. *)
Definition charged_times `{PythonLib} (m : TCP.t) (net : TCP.network)
    (recvs : list (os_call bytes)) : list Q :=
  elapsed (TCP.net_connect net)
  :: match TCP.send_string m with
     | Some _ => [elapsed (TCP.net_sendall net)]
     | None => []
     end
  ++ map (@elapsed bytes) recvs.

(** What a socket knows of time: the remaining timeout, the timeout in
    force on the underlying socket, and the [auto_timeout] flag. *)
Definition time_view (s : TCPSocket.t) : Q * Q * bool :=
  (TCPSocket.timeout s, TCPSocket.sock_timeout (TCPSocket._sock s),
   TCPSocket.auto_timeout s).

(** Whether the handle is shut down and whether it is closed. *)
Definition handle_view (s : TCPSocket.t) : bool * bool :=
  (TCPSocket.shut_down (TCPSocket._sock s),
   TCPSocket.closed (TCPSocket._sock s)).

(** The network [net] with other receives. *)
Definition with_recv `{PythonLib} (net : TCP.network)
    (recvs : list (os_call bytes)) : TCP.network :=
  {| TCP.net_connect := TCP.net_connect net;
     TCP.net_handshake := TCP.net_handshake net;
     TCP.net_sendall := TCP.net_sendall net;
     TCP.net_recv := recvs;
     TCP.net_shutdown := TCP.net_shutdown net |}.

(** What a run may have logged: nothing, or the one warning of a shutdown
    that failed with an OS error, in a run that returned. *)
Definition quiet_or_warned `{PythonLib} (net : TCP.network)
    (out : TCP.outcome) : Prop :=
  TCP.log out = []
  \/ exists e,
      TCP.net_shutdown net = Raise e /\ os_failure e
      /\ TCP.result_of out = TCP.Returned
      /\ TCP.log out
         = [(WARNING,
             lit "Got " ++ class_name (e_class e) ++ lit " " ++ e_str e
             ++ lit " when shutting down and closing the socket")].

(** The two TLS policies of the monitor: certificates and host names are
    verified, or neither is. *)
Definition strict_context : TCPSocket.SSLContext :=
  {| TCPSocket.check_hostname := true;
     TCPSocket.verify := TCPSocket.CERT_REQUIRED |}.

Definition lax_context : TCPSocket.SSLContext :=
  {| TCPSocket.check_hostname := false;
     TCPSocket.verify := TCPSocket.CERT_NONE |}.

(* ================================================================== *)
(** * Properties of the socket helper *)
(* ================================================================== *)

Section Decay.
Import TCPSocket.

Lemma decrease_timeout_decayed (self : t) (time_taken : Q) :
  auto_timeout self = true ->
  decayed (timeout self) time_taken (_decrease_timeout self time_taken).
Proof.
  intros Hauto. unfold decayed, _decrease_timeout. rewrite Hauto. cbn.
  destruct (Qlt_le_dec (timeout self - time_taken) 0) as [Hneg | Hpos]; cbn.
  - repeat split; try reflexivity.
    + intros Hle. exfalso.
      apply (Qlt_not_le _ _ Hneg).
      unfold Qminus. rewrite <- (Qplus_opp_r time_taken).
      apply Qplus_le_l. exact Hle.
    + apply Qle_refl.
  - repeat split; try reflexivity.
    + intros Hlt. exfalso.
      apply (Qlt_not_le _ _ Hlt).
      apply Qplus_le_l with (z := - time_taken).
      rewrite Qplus_opp_r. exact Hpos.
    + exact Hpos.
Qed.

Lemma decrease_timeout_auto (self : t) (time_taken : Q) :
  auto_timeout (_decrease_timeout self time_taken) = auto_timeout self.
Proof.
  unfold _decrease_timeout. destruct (auto_timeout self) eqn:Hauto; cbn.
  - destruct (Qlt_le_dec (timeout self - time_taken) 0); cbn; exact Hauto.
  - exact Hauto.
Qed.

(** The handshake takes nothing from the remaining timeout, however long it
    lasts and however it ends. *)
Lemma wrap_ssl_keeps_timeout (self : t) (context : option SSLContext)
    (c : SSLContext -> os_call unit) :
  timeout (fst (wrap_ssl self context c)) = timeout self
  /\ sock_timeout (_sock (fst (wrap_ssl self context c)))
     = sock_timeout (_sock self).
Proof.
  unfold wrap_ssl.
  destruct (outcome (c _)) as [u | e]; [split; reflexivity |].
  destruct (catches SSLError_ e); [split; reflexivity |].
  destruct (catches OSError_ e || catches ValueError_ e); split; reflexivity.
Qed.

End Decay.

(** C1 (as amended).  For a [TCPSocket] with [auto_timeout] enabled and each
    of [connect], [sendall] and [recv]: when the operation succeeds after an
    elapsed time [t], with remaining timeout [T] before it, the remaining
    timeout afterwards is [T - t] clamped at zero and it is the timeout set on
    the socket for the next operation; when the operation raises, the
    remaining timeout is left as it was, and for an OS error the socket is
    closed and a [ProtocolError] is raised. *)
Theorem timeout_decay_on_success
    (self : TCPSocket.t) (b : bytes)
    (c : os_call unit) (cr : os_call bytes)
    (Hauto : TCPSocket.auto_timeout self = true) :
  let T := TCPSocket.timeout self in
  (* the operation succeeds *)
  (forall v, outcome c = Ok v ->
     decayed T (elapsed c) (fst (TCPSocket.connect self c))
     /\ snd (TCPSocket.connect self c) = Ok tt
     /\ decayed T (elapsed c) (fst (TCPSocket.sendall self b c))
     /\ snd (TCPSocket.sendall self b c) = Ok tt)
  /\ (forall received, outcome cr = Ok received ->
     decayed T (elapsed cr) (fst (TCPSocket.recv self cr))
     /\ snd (TCPSocket.recv self cr) = Ok received)
  (* the operation raises *)
  /\ (forall e, outcome c = Raise e ->
     TCPSocket.timeout (fst (TCPSocket.connect self c)) = T
     /\ TCPSocket.timeout (fst (TCPSocket.sendall self b c)) = T
     /\ (os_failure e ->
         TCPSocket.closed (TCPSocket._sock (fst (TCPSocket.connect self c)))
           = true
         /\ TCPSocket.closed (TCPSocket._sock (fst (TCPSocket.sendall self b c)))
           = true
         /\ (exists m, snd (TCPSocket.connect self c)
                       = Raise (mkExn ProtocolError_ m))
         /\ (exists m, snd (TCPSocket.sendall self b c)
                       = Raise (mkExn ProtocolError_ m))))
  /\ (forall e, outcome cr = Raise e ->
     TCPSocket.timeout (fst (TCPSocket.recv self cr)) = T
     /\ (os_failure e ->
         TCPSocket.closed (TCPSocket._sock (fst (TCPSocket.recv self cr)))
           = true
         /\ (exists m, snd (TCPSocket.recv self cr)
                       = Raise (mkExn ProtocolError_ m)))).
Proof.
  intros T. unfold os_failure.
  unfold TCPSocket.connect, TCPSocket.sendall, TCPSocket.recv.
  split; [| split; [| split]].
  - intros v H. rewrite H. cbn [fst snd].
    pose proof (decrease_timeout_decayed self (elapsed c) Hauto) as D.
    split; [exact D | split; [reflexivity | split; [exact D | reflexivity]]].
  - intros received H. rewrite H. cbn [fst snd].
    split; [apply decrease_timeout_decayed, Hauto | reflexivity].
  - intros e H. rewrite H.
    destruct (catches OSError_ e); cbn [fst snd].
    + split; [reflexivity | split; [reflexivity |]].
      intros _. split; [reflexivity | split; [reflexivity |]].
      split; eexists; reflexivity.
    + split; [reflexivity | split; [reflexivity |]]. discriminate.
  - intros e H. rewrite H.
    destruct (catches OSError_ e); cbn [fst snd].
    + split; [reflexivity |]. intros _.
      split; [reflexivity | eexists; reflexivity].
    + split; [reflexivity | discriminate].
Qed.

Lemma timeout_decay_on_success_witness :
  let self := TCPSocket.__init__ (lit "10.0.0.1") 80 5 true in
  TCPSocket.auto_timeout self = true
  /\ decayed 5 (3 # 2)
       (fst (TCPSocket.recv self (mkCall (3 # 2) (Ok [x4f; x4b])))).
Proof.
  intros self. split; [reflexivity |].
  exact (proj1
           (proj1 (proj2 (timeout_decay_on_success self []
                            (mkCall 1 (Ok tt))
                            (mkCall (3 # 2) (Ok [x4f; x4b]))
                            eq_refl))
              [x4f; x4b] eq_refl)).
Defined.

(** C1, as stated, fails when the operation raises: a connect refused after
    one second, on a socket with five seconds left, leaves the remaining
    timeout at five seconds instead of four. *)
Lemma no_decay_when_connect_raises :
  let self := TCPSocket.__init__ (lit "10.0.0.1") 80 5 true in
  let c := mkCall 1 (Raise (mkExn ConnectionRefusedError_
                              (lit "[Errno 111] Connection refused"))) in
  TCPSocket.auto_timeout self = true
  /\ TCPSocket.timeout (fst (TCPSocket.connect self c)) = 5
  /\ ~ decayed (TCPSocket.timeout self) (elapsed c)
         (fst (TCPSocket.connect self c)).
Proof.
  cbv zeta. split; [reflexivity | split; [reflexivity |]].
  intros [Hle _].
  assert (H : (1 <= 5)%Q) by (unfold Qle; cbn; lia).
  specialize (Hle H). vm_compute in Hle. discriminate Hle.
Qed.

(** C3.  The time of the TLS handshake is not taken from the remaining
    timeout.  A TLS monitor with a timeout of 5 seconds: the connect takes
    1 second and the handshake 3; the socket then still grants 4 seconds
    (5 - 1) to the receive, not the 1 second that is left of the budget; a
    receive that times out after those 4 seconds ends a run that has lasted
    1 + 3 + 4 = 8 seconds, each operation having kept within the timeout
    set on the socket. *)
Theorem handshake_time_is_not_subtracted :
  exists m,
    TCP.__init__ (PyInt 443) true true PyNone (PyStr (lit "ok")) 10 5 2
    = ([], Ok m)
    /\ let net :=
         {| TCP.net_connect := mkCall 1 (Ok tt);
            TCP.net_handshake := fun _ => mkCall 3 (Ok tt);
            TCP.net_sendall := mkCall 0 (Ok tt);
            TCP.net_recv :=
              [mkCall 4 (Raise (mkExn TimeoutError_ (lit "timed out")))];
            TCP.net_shutdown := Ok tt |} in
       let tcp_sock := TCPSocket.__init__ (lit "192.0.2.1") 443 5 true in
       let connected := fst (TCPSocket.connect tcp_sock (TCP.net_connect net)) in
       let ready := fst (TCP.connect_and_send m tcp_sock net) in
       (* the connect and the handshake keep within the timeout in force *)
       elapsed (TCP.net_connect net)
         <= TCPSocket.sock_timeout (TCPSocket._sock tcp_sock)
       /\ elapsed (TCP.net_handshake net TCPSocket.create_default_context)
          <= TCPSocket.sock_timeout (TCPSocket._sock connected)
       (* after them 4 seconds are granted, 1 second is left of the budget *)
       /\ TCPSocket.tls (TCPSocket._sock ready) = true
       /\ TCPSocket.timeout ready = 4
       /\ TCPSocket.sock_timeout (TCPSocket._sock ready) = 4
       /\ ~ TCPSocket.timeout ready == 5 - 1 - 3
       (* the receive times out within its 4 seconds: 8 seconds in all *)
       /\ TCP.result_of (TCP.run m (lit "192.0.2.1") net)
          = TCP.Raised
              (mkExn MonitorFailed_
                 (lit "got TimeoutError timed out during socket.recv(), no data received from the peer"))
       /\ 5 < 1 + 3 + 4.
Proof.
  eexists. split; [reflexivity |].
  cbv zeta.
  repeat apply conj; try reflexivity; discriminate.
Qed.

(** C6.  [close] leaves the handle open when the shutdown fails.  A monitor
    with no pattern connects, then closes; the shutdown raises [OSError]
    (the peer has reset the connection): the error is logged and not raised,
    the run returns successfully, and the handle has not been closed. *)
Theorem close_skipped_when_shutdown_fails :
  exists m,
    TCP.__init__ (PyInt 80) false true PyNone PyNone 10 5 2 = ([], Ok m)
    /\ let not_connected :=
         mkExn OSError_
           (lit "[Errno 107] Transport endpoint is not connected") in
       let net :=
         {| TCP.net_connect := mkCall 1 (Ok tt);
            TCP.net_handshake := fun _ => mkCall 0 (Ok tt);
            TCP.net_sendall := mkCall 0 (Ok tt);
            TCP.net_recv := [];
            TCP.net_shutdown := Raise not_connected |} in
       let out := TCP.run m (lit "192.0.2.1") net in
       TCP.result_of out = TCP.Returned
       /\ TCP.log out
          = [(WARNING,
              lit "Got OSError [Errno 107] Transport endpoint is not connected when shutting down and closing the socket")]
       /\ TCPSocket.closed (TCPSocket._sock (TCP.sock out)) = false.
Proof.
  eexists. split; [reflexivity |].
  cbv zeta. repeat apply conj; reflexivity.
Qed.

(* ================================================================== *)
(** * Decoding of the received bytes *)
(* ================================================================== *)

Section Decoding.

Lemma decode_invalid_start (b : byte) (rest : bytes) :
  invalid_start b = true ->
  utf8_decode_ignore (b :: rest) = utf8_decode_ignore rest.
Proof. destruct b; intros H; try discriminate H; reflexivity. Qed.

Lemma decode_ascii (b : byte) (rest : bytes) :
  is_ascii b = true ->
  utf8_decode_ignore (b :: rest) = Byte.to_N b :: utf8_decode_ignore rest.
Proof. destruct b; intros H; try discriminate H; reflexivity. Qed.

Lemma decode_ascii_prefix (pre post : bytes) :
  forallb is_ascii pre = true ->
  utf8_decode_ignore (pre ++ post)
  = map Byte.to_N pre ++ utf8_decode_ignore post.
Proof.
  induction pre as [| b pre IH]; intros H; [reflexivity |].
  cbn [forallb] in H. apply andb_prop in H as [Hb Hpre].
  cbn [app map]. rewrite decode_ascii by exact Hb. f_equal. apply IH, Hpre.
Qed.

Lemma decode_truncated (b : byte) :
  is_lead b = true -> utf8_decode_ignore [b] = [].
Proof. destruct b; intros H; try discriminate H; reflexivity. Qed.

(** Decoding never yields more characters than there are bytes. *)
Lemma decode_length_bounded (n : nat) :
  forall s : bytes,
    (List.length s <= n)%nat ->
    (List.length (utf8_decode_ignore s) <= List.length s)%nat.
Proof.
  induction n as [| n IH]; intros s Hn.
  - destruct s; [apply Nat.le_refl | cbn in Hn; lia].
  - destruct s as [| b1 r1]; [apply Nat.le_refl |].
    cbn [List.length] in Hn.
    assert (IH1 := IH r1).
    cbn [utf8_decode_ignore]. cbv zeta.
    repeat match goal with
           | |- context [if ?c then _ else _] => destruct c
           | |- context [match ?l with [] => _ | _ :: _ => _ end] =>
             is_var l; destruct l
           end;
      cbn [List.length] in *;
      repeat match goal with
             | |- context [List.length (utf8_decode_ignore ?l)] =>
               lazymatch goal with
               | _ : (List.length (utf8_decode_ignore l) <= _)%nat |- _ => fail
               | _ => assert (List.length (utf8_decode_ignore l)
                              <= List.length l)%nat
                   by (apply IH; cbn [List.length]; lia)
               end
             end;
      cbn [List.length] in *; lia.
Qed.

Lemma decode_length (s : bytes) :
  (List.length (utf8_decode_ignore s) <= List.length s)%nat.
Proof. apply decode_length_bounded with (n := List.length s), Nat.le_refl. Qed.

End Decoding.

(** The decoder on some texts: one character of each length; overlong forms
    and an encoded surrogate, which are errors; sequences broken at their
    third and second byte, which are dropped up to the offending byte; a
    character whose two bytes arrive in two chunks, which is lost, each half
    being an error in its chunk. *)
Example decode_valid_text :
  utf8_decode_ignore [x63; xc3; xa9; xe2; x82; xac; xf0; x9f; x98; x80]
  = [0x63; 0xE9; 0x20AC; 0x1F600]%N.
Proof. reflexivity. Qed.

Example decode_overlong_and_surrogate :
  utf8_decode_ignore [xc0; x80; xe0; x80; x80; xed; xa0; x80; x41]
  = [0x41]%N.
Proof. reflexivity. Qed.

Example decode_broken_sequences :
  utf8_decode_ignore [xe2; x82; x41; xf0; x9f; x42; xc3; x43]
  = [0x41; 0x42; 0x43]%N.
Proof. reflexivity. Qed.

Example split_character_is_lost :
  utf8_decode_ignore [xc3; xa9] = [0xE9]%N
  /\ accumulated [[xc3]; [xa9]] = [].
Proof. split; reflexivity. Qed.

Lemma decode_drops_invalid_starts (s : bytes) :
  forallb (fun b => is_ascii b || invalid_start b) s = true ->
  utf8_decode_ignore s = map Byte.to_N (filter is_ascii s).
Proof.
  induction s as [| b s IH]; intros H; [reflexivity |].
  cbn [forallb] in H. apply andb_prop in H as [Hb Hs].
  cbn [filter]. destruct (is_ascii b) eqn:Ha.
  - rewrite decode_ascii by exact Ha. cbn [map]. f_equal. apply IH, Hs.
  - cbn [orb] in Hb. rewrite decode_invalid_start by exact Hb. apply IH, Hs.
Qed.

(* ================================================================== *)
(** * The decoder, for every sequence of bytes *)
(* ================================================================== *)

(** The decoder is determined by three equations: the empty data decodes to
    the empty text; a well-formed character at the head of the data is
    decoded ([decode_encode_char]); a byte at which no well-formed character
    starts is dropped and decoding resumes after it ([decode_undecodable]).
    The proofs go through the fields of the bytes of a sequence. *)

Local Open Scope N_scope.
Unset Implicit Arguments.

Ltac dlia := zify; Z.to_euclidean_division_equations; lia.

Lemma forall_below (n : nat) (f : N -> bool) :
  forallb f (map N.of_nat (seq 0 n)) = true ->
  forall x, x < N.of_nat n -> f x = true.
Proof.
  intros H x Hx. rewrite forallb_forall in H. apply H.
  apply in_map_iff. exists (N.to_nat x). split; [apply N2Nat.id |].
  apply in_seq. lia.
Qed.

Lemma to_N_byte_of_N (n : N) : n < 256 -> Byte.to_N (byte_of_N n) = n.
Proof.
  intros H. apply N.eqb_eq.
  apply (forall_below 256 (fun x => Byte.to_N (byte_of_N x) =? x));
    [vm_compute; reflexivity | exact H].
Qed.

Lemma byte_of_to_N (b : byte) : byte_of_N (Byte.to_N b) = b.
Proof. destruct b; reflexivity. Qed.

Lemma to_N_lt_256 (b : byte) : Byte.to_N b < 256.
Proof. destruct b; reflexivity. Qed.

(** A field of [k] bits under the marker [hi] of a UTF-8 byte. *)
Lemma utf8_field (hi mask x : N) :
  (hi = 0x80 /\ mask = 0x3F \/ hi = 0xC0 /\ mask = 0x1F
   \/ hi = 0xE0 /\ mask = 0x0F \/ hi = 0xF0 /\ mask = 0x07) ->
  x <= mask ->
  N.lor hi x = hi + x /\ N.land (hi + x) mask = x.
Proof.
  intros Hhi Hx.
  assert (H : forall h k, x < N.of_nat k ->
            forallb (fun x => (N.lor h x =? h + x)
                              && (N.land (h + x) (N.of_nat k - 1) =? x))
              (map N.of_nat (seq 0 k)) = true ->
            N.lor h x = h + x /\ N.land (h + x) (N.of_nat k - 1) = x).
  { intros h k Hk Hall.
    pose proof (forall_below k _ Hall x Hk) as E. cbv beta in E.
    apply andb_prop in E as [E1 E2].
    split; apply N.eqb_eq; assumption. }
  destruct Hhi as [[-> ->] | [[-> ->] | [[-> ->] | [-> ->]]]].
  - apply (H 0x80 64%nat); [lia | vm_compute; reflexivity].
  - apply (H 0xC0 32%nat); [lia | vm_compute; reflexivity].
  - apply (H 0xE0 16%nat); [lia | vm_compute; reflexivity].
  - apply (H 0xF0 8%nat); [lia | vm_compute; reflexivity].
Qed.

Lemma shiftl_6 a : N.shiftl a 6 = a * 64.
Proof. rewrite N.shiftl_mul_pow2. reflexivity. Qed.
Lemma shiftl_12 a : N.shiftl a 12 = a * 4096.
Proof. rewrite N.shiftl_mul_pow2. reflexivity. Qed.
Lemma shiftl_18 a : N.shiftl a 18 = a * 262144.
Proof. rewrite N.shiftl_mul_pow2. reflexivity. Qed.
Lemma shiftr_6 a : N.shiftr a 6 = a / 64.
Proof. rewrite N.shiftr_div_pow2. reflexivity. Qed.
Lemma shiftr_12 a : N.shiftr a 12 = a / 4096.
Proof. rewrite N.shiftr_div_pow2. reflexivity. Qed.
Lemma shiftr_18 a : N.shiftr a 18 = a / 262144.
Proof. rewrite N.shiftr_div_pow2. reflexivity. Qed.
Lemma land_63 a : N.land a 0x3F = a mod 64.
Proof. change 0x3F with (N.ones 6). rewrite N.land_ones. reflexivity. Qed.

(** The encoding of a character given by its fields. *)
Lemma encode_2 (a x : N) :
  2 <= a < 32 -> x < 64 ->
  utf8_encode_char (a * 64 + x)
  = [byte_of_N (0xC0 + a); byte_of_N (0x80 + x)].
Proof.
  intros Ha Hx. unfold utf8_encode_char.
  destruct (N.ltb_spec (a * 64 + x) 0x80); [lia |].
  destruct (N.ltb_spec (a * 64 + x) 0x800); [| lia].
  rewrite shiftr_6, land_63.
  replace ((a * 64 + x) / 64) with a by dlia.
  replace ((a * 64 + x) mod 64) with x by dlia.
  rewrite (proj1 (utf8_field 0xC0 0x1F a ltac:(auto) ltac:(lia))).
  rewrite (proj1 (utf8_field 0x80 0x3F x ltac:(auto) ltac:(lia))).
  reflexivity.
Qed.

Lemma encode_3 (a x y : N) :
  a < 16 -> x < 64 -> y < 64 -> (a = 0 -> 32 <= x) ->
  utf8_encode_char (a * 4096 + x * 64 + y)
  = [byte_of_N (0xE0 + a); byte_of_N (0x80 + x); byte_of_N (0x80 + y)].
Proof.
  intros Ha Hx Hy Hlong. unfold utf8_encode_char.
  destruct (N.ltb_spec (a * 4096 + x * 64 + y) 0x80); [lia |].
  destruct (N.ltb_spec (a * 4096 + x * 64 + y) 0x800); [lia |].
  destruct (N.ltb_spec (a * 4096 + x * 64 + y) 0x10000); [| lia].
  rewrite shiftr_12, shiftr_6, !land_63.
  replace ((a * 4096 + x * 64 + y) / 4096) with a by dlia.
  replace (((a * 4096 + x * 64 + y) / 64) mod 64) with x by dlia.
  replace ((a * 4096 + x * 64 + y) mod 64) with y by dlia.
  rewrite (proj1 (utf8_field 0xE0 0x0F a ltac:(auto 6) ltac:(lia))).
  rewrite (proj1 (utf8_field 0x80 0x3F x ltac:(auto) ltac:(lia))).
  rewrite (proj1 (utf8_field 0x80 0x3F y ltac:(auto) ltac:(lia))).
  reflexivity.
Qed.

Lemma encode_4 (a x y z : N) :
  a < 8 -> x < 64 -> y < 64 -> z < 64 -> (a = 0 -> 16 <= x) ->
  utf8_encode_char (a * 262144 + x * 4096 + y * 64 + z)
  = [byte_of_N (0xF0 + a); byte_of_N (0x80 + x); byte_of_N (0x80 + y);
     byte_of_N (0x80 + z)].
Proof.
  intros Ha Hx Hy Hz Hlong. unfold utf8_encode_char.
  set (c := a * 262144 + x * 4096 + y * 64 + z).
  destruct (N.ltb_spec c 0x80); [subst c; lia |].
  destruct (N.ltb_spec c 0x800); [subst c; lia |].
  destruct (N.ltb_spec c 0x10000); [subst c; lia |].
  rewrite shiftr_18, shiftr_12, shiftr_6, !land_63.
  replace (c / 262144) with a by (subst c; dlia).
  replace ((c / 4096) mod 64) with x by (subst c; dlia).
  replace ((c / 64) mod 64) with y by (subst c; dlia).
  replace (c mod 64) with z by (subst c; dlia).
  rewrite (proj1 (utf8_field 0xF0 0x07 a ltac:(auto 8) ltac:(lia))).
  rewrite (proj1 (utf8_field 0x80 0x3F x ltac:(auto) ltac:(lia))).
  rewrite (proj1 (utf8_field 0x80 0x3F y ltac:(auto) ltac:(lia))).
  rewrite (proj1 (utf8_field 0x80 0x3F z ltac:(auto) ltac:(lia))).
  reflexivity.
Qed.

Lemma is_cont_spec (n : N) :
  is_continuation_byte n = true <-> 0x80 <= n < 0xC0.
Proof.
  unfold is_continuation_byte.
  rewrite andb_true_iff, N.leb_le, N.ltb_lt. reflexivity.
Qed.

Ltac cases_on_tests :=
  repeat match goal with
         | |- context [N.ltb ?a ?b] => destruct (N.ltb_spec a b); try lia
         | |- context [N.eqb ?a ?b] => destruct (N.eqb_spec a b); try lia
         | |- context [N.leb ?a ?b] => destruct (N.leb_spec a b); try lia
         end.

(** The decoding of a well-formed sequence given by its fields. *)
Lemma decode_2 (b1 b2 : byte) (r : bytes) (a x : N) :
  Byte.to_N b1 = 0xC0 + a -> 2 <= a < 32 ->
  Byte.to_N b2 = 0x80 + x -> x < 64 ->
  utf8_decode_ignore (b1 :: b2 :: r) = (a * 64 + x) :: utf8_decode_ignore r.
Proof.
  intros H1 Ha H2 Hx. cbn [utf8_decode_ignore]. cbv zeta. rewrite H1, H2.
  unfold is_continuation_byte.
  rewrite (proj2 (utf8_field 0xC0 0x1F a ltac:(auto) ltac:(lia))).
  rewrite (proj2 (utf8_field 0x80 0x3F x ltac:(auto) ltac:(lia))).
  cases_on_tests. cbn [andb negb orb]. rewrite !shiftl_6. reflexivity.
Qed.

Lemma decode_3 (b1 b2 b3 : byte) (r : bytes) (a x y : N) :
  Byte.to_N b1 = 0xE0 + a -> a < 16 ->
  Byte.to_N b2 = 0x80 + x -> x < 64 ->
  Byte.to_N b3 = 0x80 + y -> y < 64 ->
  (a = 0 -> 32 <= x) -> (a = 13 -> x < 32) ->
  utf8_decode_ignore (b1 :: b2 :: b3 :: r)
  = (a * 4096 + x * 64 + y) :: utf8_decode_ignore r.
Proof.
  intros H1 Ha H2 Hx H3 Hy Hlong Hsur.
  cbn [utf8_decode_ignore]. cbv zeta. rewrite H1, H2, H3.
  unfold is_continuation_byte.
  rewrite (proj2 (utf8_field 0xE0 0x0F a ltac:(auto 6) ltac:(lia))).
  rewrite (proj2 (utf8_field 0x80 0x3F x ltac:(auto) ltac:(lia))).
  rewrite (proj2 (utf8_field 0x80 0x3F y ltac:(auto) ltac:(lia))).
  cases_on_tests; cbn [negb orb andb]; cases_on_tests;
    rewrite ?shiftl_12, ?shiftl_6; reflexivity.
Qed.

Lemma decode_4 (b1 b2 b3 b4 : byte) (r : bytes) (a x y z : N) :
  Byte.to_N b1 = 0xF0 + a -> a < 5 ->
  Byte.to_N b2 = 0x80 + x -> x < 64 ->
  Byte.to_N b3 = 0x80 + y -> y < 64 ->
  Byte.to_N b4 = 0x80 + z -> z < 64 ->
  (a = 0 -> 16 <= x) -> (a = 4 -> x < 16) ->
  utf8_decode_ignore (b1 :: b2 :: b3 :: b4 :: r)
  = (a * 262144 + x * 4096 + y * 64 + z) :: utf8_decode_ignore r.
Proof.
  intros H1 Ha H2 Hx H3 Hy H4 Hz Hlong Hbig.
  cbn [utf8_decode_ignore]. cbv zeta. rewrite H1, H2, H3, H4.
  unfold is_continuation_byte.
  rewrite (proj2 (utf8_field 0xF0 0x07 a ltac:(auto 8) ltac:(lia))).
  rewrite (proj2 (utf8_field 0x80 0x3F x ltac:(auto) ltac:(lia))).
  rewrite (proj2 (utf8_field 0x80 0x3F y ltac:(auto) ltac:(lia))).
  rewrite (proj2 (utf8_field 0x80 0x3F z ltac:(auto) ltac:(lia))).
  cases_on_tests; cbn [negb orb andb]; cases_on_tests;
    rewrite ?shiftl_18, ?shiftl_12, ?shiftl_6; reflexivity.
Qed.

Ltac decode_dropping :=
  cbn [utf8_decode_ignore]; cbv zeta; unfold is_continuation_byte;
  cases_on_tests; cbn [andb orb negb]; cases_on_tests; reflexivity.

Ltac facts_of_test H :=
  unfold is_continuation_byte in H; revert H; cases_on_tests;
  cbn [andb orb negb]; cases_on_tests; intro H; try discriminate H; clear H.

Ltac scalar_by_fields :=
  unfold is_scalar, is_surrogate; cases_on_tests; try reflexivity;
  cbn [andb orb negb]; try reflexivity; exfalso; lia.

(** A continuation byte where a sequence should start is dropped. *)
Lemma decode_continuation (b : byte) (rest : bytes) :
  is_continuation_byte (Byte.to_N b) = true ->
  utf8_decode_ignore (b :: rest) = utf8_decode_ignore rest.
Proof. intro H. apply is_cont_spec in H. decode_dropping. Qed.

(** The three bytes of a sequence pass the test of the second byte only if
    the second byte is a continuation byte. *)
Lemma second_byte_continues (ch2 : N) (t : bool) :
  negb (is_continuation_byte ch2) || t = false ->
  is_continuation_byte ch2 = true.
Proof. destruct (is_continuation_byte ch2); [reflexivity | discriminate]. Qed.

Ltac dropped_prefix pre rest :=
  right; exists pre, rest;
  split; [reflexivity |]; split; [discriminate |]; split;
  [ cbn [tl app]; rewrite ?decode_continuation by assumption; reflexivity
  | cbn [utf8_decode_ignore]; cbv zeta;
    repeat match goal with
           | H : _ || _ = _ |- _ => rewrite H
           end;
    repeat match goal with
           | H : is_continuation_byte _ = _ |- _ => rewrite H
           end;
    cbn [negb]; cases_on_tests; reflexivity ].

(** One step of the decoder: at the head of the data either a well-formed
    character is decoded from its bytes, or a prefix of bytes is dropped,
    each of which but the first is a continuation byte and would be dropped
    by itself. *)
Lemma decode_step (s : bytes) :
  s = []
  \/ (exists c pre rest,
        s = pre ++ rest /\ pre <> [] /\ utf8_encode_char c = pre
        /\ is_scalar c = true
        /\ utf8_decode_ignore s = c :: utf8_decode_ignore rest)
  \/ (exists pre rest,
        s = pre ++ rest /\ pre <> []
        /\ utf8_decode_ignore (tl pre ++ rest) = utf8_decode_ignore rest
        /\ utf8_decode_ignore s = utf8_decode_ignore rest).
Proof.
  destruct s as [|b1 r1]; [left; reflexivity | right].
  pose proof (to_N_lt_256 b1) as Hb1.
  destruct (N.ltb_spec (Byte.to_N b1) 0x80) as [H1|H1].
  { left. exists (Byte.to_N b1), [b1], r1.
    repeat apply conj; try reflexivity; try discriminate.
    - unfold utf8_encode_char. cases_on_tests. now rewrite byte_of_to_N.
    - scalar_by_fields.
    - decode_dropping. }
  destruct (N.ltb_spec (Byte.to_N b1) 0xC2) as [H2|H2].
  { dropped_prefix [b1] r1. }
  destruct (N.ltb_spec (Byte.to_N b1) 0xF5) as [H5|H5].
  2:{ dropped_prefix [b1] r1. }
  destruct r1 as [|b2 r2].
  { dropped_prefix [b1] (@nil byte). }
  pose proof (to_N_lt_256 b2) as Hb2.
  destruct (N.ltb_spec (Byte.to_N b1) 0xE0) as [H3|H3].
  { (* a sequence of two bytes *)
    destruct (is_continuation_byte (Byte.to_N b2)) eqn:Hc2.
    - apply is_cont_spec in Hc2. left.
      exists ((Byte.to_N b1 - 0xC0) * 64 + (Byte.to_N b2 - 0x80)), [b1; b2], r2.
      repeat apply conj; try reflexivity; try discriminate.
      + rewrite encode_2 by lia.
        replace (0xC0 + (Byte.to_N b1 - 0xC0)) with (Byte.to_N b1) by lia.
        replace (0x80 + (Byte.to_N b2 - 0x80)) with (Byte.to_N b2) by lia.
        now rewrite !byte_of_to_N.
      + scalar_by_fields.
      + apply decode_2; lia.
    - dropped_prefix [b1] (b2 :: r2). }
  destruct (N.ltb_spec (Byte.to_N b1) 0xF0) as [H4|H4].
  { (* a sequence of three bytes *)
    destruct (negb (is_continuation_byte (Byte.to_N b2))
              || (if Byte.to_N b2 <? 0xA0 then Byte.to_N b1 =? 0xE0
                  else Byte.to_N b1 =? 0xED)) eqn:Hc2.
    { dropped_prefix [b1] (b2 :: r2). }
    pose proof (second_byte_continues _ _ Hc2) as Hk2.
    destruct r2 as [|b3 r3].
    { dropped_prefix [b1; b2] (@nil byte). }
    destruct (is_continuation_byte (Byte.to_N b3)) eqn:Hc3.
    - clear Hk2. apply is_cont_spec in Hc3. left.
      exists ((Byte.to_N b1 - 0xE0) * 4096 + (Byte.to_N b2 - 0x80) * 64
              + (Byte.to_N b3 - 0x80)), [b1; b2; b3], r3.
      facts_of_test Hc2;
        (repeat apply conj; try reflexivity; try discriminate;
         [ rewrite encode_3 by lia;
           replace (0xE0 + (Byte.to_N b1 - 0xE0)) with (Byte.to_N b1) by lia;
           replace (0x80 + (Byte.to_N b2 - 0x80)) with (Byte.to_N b2) by lia;
           replace (0x80 + (Byte.to_N b3 - 0x80)) with (Byte.to_N b3) by lia;
           now rewrite !byte_of_to_N
         | scalar_by_fields
         | apply decode_3; lia ]).
    - dropped_prefix [b1; b2] (b3 :: r3). }
  (* a sequence of four bytes *)
  destruct (negb (is_continuation_byte (Byte.to_N b2))
            || (if Byte.to_N b2 <? 0x90 then Byte.to_N b1 =? 0xF0
                else Byte.to_N b1 =? 0xF4)) eqn:Hc2.
  { dropped_prefix [b1] (b2 :: r2). }
  pose proof (second_byte_continues _ _ Hc2) as Hk2.
  destruct r2 as [|b3 r3].
  { dropped_prefix [b1; b2] (@nil byte). }
  destruct (is_continuation_byte (Byte.to_N b3)) eqn:Hc3.
  2:{ dropped_prefix [b1; b2] (b3 :: r3). }
  destruct r3 as [|b4 r4].
  { dropped_prefix [b1; b2; b3] (@nil byte). }
  destruct (is_continuation_byte (Byte.to_N b4)) eqn:Hc4.
  - clear Hk2. apply is_cont_spec in Hc3. apply is_cont_spec in Hc4. left.
    exists ((Byte.to_N b1 - 0xF0) * 262144 + (Byte.to_N b2 - 0x80) * 4096
            + (Byte.to_N b3 - 0x80) * 64 + (Byte.to_N b4 - 0x80)),
      [b1; b2; b3; b4], r4.
    facts_of_test Hc2;
      (repeat apply conj; try reflexivity; try discriminate;
       [ rewrite encode_4 by lia;
         replace (0xF0 + (Byte.to_N b1 - 0xF0)) with (Byte.to_N b1) by lia;
         replace (0x80 + (Byte.to_N b2 - 0x80)) with (Byte.to_N b2) by lia;
         replace (0x80 + (Byte.to_N b3 - 0x80)) with (Byte.to_N b3) by lia;
         replace (0x80 + (Byte.to_N b4 - 0x80)) with (Byte.to_N b4) by lia;
         now rewrite !byte_of_to_N
       | scalar_by_fields
       | apply decode_4; lia ]).
  - dropped_prefix [b1; b2; b3] (b4 :: r4).
Qed.

Lemma subsequence_nil {A : Type} (l : list A) : subsequence [] l.
Proof. induction l; constructor; assumption. Qed.

Lemma subsequence_app_keep {A : Type} (p a b : list A) :
  subsequence a b -> subsequence (p ++ a) (p ++ b).
Proof. intro H. induction p; cbn; [assumption | now constructor]. Qed.

Lemma subsequence_app_drop {A : Type} (p a b : list A) :
  subsequence a b -> subsequence a (p ++ b).
Proof. intro H. induction p; cbn; [assumption | now constructor]. Qed.

(** Induction along the steps of the decoder. *)
Lemma decode_by_steps (P : bytes -> Prop) :
  P [] ->
  (forall c pre rest,
      pre <> [] -> utf8_encode_char c = pre -> is_scalar c = true ->
      utf8_decode_ignore (pre ++ rest) = c :: utf8_decode_ignore rest ->
      P rest -> P (pre ++ rest)) ->
  (forall pre rest,
      pre <> [] ->
      utf8_decode_ignore (pre ++ rest) = utf8_decode_ignore rest ->
      P rest -> P (pre ++ rest)) ->
  forall s, P s.
Proof.
  intros Hnil Hkeep Hdrop s.
  remember (List.length s) as n eqn:Hn.
  revert s Hn. induction n as [n IH] using lt_wf_ind. intros s Hn.
  destruct (decode_step s)
    as [-> | [(c & pre & rest & -> & Hpre & Henc & Hsc & Hdec)
             | (pre & rest & -> & Hpre & _ & Hdec)]].
  - exact Hnil.
  - apply (Hkeep c); try assumption.
    apply (IH (List.length rest)); [| reflexivity].
    subst n. rewrite length_app. destruct pre; [congruence | cbn; lia].
  - apply Hdrop; try assumption.
    apply (IH (List.length rest)); [| reflexivity].
    subst n. rewrite length_app. destruct pre; [congruence | cbn; lia].
Qed.

(** Decoding only drops bytes: the decoded text, encoded again, is what is
    left of the data once the dropped bytes are taken out. *)
Lemma decode_subsequence (s : bytes) :
  subsequence (flat_map utf8_encode_char (utf8_decode_ignore s)) s.
Proof.
  induction s as [| c pre rest _ Henc _ Hdec IH | pre rest _ Hdec IH]
    using decode_by_steps.
  - constructor.
  - rewrite Hdec. cbn [flat_map]. rewrite Henc.
    now apply subsequence_app_keep.
  - rewrite Hdec. now apply subsequence_app_drop.
Qed.

Lemma decode_scalars (s : bytes) :
  forallb is_scalar (utf8_decode_ignore s) = true.
Proof.
  induction s as [| c pre rest _ _ Hsc Hdec IH | pre rest _ Hdec IH]
    using decode_by_steps.
  - reflexivity.
  - rewrite Hdec. cbn [forallb]. now rewrite Hsc, IH.
  - now rewrite Hdec.
Qed.

(** A replacement character in the decoded text was sent by the peer. *)
Lemma decode_replacement_character (s : bytes) :
  In REPLACEMENT_CHARACTER (utf8_decode_ignore s) ->
  subsequence [xef; xbf; xbd] s.
Proof.
  induction s as [| c pre rest _ Henc _ Hdec IH | pre rest _ Hdec IH]
    using decode_by_steps.
  - intros [].
  - rewrite Hdec. intros [Hc | Hin].
    + subst c pre.
      change (subsequence ([xef; xbf; xbd] ++ []) ([xef; xbf; xbd] ++ rest)).
      apply subsequence_app_keep, subsequence_nil.
    + apply subsequence_app_drop, IH, Hin.
  - rewrite Hdec. intro Hin. apply subsequence_app_drop, IH, Hin.
Qed.

(** A well-formed character at the head of the data is decoded. *)
Lemma decode_encode_char (c : N) (rest : bytes) :
  is_scalar c = true ->
  utf8_decode_ignore (utf8_encode_char c ++ rest)
  = c :: utf8_decode_ignore rest.
Proof.
  intro Hsc. unfold is_scalar, is_surrogate in Hsc.
  apply andb_true_iff in Hsc. destruct Hsc as [Hmax Hsur].
  apply N.ltb_lt in Hmax.
  assert (Hs : c < 0xD800 \/ 0xDFFF < c).
  { revert Hsur. cases_on_tests; cbn [andb negb]; intro Hsur;
      try discriminate Hsur; lia. }
  clear Hsur.
  destruct (N.ltb_spec c 0x80) as [H1|H1].
  { unfold utf8_encode_char. cases_on_tests. cbn [app].
    cbn [utf8_decode_ignore]; cbv zeta.
    rewrite to_N_byte_of_N by lia. cases_on_tests. reflexivity. }
  destruct (N.ltb_spec c 0x800) as [H2|H2].
  { replace c with ((c / 64) * 64 + c mod 64) at 1 2 by dlia.
    rewrite encode_2 by dlia. cbn [app].
    apply decode_2; try (rewrite to_N_byte_of_N; [reflexivity | dlia]); dlia. }
  destruct (N.ltb_spec c 0x10000) as [H3|H3].
  { replace c
      with ((c / 4096) * 4096 + ((c / 64) mod 64) * 64 + c mod 64) at 1 2
      by dlia.
    rewrite encode_3 by dlia. cbn [app].
    apply decode_3; try (rewrite to_N_byte_of_N; [reflexivity | dlia]); dlia. }
  replace c
    with ((c / 262144) * 262144 + ((c / 4096) mod 64) * 4096
          + ((c / 64) mod 64) * 64 + c mod 64) at 1 2
    by dlia.
  rewrite encode_4 by dlia. cbn [app].
  apply decode_4; try (rewrite to_N_byte_of_N; [reflexivity | dlia]); dlia.
Qed.

Lemma decode_encode_text (t : pystr) (rest : bytes) :
  forallb is_scalar t = true ->
  utf8_decode_ignore (flat_map utf8_encode_char t ++ rest)
  = t ++ utf8_decode_ignore rest.
Proof.
  induction t as [|c t IH]; intro H; [reflexivity |].
  cbn [forallb] in H. apply andb_true_iff in H. destruct H as [Hc Ht].
  cbn [flat_map]. rewrite <- app_assoc, decode_encode_char by assumption.
  now rewrite IH.
Qed.

(** A byte at which no well-formed character starts is dropped, alone, and
    decoding resumes with the byte after it. *)
Lemma decode_undecodable (b : byte) (rest : bytes) :
  ~ starts_character (b :: rest) ->
  utf8_decode_ignore (b :: rest) = utf8_decode_ignore rest.
Proof.
  intro Hno.
  destruct (decode_step (b :: rest))
    as [H | [(c & pre & rest' & Hs & Hpre & Henc & Hsc & Hdec)
            | (pre & rest' & Hs & Hpre & Htl & Hdec)]].
  - discriminate H.
  - exfalso. apply Hno. exists c, rest'. rewrite Henc. split; assumption.
  - destruct pre as [| b' pre']; [congruence |].
    cbn [app] in Hs. injection Hs as -> ->.
    rewrite Hdec. symmetry. exact Htl.
Qed.

Set Implicit Arguments.
Local Close Scope N_scope.

(* ================================================================== *)
(** * Construction of the TCP monitor *)
(* ================================================================== *)

(** Every exception class derives from [Exception]. *)
Lemma catches_Exception (e : exn) : catches Exception_ e = true.
Proof. destruct e as [c m]. destruct c; reflexivity. Qed.

Section Construction.
Context {Py : PythonLib}.

Lemma init_port_spec (port : pyval) :
  if port_ok port
  then exists z, TCP.init_port port = ([], Ok z)
  else exists msg,
      TCP.init_port port = ([(ERROR, msg)], Raise (mkExn Error_ msg)).
Proof.
  unfold port_ok, TCP.init_port.
  destruct (as_int port) as [z |]; [| eexists; reflexivity].
  rewrite Z.gtb_ltb, (Z.ltb_antisym 1 z), (Z.ltb_antisym z 65535).
  destruct (1 <=? z)%Z, (z <=? 65535)%Z; cbn; eexists; reflexivity.
Qed.

Lemma init_match_re_spec (match_re : pyval) :
  if pattern_ok match_re
  then exists x, TCP.init_match_re match_re = ([], Ok x)
  else exists msg,
      TCP.init_match_re match_re
      = ([(ERROR, msg)], Raise (mkExn Error_ msg)).
Proof.
  unfold pattern_ok, TCP.init_match_re.
  destruct match_re as [| b | z | p | o]; cbn [as_str];
    try (eexists; reflexivity).
  unfold TCP.MAX_MATCH_RE_LEN. rewrite (Nat.ltb_antisym (List.length p) 128).
  destruct (List.length p <=? 128)%nat; cbn [negb andb];
    [| eexists; reflexivity].
  destruct (re_compile_I p) as [r | e]; [eexists; reflexivity |].
  rewrite catches_Exception. eexists; reflexivity.
Qed.

Lemma init_send_string_spec (send_string : pyval) :
  if payload_ok send_string
  then if encodable send_string
       then exists x, TCP.init_send_string send_string = ([], Ok x)
       else exists msg,
           TCP.init_send_string send_string
           = ([], Raise (mkExn UnicodeEncodeError_ msg))
  else exists msg,
      TCP.init_send_string send_string
      = ([(ERROR, msg)], Raise (mkExn Error_ msg)).
Proof.
  unfold payload_ok, encodable, TCP.init_send_string.
  destruct send_string as [| b | z | s | o]; cbn [as_str];
    try (eexists; reflexivity).
  unfold TCP.MAX_SEND_STRING_LEN.
  rewrite (Nat.ltb_antisym (List.length s) 256).
  destruct (List.length s <=? 256)%nat; cbn [negb];
    [| eexists; reflexivity].
  unfold encode. destruct (existsb is_surrogate s); cbn [negb];
    eexists; reflexivity.
Qed.

(** C5.  The construction of a TCP monitor raises the validation error if
    and only if the port is not an integer in [1, 65535], or the match
    pattern is present and is not textual, or is longer than 128 characters,
    or does not compile as a case-insensitive regular expression, or the send
    payload is present and is not textual or is longer than 256 characters.
    With a valid port and payload, a pattern of exactly 128 characters that
    compiles is accepted: the monitor is built. *)
Theorem construction_fails_iff_invalid
    (port : pyval) (use_tls verify_tls : bool) (send_string match_re : pyval)
    (interval timeout : Q) (retries : Z) :
  raises_Error (TCP.__init__ port use_tls verify_tls send_string match_re
                  interval timeout retries)
  = negb (port_ok port && pattern_ok match_re && payload_ok send_string)
  /\ (forall p,
        match_re = PyStr p -> List.length p = 128%nat ->
        (exists r, re_compile_I p = Ok r) ->
        port_ok port = true -> payload_ok send_string = true ->
        encodable send_string = true ->
        exists m,
          TCP.__init__ port use_tls verify_tls send_string match_re
            interval timeout retries = ([], Ok m)
          /\ TCP.match_re m = Some p).
Proof.
  pose proof (init_port_spec port) as Hp.
  pose proof (init_match_re_spec match_re) as Hm.
  pose proof (init_send_string_spec send_string) as Hs.
  split.
  - unfold raises_Error, TCP.__init__.
    destruct (port_ok port).
    + destruct Hp as [z ->].
      destruct (pattern_ok match_re).
      * destruct Hm as [[re c] ->].
        destruct (payload_ok send_string).
        -- destruct (encodable send_string).
           ++ destruct Hs as [[ss sb] ->]. reflexivity.
           ++ destruct Hs as [msg ->]. reflexivity.
        -- destruct Hs as [msg ->]. reflexivity.
      * destruct Hm as [msg ->]. reflexivity.
    + destruct Hp as [msg ->]. reflexivity.
  - intros p -> Hlen [r Hr] Hport Hpay Henc.
    rewrite Hport in Hp. rewrite Hpay, Henc in Hs.
    destruct Hp as [z Hz]. destruct Hs as [[ss sb] Hss].
    unfold TCP.__init__. rewrite Hz, Hss.
    unfold TCP.init_match_re. cbn [as_str].
    unfold TCP.MAX_MATCH_RE_LEN. rewrite Hlen, Hr. cbn.
    eexists. split; reflexivity.
Qed.

End Construction.

Lemma construction_fails_iff_invalid_witness :
  exists m,
    TCP.__init__ (PyInt 80) false true PyNone (PyStr (repeat 97%N 128))
      10 5 2 = ([], Ok m)
    /\ TCP.match_re m = Some (repeat 97%N 128).
Proof.
  apply (proj2 (@construction_fails_iff_invalid LiteralPython
                  (PyInt 80) false true PyNone (PyStr (repeat 97%N 128))
                  10 5 2)
           (repeat 97%N 128) eq_refl eq_refl
           (ex_intro _ (LiteralEngine.mkRegex false false (repeat 97%N 128))
              eq_refl)
           eq_refl eq_refl eq_refl).
Defined.

Lemma pong_monitor_constructed : constructed pong_monitor.
Proof.
  exists (PyInt 80), false, true, PyNone, (PyStr (lit "pong")), 10, 5, 2%Z.
  reflexivity.
Qed.

Lemma hello_monitor_constructed : constructed hello_monitor.
Proof.
  exists (PyInt 80), false, true, (PyStr (lit "PING")),
    (PyStr (lit "hello")), 10, 5, 2%Z.
  reflexivity.
Qed.

Lemma ok_script_constructed : script_constructed ok_script.
Proof.
  exists (PyStr (lit "/usr/local/bin/check.sh")), (PyStr (lit "^OK$")),
    10, 5, 2%Z.
  reflexivity.
Qed.

(* ================================================================== *)
(** * Runs of the TCP monitor *)
(* ================================================================== *)

Section TCPMonitor.
Context {Py : PythonLib}.

(** What the constructor establishes. *)
Lemma constructed_match_re (m : TCP.t) :
  constructed m ->
  match TCP.match_re m with
  | None => TCP._match_re_compiled m = None
  | Some p =>
    exists r, TCP._match_re_compiled m = Some r /\ re_compile_I p = Ok r
              /\ (List.length p <= 128)%nat
  end.
Proof.
  intros (port & u & v & ss & mr & i & t & r & H).
  unfold TCP.__init__ in H.
  destruct (TCP.init_port port) as [l [p | e]]; [| discriminate H].
  unfold TCP.init_match_re in H.
  destruct mr as [| b | z | s | o]; cbn [as_str] in H;
    try (cbn in H; discriminate H).
  - destruct (TCP.init_send_string ss) as [l'' [[a b] | e]];
      cbn in H; [| discriminate H].
    injection H as <-. reflexivity.
  - destruct (TCP.MAX_MATCH_RE_LEN <? List.length s)%nat eqn:Hlen;
      [cbn in H; discriminate H |].
    destruct (re_compile_I s) as [rx | e] eqn:Hc.
    + destruct (TCP.init_send_string ss) as [l'' [[a b] | e]];
        cbn in H; [| discriminate H].
      injection H as <-. cbn. exists rx.
      split; [reflexivity | split; [exact Hc |]].
      apply Nat.ltb_ge in Hlen. exact Hlen.
    + rewrite catches_Exception in H. cbn in H. discriminate H.
Qed.

Lemma constructed_send_bytes (m : TCP.t) :
  constructed m ->
  match TCP.send_string m with
  | None => TCP._send_bytes m = None
  | Some s => encode s = Ok (flat_map utf8_encode_char s)
              /\ TCP._send_bytes m = Some (flat_map utf8_encode_char s)
              /\ (List.length s <= 256)%nat
  end.
Proof.
  intros (port & u & v & ss & mr & i & t & r & H).
  unfold TCP.__init__ in H.
  destruct (TCP.init_port port) as [l [p | e]]; [| discriminate H].
  destruct (TCP.init_match_re mr) as [l' [[re c] | e]]; [| discriminate H].
  unfold TCP.init_send_string in H.
  destruct ss as [| b | z | s | o]; cbn [as_str] in H;
    try (cbn in H; discriminate H).
  - cbn in H. injection H as <-. reflexivity.
  - destruct (TCP.MAX_SEND_STRING_LEN <? List.length s)%nat eqn:Hlen;
      [cbn in H; discriminate H |].
    unfold encode in *.
    destruct (existsb is_surrogate s) eqn:Hsur; [cbn in H; discriminate H |].
    cbn in H. injection H as <-. cbn. rewrite Hsur.
    split; [reflexivity | split; [reflexivity |]].
    apply Nat.ltb_ge in Hlen. exact Hlen.
Qed.

(** When the network lets the connection phase through, the [try] block of
    [run] ends without an exception. *)
Lemma connect_and_send_ok (m : TCP.t) (s : TCPSocket.t) (net : TCP.network) :
  constructed m -> connection_succeeds m net ->
  snd (TCP.connect_and_send m s net) = Ok tt.
Proof.
  intros Hm (Hc & Hh & Hs).
  pose proof (constructed_send_bytes Hm) as Hb.
  unfold TCP.connect_and_send, TCPSocket.connect. rewrite Hc.
  destruct (TCP.use_tls m).
  - unfold TCPSocket.wrap_ssl. rewrite (Hh eq_refl).
    destruct (TCP.send_string m).
    + destruct Hb as (_ & -> & _). unfold TCPSocket.sendall.
      rewrite Hs by discriminate. reflexivity.
    + reflexivity.
  - destruct (TCP.send_string m).
    + destruct Hb as (_ & -> & _). unfold TCPSocket.sendall.
      rewrite Hs by discriminate. reflexivity.
    + reflexivity.
Qed.

Lemma close_and_return_returned (s : TCPSocket.t) (sd : result unit) :
  (forall e, sd = Raise e -> os_failure e) ->
  TCP.result_of (TCP.close_and_return s sd) = TCP.Returned.
Proof.
  intros Hsd. unfold TCP.close_and_return, TCPSocket.close.
  destruct sd as [u | e]; [reflexivity |].
  rewrite (Hsd e eq_refl). reflexivity.
Qed.

(** The read loop on chunks whose accumulated text matches. *)
Lemma read_loop_matches (m : TCP.t) (r : regex) (sd : result unit)
    (rest : list (os_call bytes)) :
  TCP._match_re_compiled m = Some r ->
  (forall e, sd = Raise e -> os_failure e) ->
  forall (chunks : list bytes) (recvs : list (os_call bytes))
         (s : TCPSocket.t) (buf : pystr),
    chunks <> [] ->
    delivers recvs chunks ->
    re_search r (buf ++ accumulated chunks) = true ->
    TCP.result_of (TCP.read_loop m s buf (recvs ++ rest) sd) = TCP.Returned.
Proof.
  intros Hr Hsd. induction chunks as [| c cs IH]; [congruence |].
  intros recvs s buf _ [Hmap Hne] Hmatch.
  destruct recvs as [| cr recvs']; [discriminate Hmap |].
  cbn [map] in Hmap. injection Hmap as Hcr Hmap'.
  inversion Hne as [| ? ? Hc Hcs]; subst.
  cbn [app TCP.read_loop]. unfold TCPSocket.recv. rewrite Hcr.
  destruct c as [| b c']; [congruence |].
  rewrite Hr.
  destruct (re_search r (buf ++ utf8_decode_ignore (b :: c'))) eqn:Hnow.
  - apply close_and_return_returned, Hsd.
  - apply IH.
    + intros ->. unfold accumulated in Hmatch. cbn [map List.concat] in Hmatch.
      rewrite app_nil_r in Hmatch. congruence.
    + split; assumption.
    + unfold accumulated in *. cbn [map List.concat] in Hmatch.
      rewrite <- app_assoc. exact Hmatch.
Qed.

End TCPMonitor.

Section ReadLoop.
Context {Py : PythonLib}.

(** One turn of the loop on a chunk with data. *)
Lemma read_loop_data (m : TCP.t) (r : regex) (s : TCPSocket.t) (buf : pystr)
    (c : os_call bytes) (chunk : bytes) (recvs : list (os_call bytes))
    (sd : result unit) :
  TCP._match_re_compiled m = Some r ->
  outcome c = Ok chunk -> chunk <> [] ->
  TCP.read_loop m s buf (c :: recvs) sd
  = let s' := fst (TCPSocket.recv s c) in
    let buf' := buf ++ utf8_decode_ignore chunk in
    if re_search r buf' then TCP.close_and_return s' sd
    else TCP.read_loop m s' buf' recvs sd.
Proof.
  intros Hr Hc Hne. cbn [TCP.read_loop]. unfold TCPSocket.recv.
  rewrite Hc, Hr. destruct chunk as [| b chunk']; [congruence | reflexivity].
Qed.

(** C7 (as amended).  In the read loop every received chunk is decoded
    leniently and appended to the accumulated buffer; the run is never
    aborted by a decoding error.  An undecodable byte is dropped: it puts no
    character, and no replacement character, into the buffer.  This holds
    of every chunk.  Where the chunk is well-formed text followed by more
    data, the text is decoded in full; where after well-formed text comes a
    byte at which no well-formed character starts, that byte is dropped,
    alone, and decoding resumes with the byte after it.  So the decoded
    text, encoded again, is the chunk with bytes taken out; it holds a
    replacement character only if the peer sent the bytes of one.  For a
    chunk of ASCII bytes and bytes that cannot start a UTF-8 sequence, the
    decoded text is exactly the ASCII bytes, in order; a sequence cut off by
    the end of the chunk is dropped too; the text is never longer than the
    chunk. *)
Theorem undecodable_bytes_are_dropped
    (m : TCP.t) (r : regex) (s : TCPSocket.t) (buf : pystr)
    (c : os_call bytes) (chunk : bytes) (recvs : list (os_call bytes))
    (sd : result unit) :
  TCP._match_re_compiled m = Some r ->
  outcome c = Ok chunk -> chunk <> [] ->
  TCP.read_loop m s buf (c :: recvs) sd
  = (let s' := fst (TCPSocket.recv s c) in
     let buf' := buf ++ utf8_decode_ignore chunk in
     if re_search r buf' then TCP.close_and_return s' sd
     else TCP.read_loop m s' buf' recvs sd)
  /\ (forall text rest,
        forallb is_scalar text = true ->
        chunk = flat_map utf8_encode_char text ++ rest ->
        utf8_decode_ignore chunk = text ++ utf8_decode_ignore rest)
  /\ (forall text b rest,
        forallb is_scalar text = true ->
        chunk = flat_map utf8_encode_char text ++ b :: rest ->
        ~ starts_character (b :: rest) ->
        utf8_decode_ignore chunk = text ++ utf8_decode_ignore rest)
  /\ subsequence (flat_map utf8_encode_char (utf8_decode_ignore chunk)) chunk
  /\ forallb is_scalar (utf8_decode_ignore chunk) = true
  /\ (In REPLACEMENT_CHARACTER (utf8_decode_ignore chunk) ->
      subsequence [xef; xbf; xbd] chunk)
  /\ (forallb (fun b => is_ascii b || invalid_start b) chunk = true ->
      utf8_decode_ignore chunk = map Byte.to_N (filter is_ascii chunk))
  /\ (forall pre b, forallb is_ascii pre = true -> is_lead b = true ->
      utf8_decode_ignore (pre ++ [b]) = map Byte.to_N pre)
  /\ (List.length (utf8_decode_ignore chunk) <= List.length chunk)%nat.
Proof.
  intros Hr Hc Hne. repeat apply conj.
  - apply read_loop_data; assumption.
  - intros text rest Htext ->. apply decode_encode_text, Htext.
  - intros text b rest Htext -> Hno.
    rewrite decode_encode_text by exact Htext.
    f_equal. apply decode_undecodable, Hno.
  - apply decode_subsequence.
  - apply decode_scalars.
  - apply decode_replacement_character.
  - apply decode_drops_invalid_starts.
  - intros pre b Hpre Hb. rewrite decode_ascii_prefix by exact Hpre.
    rewrite decode_truncated by exact Hb. apply app_nil_r.
  - apply decode_length.
Qed.

(** The loop over chunks in which nothing matches: it reaches the next
    receive with the whole text accumulated. *)
Lemma read_loop_unmatched (m : TCP.t) (r : regex) (sd : result unit)
    (rest : list (os_call bytes)) :
  TCP._match_re_compiled m = Some r ->
  forall (chunks : list bytes) (recvs : list (os_call bytes))
         (s : TCPSocket.t) (buf : pystr),
    delivers recvs chunks ->
    unmatched r buf chunks = true ->
    exists s',
      TCP.read_loop m s buf (recvs ++ rest) sd
      = TCP.read_loop m s' (buf ++ accumulated chunks) rest sd.
Proof.
  intros Hr. induction chunks as [| c cs IH]; intros recvs s buf [Hmap Hne] Hun.
  - destruct recvs; [| discriminate Hmap].
    exists s. unfold accumulated. cbn. rewrite app_nil_r. reflexivity.
  - destruct recvs as [| cr recvs']; [discriminate Hmap |].
    cbn [map] in Hmap. injection Hmap as Hcr Hmap'.
    inversion Hne as [| ? ? Hc Hcs]; subst.
    cbn [unmatched] in Hun. apply andb_prop in Hun as [Hnow Hlater].
    apply negb_true_iff in Hnow.
    cbn [app]. rewrite (@read_loop_data m r s buf cr c (recvs' ++ rest) sd Hr Hcr Hc).
    cbv zeta. rewrite Hnow.
    destruct (IH recvs' (fst (TCPSocket.recv s cr))
                (buf ++ utf8_decode_ignore c)) as [s' Hs'];
      [split; assumption | exact Hlater |].
    exists s'. rewrite Hs'. unfold accumulated. cbn [map List.concat].
    rewrite app_assoc. reflexivity.
Qed.

Lemma remote_closed_msg_contains (response : pystr) :
  contains (lit "remote closed") (TCP.remote_closed_msg response) = true.
Proof. destruct response; vm_compute; reflexivity. Qed.

Lemma messages_distinguish (e e' : exn) (response : pystr) :
  response <> [] ->
  TCP.recv_error_msg e [] <> TCP.recv_error_msg e' response
  /\ TCP.remote_closed_msg [] <> TCP.remote_closed_msg response.
Proof.
  intros Hne. destruct response as [| ch response]; [congruence |].
  split; intros H; cbn in H; discriminate H.
Qed.

End ReadLoop.

Lemma undecodable_bytes_are_dropped_witness :
  utf8_decode_ignore [xff; x70; x69]
  = map Byte.to_N (filter is_ascii [xff; x70; x69])
  /\ subsequence
       (flat_map utf8_encode_char (utf8_decode_ignore [xff; x70; x69]))
       [xff; x70; x69].
Proof.
  assert (Hne : [xff; x70; x69] <> []) by discriminate.
  destruct (@undecodable_bytes_are_dropped LiteralPython pong_monitor
              (LiteralEngine.mkRegex false false (lit "pong"))
              (TCPSocket.__init__ (lit "192.0.2.1") 80 5 true) []
              (mkCall (1 # 2) (Ok [xff; x70; x69])) [xff; x70; x69] []
              (Ok tt) eq_refl eq_refl Hne)
    as (_ & _ & _ & Hsub & _ & _ & Hascii & _).
  split; [exact (Hascii eq_refl) | exact Hsub].
Defined.

(** C7, as stated, fails: the byte FF cannot be decoded, and the chunk
    FF 'p' 'i' leaves the text "pi" in the buffer, as the message of the
    failure on the peer's close shows; no replacement character has been put
    in the place of the byte. *)
Lemma replacement_character_not_inserted :
  exists m,
    TCP.__init__ (PyInt 80) false true PyNone (PyStr (lit "pong")) 10 5 2
    = ([], Ok m)
    /\ let chunk := [xff; x70; x69] in
       let net :=
         {| TCP.net_connect := mkCall (1 # 10) (Ok tt);
            TCP.net_handshake := fun _ => mkCall 0 (Ok tt);
            TCP.net_sendall := mkCall 0 (Ok tt);
            TCP.net_recv := [mkCall (1 # 2) (Ok chunk); mkCall (1 # 2) (Ok [])];
            TCP.net_shutdown := Ok tt |} in
       TCP.result_of (TCP.run m (lit "192.0.2.1") net)
       = TCP.Raised
           (mkExn MonitorFailed_
              (lit "remote closed the connection, failed to match the regexp in the response(up to 512 chars): pi"))
       /\ utf8_decode_ignore chunk = lit "pi"
       /\ utf8_decode_ignore chunk <> REPLACEMENT_CHARACTER :: lit "pi"
       /\ ~ In REPLACEMENT_CHARACTER (utf8_decode_ignore chunk).
Proof.
  eexists. split; [reflexivity |].
  cbv zeta. repeat apply conj; try reflexivity.
  - discriminate.
  - cbn. intros [H | [H | []]]; discriminate H.
Qed.

Section StreamedMatching.
Context {Py : PythonLib}.





End StreamedMatching.



Section FailureMessages.
Context {Py : PythonLib}.

(** C8.  A run with a match pattern that ends, without a match, in a clean
    peer close or in a receive error fails with [MonitorFailed]; its message
    has one form when nothing has been accumulated and another when a
    partial response has, and the two never coincide; the partial form shows
    the first 512 characters of the accumulated response at most (all of it
    when it is no longer than that); on a clean peer close the message
    contains "remote closed". *)
Theorem failure_message_reports_response
    (m : TCP.t) (dst_ip : pystr) (net : TCP.network) (r : regex)
    (chunks : list bytes) (recvs : list (os_call bytes))
    (last : os_call bytes) (rest : list (os_call bytes)) :
  constructed m ->
  TCP._match_re_compiled m = Some r ->
  connection_succeeds m net ->
  TCP.net_recv net = recvs ++ last :: rest ->
  delivers recvs chunks ->
  unmatched r [] chunks = true ->
  let response := accumulated chunks in
  let shown := firstn 512 response in
  ((List.length shown <= 512)%nat
   /\ ((List.length response <= 512)%nat -> shown = response))
  /\ (outcome last = Ok [] ->
      exists msg,
        TCP.result_of (TCP.run m dst_ip net)
        = TCP.Raised (mkExn MonitorFailed_ msg)
        /\ contains (lit "remote closed") msg = true
        /\ (response = [] ->
            msg = lit "remote closed the connection, no data received from the peer")
        /\ (response <> [] ->
            msg = lit "remote closed the connection, failed to match the regexp in the response(up to 512 chars): "
                  ++ shown))
  /\ (forall e, outcome last = Raise e -> os_failure e ->
      let error := e_str (TCPSocket.during e "socket.recv()") in
      exists msg,
        TCP.result_of (TCP.run m dst_ip net)
        = TCP.Raised (mkExn MonitorFailed_ msg)
        /\ (response = [] ->
            msg = lit "got " ++ error
                  ++ lit ", no data received from the peer")
        /\ (response <> [] ->
            msg = lit "failed to match the regexp within the timeout, got "
                  ++ error ++ lit ", response(up to 512 chars): " ++ shown))
  /\ (forall e e' partial, partial <> [] ->
      TCP.recv_error_msg e [] <> TCP.recv_error_msg e' partial
      /\ TCP.remote_closed_msg [] <> TCP.remote_closed_msg partial).
Proof.
  intros Hm Hr Hnet Hrecv Hdel Hun response shown.
  assert (Hrun : exists s',
             TCP.run m dst_ip net
             = TCP.read_loop m s' response (last :: rest) (TCP.net_shutdown net)).
  { pose proof (constructed_match_re Hm) as Hre.
    unfold TCP.run.
    pose proof (connect_and_send_ok
                  (TCPSocket.__init__ dst_ip (TCP.port m)
                     (timeout (TCP.base m)) true) Hm Hnet) as Hok.
    destruct (TCP.connect_and_send m _ net) as [s res]. cbn [snd] in Hok.
    subst res.
    destruct (TCP.match_re m) as [p |]; [| congruence].
    rewrite Hrecv.
    destruct (@read_loop_unmatched _ m r (TCP.net_shutdown net)
                (last :: rest) Hr chunks recvs s [] Hdel Hun) as [s' Hs'].
    exists s'. exact Hs'. }
  destruct Hrun as [s' Hrun].
  split; [| split; [| split]].
  - split.
    + apply firstn_le_length.
    + intros Hlen. apply firstn_all2, Hlen.
  - intros Hlast.
    exists (TCP.remote_closed_msg response).
    split; [| split; [| split]].
    + rewrite Hrun. cbn [TCP.read_loop]. unfold TCPSocket.recv.
      rewrite Hlast. reflexivity.
    + apply remote_closed_msg_contains.
    + intros ->. reflexivity.
    + intros Hne. unfold shown. destruct response; [congruence | reflexivity].
  - intros e Hlast Hos error.
    exists (TCP.recv_error_msg (TCPSocket.during e "socket.recv()") response).
    split; [| split].
    + rewrite Hrun. cbn [TCP.read_loop]. unfold TCPSocket.recv.
      rewrite Hlast. unfold os_failure in Hos. rewrite Hos. reflexivity.
    + intros ->. reflexivity.
    + intros Hne. unfold shown. destruct response; [congruence | reflexivity].
  - intros e e' partial. apply messages_distinguish.
Qed.

End FailureMessages.

Lemma failure_message_reports_response_witness :
  let net :=
    {| TCP.net_connect := mkCall (1 # 10) (Ok tt);
       TCP.net_handshake := fun _ => mkCall 0 (Ok tt);
       TCP.net_sendall := mkCall 0 (Ok tt);
       TCP.net_recv :=
         [mkCall (1 # 2) (Ok [x70; x69]); mkCall (1 # 2) (Ok [])];
       TCP.net_shutdown := Ok tt |} in
  exists msg,
    TCP.result_of (TCP.run pong_monitor (lit "192.0.2.1") net)
    = TCP.Raised (mkExn MonitorFailed_ msg)
    /\ contains (lit "remote closed") msg = true
    /\ msg = lit "remote closed the connection, failed to match the regexp in the response(up to 512 chars): "
             ++ lit "pi".
Proof.
  intros net.
  assert (Hdel : delivers [mkCall (1 # 2) (Ok [x70; x69])] [[x70; x69]])
    by (split; [reflexivity | repeat constructor; discriminate]).
  assert (Hnet : connection_succeeds pong_monitor net)
    by (split; [reflexivity
               | split; [intros H; discriminate H | intros H; now elim H]]).
  pose proof
    (@failure_message_reports_response LiteralPython pong_monitor
       (lit "192.0.2.1") net
       (LiteralEngine.mkRegex false false (lit "pong"))
       [[x70; x69]] [mkCall (1 # 2) (Ok [x70; x69])]
       (mkCall (1 # 2) (Ok [])) []
       pong_monitor_constructed eq_refl Hnet eq_refl Hdel eq_refl) as H.
  cbv zeta in H. destruct H as (_ & Hclose & _).
  destruct (Hclose eq_refl) as (msg & Hrun & Hcontains & _ & Hpartial).
  exists msg.
  split; [exact Hrun | split; [exact Hcontains |]].
  apply Hpartial. discriminate.
Defined.

(* ================================================================== *)
(** * The external script monitor *)
(* ================================================================== *)

Section Strip.

Lemma lstrip_spaces (ws s : pystr) :
  forallb isspace ws = true -> lstrip (ws ++ s) = lstrip s.
Proof.
  induction ws as [| c ws IH]; intros H; [reflexivity |].
  cbn [forallb] in H. apply andb_prop in H as [Hc Hws].
  cbn [app lstrip]. rewrite Hc. apply IH, Hws.
Qed.

Lemma lstrip_no_space (c : N) (s : pystr) :
  isspace c = false -> lstrip (c :: s) = c :: s.
Proof. intros H. cbn [lstrip]. rewrite H. reflexivity. Qed.

Lemma forallb_rev (f : N -> bool) (s : pystr) :
  forallb f s = true -> forallb f (rev s) = true.
Proof.
  intros H. apply forallb_forall. intros x Hx.
  apply in_rev in Hx. revert x Hx. apply forallb_forall. exact H.
Qed.

(** [strip] removes the white space around a trimmed text, and only that. *)
Lemma strip_surrounded (ws1 core ws2 : pystr) :
  forallb isspace ws1 = true -> forallb isspace ws2 = true ->
  trimmed core = true ->
  strip (ws1 ++ core ++ ws2) = core.
Proof.
  intros H1 H2 Hcore. unfold strip, rstrip.
  rewrite lstrip_spaces by exact H1.
  unfold trimmed in Hcore.
  destruct core as [| c core'].
  - cbn [app]. rewrite <- (app_nil_r ws2) at 1.
    rewrite lstrip_spaces by exact H2. cbn.
    reflexivity.
  - destruct (rev (c :: core')) as [| d rc] eqn:Hrev.
    + apply (f_equal (@List.length N)) in Hrev.
      rewrite length_rev in Hrev. discriminate Hrev.
    + apply andb_prop in Hcore as [Hc Hd].
      apply negb_true_iff in Hc. apply negb_true_iff in Hd.
      cbn [app]. rewrite lstrip_no_space by exact Hc.
      change (c :: core' ++ ws2) with ((c :: core') ++ ws2).
      rewrite rev_app_distr, lstrip_spaces by (apply forallb_rev, H2).
      rewrite Hrev, lstrip_no_space by exact Hd.
      rewrite <- Hrev. apply rev_involutive.
Qed.

Lemma strip_trimmed (core : pystr) : trimmed core = true -> strip core = core.
Proof.
  intros H.
  rewrite <- (strip_surrounded [] core [] eq_refl eq_refl H) at 2.
  cbn [app]. rewrite app_nil_r. reflexivity.
Qed.

End Strip.

Section Script.
Context {Py : PythonLib}.
Import ExternalScript.

(** What the constructor establishes: the pattern and its compiled form are
    there together. *)
Lemma script_constructed_match_re (m : ExternalScript.t) :
  script_constructed m ->
  match match_re m with
  | None => _match_re_compiled m = None
  | Some p => exists r, _match_re_compiled m = Some r /\ re_compile_I p = Ok r
  end.
Proof.
  intros (path & mr & i & t & r & H). unfold __init__ in H.
  destruct (as_str path) as [sp |]; [| discriminate H].
  destruct mr as [| b | z | s | o]; cbn [as_str] in H;
    try (cbn in H; discriminate H).
  - cbn in H. injection H as <-. reflexivity.
  - destruct (MAX_MATCH_RE_LEN <? List.length s)%nat;
      [cbn in H; discriminate H |].
    destruct (re_compile_I s) as [rx | e] eqn:Hc.
    + cbn in H. injection H as <-. cbn. exists rx. split; [reflexivity | exact Hc].
    + rewrite catches_Exception in H. cbn in H. discriminate H.
Qed.

(** C9.  For a run of the external script monitor: the expiry of the timeout
    of the child process fails the run; a non-zero exit code fails it, the
    failure detail ending with the captured standard error, whatever the
    standard output; exit code 0 with a pattern that is not found in the
    captured standard output fails it; exit code 0 with no pattern, or with
    the pattern found, succeeds.  (The captured texts are the ones the code
    holds in [stdout] and [stderr], stripped of surrounding white space.) *)
Theorem script_run_outcome (m : ExternalScript.t) (dst_ip : pystr) :
  script_constructed m ->
  (* timeout expiry *)
  (forall e, catches TimeoutExpired_ e = true ->
     exists msg, snd (run m dst_ip (Raise e))
                 = Raise (mkExn MonitorFailed_ msg))
  (* non-zero exit code *)
  /\ (forall cp, returncode cp <> 0%Z ->
     snd (run m dst_ip (Ok cp))
     = Raise (mkExn MonitorFailed_
                (lit "external script failed with exit code "
                 ++ str_of_int (returncode cp) ++ lit ": stderr="
                 ++ strip (stderr cp))))
  (* exit code 0, pattern not found *)
  /\ (forall cp r, returncode cp = 0%Z ->
     _match_re_compiled m = Some r ->
     re_search r (strip (stdout cp)) = false ->
     exists msg, snd (run m dst_ip (Ok cp))
                 = Raise (mkExn MonitorFailed_ msg))
  (* exit code 0, no pattern *)
  /\ (forall cp, returncode cp = 0%Z ->
     match_re m = None ->
     snd (run m dst_ip (Ok cp)) = Ok tt)
  (* exit code 0, pattern found *)
  /\ (forall cp r, returncode cp = 0%Z ->
     _match_re_compiled m = Some r ->
     re_search r (strip (stdout cp)) = true ->
     snd (run m dst_ip (Ok cp)) = Ok tt).
Proof.
  intros Hm. pose proof (script_constructed_match_re Hm) as Hre.
  split; [| split; [| split; [| split]]].
  - intros e He. unfold run. rewrite He. eexists. reflexivity.
  - intros cp Hrc. unfold run.
    apply Z.eqb_neq in Hrc. rewrite Hrc. reflexivity.
  - intros cp r Hrc Hr Hsearch. unfold run. rewrite Hrc. cbn [Z.eqb negb].
    destruct (match_re m) as [p |]; [| congruence].
    rewrite Hr, Hsearch. eexists. reflexivity.
  - intros cp Hrc Hnone. unfold run. rewrite Hrc, Hnone. reflexivity.
  - intros cp r Hrc Hr Hsearch. unfold run. rewrite Hrc. cbn [Z.eqb negb].
    destruct (match_re m) as [p |]; [| reflexivity].
    rewrite Hr, Hsearch. reflexivity.
Qed.

(** C10.  The run strips the white space at both ends of the captured
    standard output and standard error before the pattern search and before
    they go into messages: a raw output surrounded by white space gives the
    same run as the bare output, the search is made in the bare output, and
    the failure detail carries the bare error text.  So a pattern that
    matches the text OK, as the anchored ^OK$ does, accepts a script that
    prints OK and a newline. *)
Theorem output_is_stripped (m : ExternalScript.t) (dst_ip : pystr)
    (ws1 out ws2 ws3 err ws4 : pystr) (rc : Z) :
  forallb isspace ws1 = true -> forallb isspace ws2 = true ->
  forallb isspace ws3 = true -> forallb isspace ws4 = true ->
  trimmed out = true -> trimmed err = true ->
  let raw := mkCompleted (ws1 ++ out ++ ws2) (ws3 ++ err ++ ws4) rc in
  run m dst_ip (Ok raw) = run m dst_ip (Ok (mkCompleted out err rc))
  /\ (forall r, rc = 0%Z -> match_re m <> None ->
      _match_re_compiled m = Some r ->
      (snd (run m dst_ip (Ok raw)) = Ok tt <-> re_search r out = true))
  /\ (rc <> 0%Z ->
      snd (run m dst_ip (Ok raw))
      = Raise (mkExn MonitorFailed_
                 (lit "external script failed with exit code "
                  ++ str_of_int rc ++ lit ": stderr=" ++ err)))
  /\ (forall r, match_re m = Some (lit "^OK$") ->
      _match_re_compiled m = Some r ->
      re_search r (lit "OK") = true ->
      snd (run m dst_ip (Ok (mkCompleted (lit "OK" ++ [10%N]) [] 0))) = Ok tt).
Proof.
  intros H1 H2 H3 H4 Hout Herr raw.
  assert (Hso : strip (ws1 ++ out ++ ws2) = out)
    by (apply strip_surrounded; assumption).
  assert (Hse : strip (ws3 ++ err ++ ws4) = err)
    by (apply strip_surrounded; assumption).
  split; [| split; [| split]].
  - unfold run, raw. cbn [stdout stderr returncode].
    rewrite Hso, Hse, (strip_trimmed _ Hout), (strip_trimmed _ Herr).
    reflexivity.
  - intros r -> Hsome Hr. unfold run, raw. cbn [stdout stderr returncode].
    rewrite Hso. cbn [Z.eqb negb].
    destruct (match_re m) as [p |]; [| congruence].
    rewrite Hr. destruct (re_search r out); cbn [negb].
    + split; reflexivity.
    + split; [intros H; discriminate H | intros H; discriminate H].
  - intros Hrc. unfold run, raw. cbn [stdout stderr returncode].
    apply Z.eqb_neq in Hrc. rewrite Hrc, Hse. reflexivity.
  - intros r Hp Hr Hok. unfold run. cbn [stdout stderr returncode].
    rewrite Hp, Hr.
    replace (strip (lit "OK" ++ [10%N])) with (lit "OK") by reflexivity.
    rewrite Hok. reflexivity.
Qed.

End Script.

Lemma script_run_outcome_witness :
  snd (ExternalScript.run ok_script (lit "192.0.2.1")
         (Ok (ExternalScript.mkCompleted (lit "OK") [] 0)))
  = Ok tt
  /\ (exists msg,
        snd (ExternalScript.run ok_script (lit "192.0.2.1")
               (Ok (ExternalScript.mkCompleted (lit "FAIL") [] 0)))
        = Raise (mkExn MonitorFailed_ msg))
  /\ snd (ExternalScript.run ok_script (lit "192.0.2.1")
            (Ok (ExternalScript.mkCompleted (lit "OK") (lit "boom") 1)))
     = Raise (mkExn MonitorFailed_
                (lit "external script failed with exit code 1: stderr=boom")).
Proof.
  destruct (@script_run_outcome LiteralPython ok_script (lit "192.0.2.1")
              ok_script_constructed)
    as (_ & Hcode & Hmiss & _ & Hfound).
  split; [| split].
  - apply (Hfound (ExternalScript.mkCompleted (lit "OK") [] 0)
             (LiteralEngine.mkRegex true true (lit "ok")));
      reflexivity.
  - apply (Hmiss (ExternalScript.mkCompleted (lit "FAIL") [] 0)
             (LiteralEngine.mkRegex true true (lit "ok")));
      reflexivity.
  - apply (Hcode (ExternalScript.mkCompleted (lit "OK") (lit "boom") 1)).
    discriminate.
Defined.

Lemma output_is_stripped_witness :
  ExternalScript.run ok_script (lit "192.0.2.1")
    (Ok (ExternalScript.mkCompleted (lit "  OK" ++ [10%N])
           ([9%N] ++ lit "warn" ++ lit " ") 0))
  = ExternalScript.run ok_script (lit "192.0.2.1")
      (Ok (ExternalScript.mkCompleted (lit "OK") (lit "warn") 0))
  /\ snd (ExternalScript.run ok_script (lit "192.0.2.1")
            (Ok (ExternalScript.mkCompleted (lit "OK" ++ [10%N]) [] 0)))
     = Ok tt.
Proof.
  destruct (@output_is_stripped LiteralPython ok_script (lit "192.0.2.1")
              (lit "  ") (lit "OK") [10%N] [9%N] (lit "warn") (lit " ") 0%Z
              eq_refl eq_refl eq_refl eq_refl eq_refl eq_refl)
    as (Hsame & _ & _ & Hok).
  split.
  - exact Hsame.
  - apply (Hok (LiteralEngine.mkRegex true true (lit "ok")));
      reflexivity.
Defined.

(* ================================================================== *)
(** * Exceptions that leave a run *)
(* ================================================================== *)

(** C4.  Exceptions other than [MonitorFailed] leave [run].  In the TCP
    monitor a handshake that times out raises [TimeoutError], an [OSError]
    that is no [ssl.SSLError]: [wrap_ssl] does not catch it and the
    exception leaves [run] as it is.  In the external script
    monitor a script path that does not exist makes [subprocess.run] raise
    [FileNotFoundError], which no handler of [run] catches. *)
Theorem other_exceptions_leave_run :
  (exists m,
     TCP.__init__ (PyInt 443) true true PyNone PyNone 10 5 2 = ([], Ok m)
     /\ let timed_out :=
          mkExn TimeoutError_
            (lit "_ssl.c:1112: The handshake operation timed out") in
        let net :=
          {| TCP.net_connect := mkCall 1 (Ok tt);
             TCP.net_handshake := fun _ => mkCall 4 (Raise timed_out);
             TCP.net_sendall := mkCall 0 (Ok tt);
             TCP.net_recv := [];
             TCP.net_shutdown := Ok tt |} in
        let out := TCP.run m (lit "192.0.2.1") net in
        TCP.result_of out = TCP.Raised timed_out
        /\ catches MonitorFailed_ timed_out = false)
  /\ (exists m,
        ExternalScript.__init__ (PyStr (lit "/nonexistent")) PyNone 10 5 2
        = ([], Ok m)
        /\ let not_found :=
             mkExn FileNotFoundError_
               (lit "[Errno 2] No such file or directory: '/nonexistent'") in
           ExternalScript.run m (lit "192.0.2.1") (Raise not_found)
           = ([], Raise not_found)
           /\ catches MonitorFailed_ not_found = false).
Proof.
  split; eexists; (split; [reflexivity |]);
    cbv zeta; repeat apply conj; reflexivity.
Qed.

(* ================================================================== *)
(** * Further properties of the socket helper *)
(* ================================================================== *)

Section SocketStates.
Import TCPSocket.

Ltac run_socket_op :=
  unfold connect, wrap_ssl, sendall, recv, close, _decrease_timeout;
  repeat match goal with
         | |- context [outcome ?c] => destruct (outcome c)
         | |- context [match ?sd with Ok _ => _ | Raise _ => _ end] =>
           is_var sd; destruct sd
         | |- context [catches ?k ?e] => destruct (catches k e)
         | |- context [if auto_timeout ?s then _ else _] =>
           destruct (auto_timeout s) eqn:?
         | |- context [Qlt_le_dec ?a ?b] => destruct (Qlt_le_dec a b)
         end;
  cbn.

(** One operation changes neither the address, the port, the
    [auto_timeout] flag nor the address family. *)
Lemma perform_keeps_identity (s : t) (o : socket_op) :
  ip (perform s o) = ip s
  /\ port (perform s o) = port s
  /\ auto_timeout (perform s o) = auto_timeout s
  /\ family (_sock (perform s o)) = family (_sock s).
Proof.
  destruct o; cbn [perform]; run_socket_op; repeat split; auto.
Qed.

(** One operation keeps the socket timeout equal to the remaining
    timeout. *)
Lemma perform_keeps_sync (s : t) (o : socket_op) :
  sock_timeout (_sock s) = timeout s ->
  sock_timeout (_sock (perform s o)) = timeout (perform s o).
Proof.
  intros Hsync. destruct o; cbn [perform]; run_socket_op; auto.
Qed.

(** One operation, on a monotonic clock, does not raise the remaining
    timeout and does not make it negative. *)
Lemma perform_lowers_timeout (s : t) (o : socket_op) :
  0 <= timeout s -> measured_nonneg o ->
  0 <= timeout (perform s o) /\ timeout (perform s o) <= timeout s.
Proof.
  intros Hnn Hm. destruct o; cbn [perform measured_nonneg] in *;
    run_socket_op; split; try lra; try apply Qle_refl; auto.
Qed.

Lemma perform_keeps_closed (s : t) (o : socket_op) :
  (closed (_sock s) = true -> closed (_sock (perform s o)) = true)
  /\ (tls (_sock s) = true -> tls (_sock (perform s o)) = true).
Proof.
  destruct o; cbn [perform]; run_socket_op; split; auto.
Qed.

End SocketStates.

(** X1.  Whatever operations are performed on a socket, in whatever order
    and however they end, it keeps the address, the port and the
    [auto_timeout] flag it was constructed with; its address family is IPv6
    exactly when the address holds a colon; and the timeout in force on the
    underlying socket is always the remaining timeout of the helper. *)
Theorem socket_keeps_identity_and_sync
    (ip0 : pystr) (port0 : Z) (T : Q) (auto : bool) (ops : list socket_op) :
  let s := perform_all (TCPSocket.__init__ ip0 port0 T auto) ops in
  TCPSocket.ip s = ip0
  /\ TCPSocket.port s = port0
  /\ TCPSocket.auto_timeout s = auto
  /\ (TCPSocket.family (TCPSocket._sock s) = TCPSocket.AF_INET6
      <-> In 58%N ip0)
  /\ TCPSocket.sock_timeout (TCPSocket._sock s) = TCPSocket.timeout s.
Proof.
  cbv zeta. unfold perform_all.
  set (s0 := TCPSocket.__init__ ip0 port0 T auto).
  assert (H0 : TCPSocket.ip s0 = ip0 /\ TCPSocket.port s0 = port0
               /\ TCPSocket.auto_timeout s0 = auto
               /\ (TCPSocket.family (TCPSocket._sock s0) = TCPSocket.AF_INET6
                   <-> In 58%N ip0)
               /\ TCPSocket.sock_timeout (TCPSocket._sock s0)
                  = TCPSocket.timeout s0).
  { subst s0. cbn. repeat split; try reflexivity.
    - destruct (existsb (N.eqb 58) ip0) eqn:He; [| discriminate].
      intros _. apply existsb_exists in He as (x & Hin & Hx).
      apply N.eqb_eq in Hx. subst x. exact Hin.
    - intros Hin.
      assert (He : existsb (N.eqb 58) ip0 = true)
        by (apply existsb_exists; exists 58%N; split;
            [exact Hin | apply N.eqb_refl]).
      rewrite He. reflexivity. }
  clearbody s0. revert s0 H0.
  induction ops as [| o ops IH]; intros s0 H0; [exact H0 |].
  cbn [fold_left]. apply IH.
  destruct H0 as (Hip & Hport & Hauto & Hfam & Hsync).
  destruct (perform_keeps_identity s0 o) as (Eip & Eport & Eauto & Efam).
  rewrite Eip, Eport, Eauto, Efam.
  repeat split; try assumption; try (apply Hfam).
  apply perform_keeps_sync, Hsync.
Qed.

(** X2.  On a monotonic clock the remaining timeout never grows and never
    becomes negative: after any sequence of operations on a socket
    constructed with a timeout [T >= 0] it lies between 0 and [T]. *)
Theorem remaining_timeout_stays_in_bounds
    (ip0 : pystr) (port0 : Z) (T : Q) (auto : bool) (ops : list socket_op) :
  0 <= T ->
  Forall measured_nonneg ops ->
  let s := perform_all (TCPSocket.__init__ ip0 port0 T auto) ops in
  0 <= TCPSocket.timeout s /\ TCPSocket.timeout s <= T.
Proof.
  intros HT Hops. cbv zeta. unfold perform_all.
  set (s0 := TCPSocket.__init__ ip0 port0 T auto).
  assert (H0 : 0 <= TCPSocket.timeout s0 /\ TCPSocket.timeout s0 <= T)
    by (subst s0; cbn; split; [exact HT | apply Qle_refl]).
  clearbody s0. revert s0 H0.
  induction Hops as [| o ops Ho Hops IH]; intros s0 H0; [exact H0 |].
  cbn [fold_left]. apply IH.
  destruct H0 as [Hnn HleT].
  destruct (perform_lowers_timeout s0 o Hnn Ho) as [Hnn' Hle'].
  split; [exact Hnn' | apply Qle_trans with (TCPSocket.timeout s0); assumption].
Qed.

Lemma remaining_timeout_stays_in_bounds_witness :
  let s :=
    perform_all (TCPSocket.__init__ (lit "10.0.0.1") 80 5 true)
      [do_connect (mkCall 1 (Ok tt));
       do_recv (mkCall 3 (Ok [x4f]));
       do_recv (mkCall 2 (Raise (mkExn TimeoutError_ (lit "timed out"))))] in
  0 <= TCPSocket.timeout s /\ TCPSocket.timeout s <= 5.
Proof.
  apply (remaining_timeout_stays_in_bounds (lit "10.0.0.1") 80 true).
  - discriminate.
  - repeat constructor; discriminate.
Defined.

(** X3.  With [auto_timeout] disabled no operation touches the timeout:
    after any sequence of operations the remaining timeout and the socket
    timeout are still the configured value. *)
Theorem timeout_is_fixed_without_auto_timeout
    (ip0 : pystr) (port0 : Z) (T : Q) (ops : list socket_op) :
  let s := perform_all (TCPSocket.__init__ ip0 port0 T false) ops in
  TCPSocket.timeout s = T
  /\ TCPSocket.sock_timeout (TCPSocket._sock s) = T.
Proof.
  cbv zeta. unfold perform_all.
  set (s0 := TCPSocket.__init__ ip0 port0 T false).
  assert (H0 : TCPSocket.auto_timeout s0 = false
               /\ TCPSocket.timeout s0 = T
               /\ TCPSocket.sock_timeout (TCPSocket._sock s0) = T)
    by (subst s0; cbn; repeat split).
  clearbody s0. revert s0 H0.
  induction ops as [| o ops IH]; intros s0 (Hauto & Ht & Hs);
    [split; assumption |].
  cbn [fold_left]. apply IH.
  destruct o; cbn [perform];
    unfold TCPSocket.connect, TCPSocket.wrap_ssl, TCPSocket.sendall,
      TCPSocket.recv, TCPSocket.close, TCPSocket._decrease_timeout;
    rewrite ?Hauto;
    repeat match goal with
           | |- context [outcome ?c] => destruct (outcome c)
           | |- context [match ?sd with Ok _ => _ | Raise _ => _ end] =>
             is_var sd; destruct sd
           | |- context [catches ?k ?e] => destruct (catches k e)
           end;
    cbn; repeat split; assumption.
Qed.

(** X4.  No operation reopens a socket or undoes its TLS wrapping: once the
    handle is closed it stays closed through any further operations, and
    once wrapped the socket stays wrapped. *)
Theorem closed_socket_stays_closed
    (s : TCPSocket.t) (ops : list socket_op) :
  (TCPSocket.closed (TCPSocket._sock s) = true ->
   TCPSocket.closed (TCPSocket._sock (perform_all s ops)) = true)
  /\ (TCPSocket.tls (TCPSocket._sock s) = true ->
      TCPSocket.tls (TCPSocket._sock (perform_all s ops)) = true).
Proof.
  unfold perform_all. revert s.
  induction ops as [| o ops IH]; intros s; [split; trivial |].
  cbn [fold_left].
  destruct (IH (perform s o)) as [IHc IHt].
  destruct (perform_keeps_closed s o) as [Hc Ht].
  split; intros H; [apply IHc, Hc, H | apply IHt, Ht, H].
Qed.

Lemma closed_socket_stays_closed_witness :
  let s :=
    fst (TCPSocket.connect (TCPSocket.__init__ (lit "10.0.0.1") 80 5 true)
           (mkCall 1 (Raise (mkExn ConnectionRefusedError_
                               (lit "[Errno 111] Connection refused"))))) in
  TCPSocket.closed (TCPSocket._sock s) = true
  /\ TCPSocket.closed
       (TCPSocket._sock
          (perform_all s [do_recv (mkCall 1 (Ok [x4f]));
                          do_close (Ok tt)])) = true.
Proof.
  intros s. split; [reflexivity |].
  exact (proj1 (closed_socket_stays_closed s
                  [do_recv (mkCall 1 (Ok [x4f])); do_close (Ok tt)])
           eq_refl).
Defined.

(** X6.  [close] does not fail its caller on an OS error.  When the shutdown
    succeeds the socket is shut down and its handle closed, and nothing is
    logged; when the shutdown raises an [OSError] exactly one warning is
    logged, naming the class and the text of the error, and nothing is
    raised.  In both cases the timeouts are left as they were. *)
Theorem close_never_raises_os_errors
    (self : TCPSocket.t) (sd : result unit) :
  (forall e, sd = Raise e -> os_failure e) ->
  let out := TCPSocket.close self sd in
  let self' := fst (snd out) in
  snd (snd out) = Ok tt
  /\ TCPSocket.timeout self' = TCPSocket.timeout self
  /\ TCPSocket.sock_timeout (TCPSocket._sock self')
     = TCPSocket.sock_timeout (TCPSocket._sock self)
  /\ (forall v, sd = Ok v ->
      fst out = []
      /\ TCPSocket.shut_down (TCPSocket._sock self') = true
      /\ TCPSocket.closed (TCPSocket._sock self') = true)
  /\ (forall e, sd = Raise e ->
      fst out
      = [(WARNING,
          lit "Got " ++ class_name (e_class e) ++ lit " " ++ e_str e
          ++ lit " when shutting down and closing the socket")]).
Proof.
  intros Hsd. cbv zeta. unfold TCPSocket.close.
  destruct sd as [u | e].
  - cbn. repeat split; try reflexivity. intros e H. discriminate H.
  - rewrite (Hsd e eq_refl). cbn [fst snd].
    split; [reflexivity | split; [reflexivity | split; [reflexivity |]]].
    split.
    + intros v H. discriminate H.
    + intros e' H. injection H as <-. reflexivity.
Qed.

Lemma close_never_raises_os_errors_witness :
  let self := TCPSocket.__init__ (lit "10.0.0.1") 80 5 true in
  let sd :=
    Raise (mkExn OSError_
             (lit "[Errno 107] Transport endpoint is not connected")) in
  snd (snd (TCPSocket.close self sd)) = Ok tt
  /\ fst (TCPSocket.close self sd)
     = [(WARNING,
         lit "Got OSError [Errno 107] Transport endpoint is not connected when shutting down and closing the socket")].
Proof.
  intros self sd.
  assert (Hsd : forall e, sd = Raise e -> os_failure e)
    by (intros e H; injection H as <-; reflexivity).
  destruct (close_never_raises_os_errors self Hsd)
    as (Hok & _ & _ & _ & Hlog).
  split; [exact Hok | exact (Hlog _ eq_refl)].
Defined.

(* ================================================================== *)
(** * Further properties of the runs of the TCP monitor *)
(* ================================================================== *)

Section RunStates.
Context {Py : PythonLib}.

(** Decaying the timeout depends on the time view only, and leaves the
    handle as it is. *)
Lemma decrease_timeout_view (s1 s2 : TCPSocket.t) (t : Q) :
  time_view s1 = time_view s2 ->
  time_view (TCPSocket._decrease_timeout s1 t)
  = time_view (TCPSocket._decrease_timeout s2 t).
Proof.
  unfold time_view. intros H. injection H as Ht Hs Ha.
  unfold TCPSocket._decrease_timeout. rewrite Ha.
  destruct (TCPSocket.auto_timeout s2) eqn:Ha2; cbn.
  - rewrite Ht.
    destruct (Qlt_le_dec (TCPSocket.timeout s2 - t) 0); cbn;
      rewrite ?Ha, ?Ha2; reflexivity.
  - rewrite Ht, Hs, Ha, Ha2. reflexivity.
Qed.

Lemma decrease_timeout_handle (s : TCPSocket.t) (t : Q) :
  handle_view (TCPSocket._decrease_timeout s t) = handle_view s.
Proof.
  unfold handle_view, TCPSocket._decrease_timeout.
  destruct (TCPSocket.auto_timeout s); [| reflexivity].
  cbn. destruct (Qlt_le_dec (TCPSocket.timeout s - t) 0); reflexivity.
Qed.

Lemma decrease_all_view (ts : list Q) :
  forall s1 s2 : TCPSocket.t,
    time_view s1 = time_view s2 ->
    time_view (fold_left TCPSocket._decrease_timeout ts s1)
    = time_view (fold_left TCPSocket._decrease_timeout ts s2).
Proof.
  induction ts as [| t ts IH]; intros s1 s2 H; [exact H |].
  cbn [fold_left]. apply IH, decrease_timeout_view, H.
Qed.

Lemma decrease_all_handle (ts : list Q) :
  forall s : TCPSocket.t,
    handle_view (fold_left TCPSocket._decrease_timeout ts s) = handle_view s.
Proof.
  induction ts as [| t ts IH]; intros s; [reflexivity |].
  cbn [fold_left]. rewrite IH. apply decrease_timeout_handle.
Qed.

(** The socket after the connection phase, when the phase meets no error:
    its time view is that of the socket decayed by the connect and by the
    send, and its handle is as before. *)
Lemma connect_and_send_state (m : TCP.t) (s : TCPSocket.t)
    (net : TCP.network) :
  constructed m -> connection_succeeds m net ->
  let s' := fst (TCP.connect_and_send m s net) in
  time_view s'
  = time_view (fold_left TCPSocket._decrease_timeout
                 (charged_times m net []) s)
  /\ handle_view s' = handle_view s.
Proof.
  intros Hm (Hc & Hh & Hs).
  pose proof (constructed_send_bytes Hm) as Hb.
  cbv zeta. unfold charged_times, TCP.connect_and_send, TCPSocket.connect.
  rewrite Hc. cbn [map app].
  set (s1 := TCPSocket._decrease_timeout s (elapsed (TCP.net_connect net))).
  assert (H1 : handle_view s1 = handle_view s)
    by apply decrease_timeout_handle.
  destruct (TCP.use_tls m).
  - unfold TCPSocket.wrap_ssl. rewrite (Hh eq_refl).
    destruct (TCP.send_string m).
    + destruct Hb as (_ & -> & _). unfold TCPSocket.sendall.
      rewrite Hs by discriminate. cbn [fst fold_left app].
      split.
      * apply decrease_timeout_view. reflexivity.
      * rewrite decrease_timeout_handle. exact H1.
    + cbn [fst fold_left app]. split; [reflexivity | exact H1].
  - destruct (TCP.send_string m).
    + destruct Hb as (_ & -> & _). unfold TCPSocket.sendall.
      rewrite Hs by discriminate. cbn [fst fold_left app].
      split; [reflexivity |].
      rewrite decrease_timeout_handle. exact H1.
    + cbn [fst fold_left app]. split; [reflexivity | exact H1].
Qed.

(** The loop over chunks in which nothing matches, with the socket it
    reaches: the one decayed by each receive. *)
Lemma read_loop_unmatched_state (m : TCP.t) (r : regex) (sd : result unit)
    (rest : list (os_call bytes)) :
  TCP._match_re_compiled m = Some r ->
  forall (chunks : list bytes) (recvs : list (os_call bytes))
         (s : TCPSocket.t) (buf : pystr),
    delivers recvs chunks ->
    unmatched r buf chunks = true ->
    TCP.read_loop m s buf (recvs ++ rest) sd
    = TCP.read_loop m
        (fold_left TCPSocket._decrease_timeout (map (@elapsed bytes) recvs) s)
        (buf ++ accumulated chunks) rest sd.
Proof.
  intros Hr. induction chunks as [| c cs IH]; intros recvs s buf [Hmap Hne] Hun.
  - destruct recvs; [| discriminate Hmap].
    unfold accumulated. cbn. rewrite app_nil_r. reflexivity.
  - destruct recvs as [| cr recvs']; [discriminate Hmap |].
    cbn [map] in Hmap. injection Hmap as Hcr Hmap'.
    inversion Hne as [| ? ? Hc Hcs]; subst.
    cbn [unmatched] in Hun. apply andb_prop in Hun as [Hnow Hlater].
    apply negb_true_iff in Hnow.
    cbn [app]. rewrite (@read_loop_data _ m r s buf cr c (recvs' ++ rest) sd Hr Hcr Hc).
    cbv zeta. rewrite Hnow.
    rewrite (IH recvs' _ _ (conj Hmap' Hcs) Hlater).
    unfold TCPSocket.recv. rewrite Hcr. cbn [fst map fold_left].
    unfold accumulated. cbn [map List.concat].
    rewrite app_assoc. reflexivity.
Qed.

Lemma charged_times_app (m : TCP.t) (net : TCP.network)
    (recvs : list (os_call bytes)) :
  charged_times m net recvs
  = charged_times m net [] ++ map (@elapsed bytes) recvs.
Proof.
  unfold charged_times. cbn [map]. rewrite app_nil_r. reflexivity.
Qed.

(** A run with a pattern, up to the receive that follows chunks in which
    nothing matched: the loop is there with the socket of the connection
    phase decayed by each receive. *)
Lemma run_reaches (m : TCP.t) (dst_ip : pystr) (net : TCP.network)
    (r : regex) (chunks : list bytes) (recvs rest : list (os_call bytes)) :
  constructed m ->
  TCP._match_re_compiled m = Some r ->
  connection_succeeds m net ->
  TCP.net_recv net = recvs ++ rest ->
  delivers recvs chunks ->
  unmatched r [] chunks = true ->
  let s0 :=
    TCPSocket.__init__ dst_ip (TCP.port m) (timeout (TCP.base m)) true in
  let s :=
    fold_left TCPSocket._decrease_timeout (map (@elapsed bytes) recvs)
      (fst (TCP.connect_and_send m s0 net)) in
  TCP.run m dst_ip net
  = TCP.read_loop m s (accumulated chunks) rest (TCP.net_shutdown net)
  /\ time_view s
     = time_view
         (fold_left TCPSocket._decrease_timeout (charged_times m net recvs) s0)
  /\ handle_view s = (false, false).
Proof.
  intros Hm Hr Hnet Hrecv Hdel Hun s0 s.
  pose proof (constructed_match_re Hm) as Hre.
  destruct (connect_and_send_state s0 Hm Hnet) as [Hview Hhandle].
  pose proof (connect_and_send_ok s0 Hm Hnet) as Hok.
  split; [| split].
  - unfold TCP.run. fold s0. subst s.
    destruct (TCP.connect_and_send m s0 net) as [s1 res].
    cbn [fst snd] in *. subst res.
    destruct (TCP.match_re m) as [p |]; [| congruence].
    rewrite Hrecv.
    apply (read_loop_unmatched_state m (TCP.net_shutdown net) rest Hr
             s1 [] Hdel Hun).
  - subst s. rewrite charged_times_app, fold_left_app.
    apply decrease_all_view, Hview.
  - subst s. rewrite decrease_all_handle, Hhandle. reflexivity.
Qed.

(** Closing leaves the time view as it is. *)
Lemma close_and_return_view (s : TCPSocket.t) (sd : result unit) :
  time_view (TCP.sock (TCP.close_and_return s sd)) = time_view s.
Proof.
  unfold TCP.close_and_return, TCPSocket.close.
  destruct sd as [u | e]; [reflexivity |].
  destruct (catches OSError_ e); reflexivity.
Qed.

End RunStates.

Section RunProperties.
Context {Py : PythonLib}.

(** X7.  Without a match pattern a run never reads: its result is the same
    whatever the peer would send, and when the connection phase meets no
    error it returns successfully, with the socket shut down and closed when
    the shutdown succeeds. *)
Theorem run_without_pattern_never_reads
    (m : TCP.t) (dst_ip : pystr) (net : TCP.network) :
  TCP.match_re m = None ->
  (forall recvs,
      TCP.run m dst_ip (with_recv net recvs) = TCP.run m dst_ip net)
  /\ (constructed m -> connection_succeeds m net ->
      shutdown_is_os_level net ->
      TCP.result_of (TCP.run m dst_ip net) = TCP.Returned
      /\ (TCP.net_shutdown net = Ok tt ->
          handle_view (TCP.sock (TCP.run m dst_ip net)) = (true, true)
          /\ TCP.log (TCP.run m dst_ip net) = [])).
Proof.
  intros Hnone. split.
  - intros recvs. unfold TCP.run. rewrite Hnone.
    change (TCP.connect_and_send m
              (TCPSocket.__init__ dst_ip (TCP.port m)
                 (timeout (TCP.base m)) true) (with_recv net recvs))
      with (TCP.connect_and_send m
              (TCPSocket.__init__ dst_ip (TCP.port m)
                 (timeout (TCP.base m)) true) net).
    reflexivity.
  - intros Hm Hnet Hsd.
    set (s0 := TCPSocket.__init__ dst_ip (TCP.port m)
                 (timeout (TCP.base m)) true).
    destruct (connect_and_send_state s0 Hm Hnet) as [_ Hhandle].
    pose proof (connect_and_send_ok s0 Hm Hnet) as Hok.
    unfold TCP.run. fold s0.
    destruct (TCP.connect_and_send m s0 net) as [s1 res].
    cbn [fst snd] in *. subst res. rewrite Hnone.
    split; [apply close_and_return_returned, Hsd |].
    intros ->. unfold TCP.close_and_return, TCPSocket.close. cbn.
    unfold handle_view in *. cbn. split; reflexivity.
Qed.

(** X8.  An OS error in the connect, or in the send, ends the run at once
    with [MonitorFailed]; the message is that of the [ProtocolError], naming
    the class and the text of the error and the operation; the socket has
    been closed and nothing is logged. *)
Theorem connection_failure_is_reported
    (m : TCP.t) (dst_ip : pystr) (net : TCP.network) (e : exn) :
  os_failure e ->
  (outcome (TCP.net_connect net) = Raise e ->
   let out := TCP.run m dst_ip net in
   TCP.result_of out
   = TCP.Raised
       (mkExn MonitorFailed_
          (class_name (e_class e) ++ lit " " ++ e_str e
           ++ lit " during socket.connect()"))
   /\ TCP.log out = []
   /\ TCPSocket.closed (TCPSocket._sock (TCP.sock out)) = true)
  /\ (constructed m ->
      TCP.send_string m <> None ->
      outcome (TCP.net_connect net) = Ok tt ->
      (TCP.use_tls m = true ->
       forall ctx, outcome (TCP.net_handshake net ctx) = Ok tt) ->
      outcome (TCP.net_sendall net) = Raise e ->
      let out := TCP.run m dst_ip net in
      TCP.result_of out
      = TCP.Raised
          (mkExn MonitorFailed_
             (class_name (e_class e) ++ lit " " ++ e_str e
              ++ lit " during socket.sendall()"))
      /\ TCP.log out = []
      /\ TCPSocket.closed (TCPSocket._sock (TCP.sock out)) = true).
Proof.
  unfold os_failure. intros Hos. split.
  - intros Hc. cbv zeta.
    unfold TCP.run, TCP.connect_and_send, TCPSocket.connect.
    rewrite Hc, Hos. cbn. repeat split.
  - intros Hm Hsend Hc Hh Hs. cbv zeta.
    pose proof (constructed_send_bytes Hm) as Hb.
    unfold TCP.run, TCP.connect_and_send, TCPSocket.connect.
    rewrite Hc.
    destruct (TCP.send_string m) as [p |]; [| congruence].
    destruct Hb as (_ & -> & _).
    destruct (TCP.use_tls m).
    + unfold TCPSocket.wrap_ssl. rewrite (Hh eq_refl).
      unfold TCPSocket.sendall. rewrite Hs, Hos. cbn. repeat split.
    + unfold TCPSocket.sendall. rewrite Hs, Hos. cbn. repeat split.
Qed.

(** X9.  The TLS policy of the monitor.  With [verify_tls] the handshake is
    made with a context that verifies certificates and host names: when that
    handshake fails with an SSL error the run fails with [MonitorFailed],
    the message telling of the handshake, and the socket is closed.  Without
    [verify_tls] the handshake is made with a context that verifies neither:
    when that one succeeds the run goes on, whatever a verifying handshake
    would have done; with no string to send and no pattern it returns
    successfully. *)
Theorem tls_verification_policy
    (m : TCP.t) (dst_ip : pystr) (net : TCP.network) :
  TCP.use_tls m = true ->
  outcome (TCP.net_connect net) = Ok tt ->
  (TCP.verify_tls m = true ->
   forall e,
     outcome (TCP.net_handshake net strict_context) = Raise e ->
     catches SSLError_ e = true ->
     let out := TCP.run m dst_ip net in
     TCP.result_of out
     = TCP.Raised
         (mkExn MonitorFailed_
            (lit "SSL error: " ++ e_str e ++ lit " during TLS handshake"))
     /\ TCPSocket.closed (TCPSocket._sock (TCP.sock out)) = true)
  /\ (TCP.verify_tls m = false ->
      outcome (TCP.net_handshake net lax_context) = Ok tt ->
      TCP.send_string m = None -> TCP.match_re m = None ->
      shutdown_is_os_level net ->
      let out := TCP.run m dst_ip net in
      TCP.result_of out = TCP.Returned
      /\ TCPSocket.tls (TCPSocket._sock (TCP.sock out)) = true).
Proof.
  intros Htls Hc. split.
  - intros Hv e Hh He. cbv zeta.
    unfold TCP.run, TCP.connect_and_send, TCPSocket.connect.
    rewrite Hc, Htls, Hv. cbn [negb].
    unfold TCPSocket.wrap_ssl.
    change TCPSocket.create_default_context with strict_context.
    rewrite Hh, He. cbn. split; reflexivity.
  - intros Hv Hh Hsend Hre Hsd. cbv zeta.
    unfold TCP.run, TCP.connect_and_send, TCPSocket.connect.
    rewrite Hc, Htls, Hv. cbn [negb].
    unfold TCPSocket.wrap_ssl.
    change {| TCPSocket.check_hostname := false;
              TCPSocket.verify := TCPSocket.CERT_NONE |} with lax_context.
    rewrite Hh, Hsend, Hre.
    split; [apply close_and_return_returned, Hsd |].
    unfold TCP.close_and_return, TCPSocket.close.
    destruct (TCP.net_shutdown net) as [u | e] eqn:Hnet; [reflexivity |].
    rewrite (Hsd e Hnet). reflexivity.
Qed.

Lemma read_loop_match_now (m : TCP.t) (r : regex) (s : TCPSocket.t)
    (buf : pystr) (c : os_call bytes) (chunk : bytes)
    (rest : list (os_call bytes)) (sd : result unit) :
  TCP._match_re_compiled m = Some r ->
  outcome c = Ok chunk -> chunk <> [] ->
  re_search r (buf ++ utf8_decode_ignore chunk) = true ->
  TCP.read_loop m s buf (c :: rest) sd
  = TCP.close_and_return
      (TCPSocket._decrease_timeout s (elapsed c)) sd.
Proof.
  intros Hr Hc Hne Hmatch.
  rewrite (@read_loop_data _ m r s buf c chunk rest sd Hr Hc Hne).
  cbv zeta. rewrite Hmatch. unfold TCPSocket.recv. rewrite Hc. reflexivity.
Qed.

(** X10.  At the end of the read loop the socket is released.  After chunks
    in which nothing matched: when the next receive fails with an OS error,
    the run ends with the handle closed; when the next chunk completes a
    match, the run reads no further (what the peer sends afterwards changes
    nothing) and, the shutdown succeeding, it returns with the socket shut
    down and closed and nothing logged. *)
Theorem socket_released_after_reading
    (m : TCP.t) (dst_ip : pystr) (net : TCP.network) (r : regex)
    (chunks : list bytes) (recvs : list (os_call bytes))
    (last : os_call bytes) (rest : list (os_call bytes)) :
  constructed m ->
  TCP._match_re_compiled m = Some r ->
  connection_succeeds m net ->
  TCP.net_recv net = recvs ++ last :: rest ->
  delivers recvs chunks ->
  unmatched r [] chunks = true ->
  (forall e, outcome last = Raise e -> os_failure e ->
     TCPSocket.closed (TCPSocket._sock (TCP.sock (TCP.run m dst_ip net)))
     = true
     /\ TCP.log (TCP.run m dst_ip net) = [])
  /\ (forall c, outcome last = Ok c -> c <> [] ->
      re_search r (accumulated chunks ++ utf8_decode_ignore c) = true ->
      (forall rest',
          TCP.run m dst_ip (with_recv net (recvs ++ last :: rest'))
          = TCP.run m dst_ip net)
      /\ (TCP.net_shutdown net = Ok tt ->
          TCP.result_of (TCP.run m dst_ip net) = TCP.Returned
          /\ handle_view (TCP.sock (TCP.run m dst_ip net)) = (true, true)
          /\ TCP.log (TCP.run m dst_ip net) = [])).
Proof.
  intros Hm Hr Hnet Hrecv Hdel Hun.
  destruct (run_reaches dst_ip (last :: rest) Hm Hr Hnet Hrecv Hdel Hun)
    as (Hrun & _ & Hhandle).
  split.
  - intros e Hlast Hos. rewrite Hrun. cbn [TCP.read_loop].
    unfold TCPSocket.recv. rewrite Hlast.
    unfold os_failure in Hos. rewrite Hos. split; reflexivity.
  - intros c Hlast Hne Hmatch. split.
    + intros rest'.
      assert (Hnet' : connection_succeeds m
                        (with_recv net (recvs ++ last :: rest')))
        by exact Hnet.
      destruct (@run_reaches _ m dst_ip
                  (with_recv net (recvs ++ last :: rest')) r chunks recvs
                  (last :: rest') Hm Hr Hnet' eq_refl Hdel Hun)
        as (Hrun' & _ & _).
      rewrite Hrun, Hrun'.
      rewrite (@read_loop_match_now m r _ (accumulated chunks) last c rest
                 (TCP.net_shutdown net) Hr Hlast Hne Hmatch).
      rewrite (@read_loop_match_now m r _ (accumulated chunks) last c rest'
                 (TCP.net_shutdown (with_recv net (recvs ++ last :: rest')))
                 Hr Hlast Hne Hmatch).
      reflexivity.
    + intros Hsd. rewrite Hrun.
      rewrite (@read_loop_match_now m r _ (accumulated chunks) last c rest
                 (TCP.net_shutdown net) Hr Hlast Hne Hmatch).
      rewrite Hsd. unfold TCP.close_and_return, TCPSocket.close.
      cbn. unfold handle_view. cbn. repeat split.
Qed.

(** X11.  When the peer closes the connection before a match, the run does
    not call [close]: it ends with the socket neither shut down nor closed. *)
Theorem remote_close_leaves_handle_open
    (m : TCP.t) (dst_ip : pystr) (net : TCP.network) (r : regex)
    (chunks : list bytes) (recvs : list (os_call bytes))
    (last : os_call bytes) (rest : list (os_call bytes)) :
  constructed m ->
  TCP._match_re_compiled m = Some r ->
  connection_succeeds m net ->
  TCP.net_recv net = recvs ++ last :: rest ->
  delivers recvs chunks ->
  unmatched r [] chunks = true ->
  outcome last = Ok [] ->
  handle_view (TCP.sock (TCP.run m dst_ip net)) = (false, false)
  /\ TCP.log (TCP.run m dst_ip net) = [].
Proof.
  intros Hm Hr Hnet Hrecv Hdel Hun Hlast.
  destruct (run_reaches dst_ip (last :: rest) Hm Hr Hnet Hrecv Hdel Hun)
    as (Hrun & _ & Hhandle).
  rewrite Hrun. cbn [TCP.read_loop]. unfold TCPSocket.recv. rewrite Hlast.
  cbn [TCP.sock TCP.log]. split; [| reflexivity].
  rewrite decrease_timeout_handle. exact Hhandle.
Qed.

(** X12.  What a run charges to the timeout.  After chunks in which nothing
    matched, the remaining timeout with which the run ends is the configured
    timeout decayed by the time of the connect, of the send (when there is a
    string to send) and of each receive that returned, the last one
    included when it returned data or the peer's close, but not when it
    failed; the time of the TLS handshake is never among them. *)
Theorem run_charges_connect_send_and_receives
    (m : TCP.t) (dst_ip : pystr) (net : TCP.network) (r : regex)
    (chunks : list bytes) (recvs : list (os_call bytes))
    (last : os_call bytes) (rest : list (os_call bytes)) :
  constructed m ->
  TCP._match_re_compiled m = Some r ->
  connection_succeeds m net ->
  TCP.net_recv net = recvs ++ last :: rest ->
  delivers recvs chunks ->
  unmatched r [] chunks = true ->
  let s0 :=
    TCPSocket.__init__ dst_ip (TCP.port m) (timeout (TCP.base m)) true in
  let final := TCP.sock (TCP.run m dst_ip net) in
  (forall e, outcome last = Raise e -> os_failure e ->
     time_view final
     = time_view (fold_left TCPSocket._decrease_timeout
                    (charged_times m net recvs) s0))
  /\ (outcome last = Ok [] ->
      time_view final
      = time_view (fold_left TCPSocket._decrease_timeout
                     (charged_times m net (recvs ++ [last])) s0))
  /\ (forall c, outcome last = Ok c -> c <> [] ->
      re_search r (accumulated chunks ++ utf8_decode_ignore c) = true ->
      time_view final
      = time_view (fold_left TCPSocket._decrease_timeout
                     (charged_times m net (recvs ++ [last])) s0)).
Proof.
  intros Hm Hr Hnet Hrecv Hdel Hun s0 final.
  destruct (run_reaches dst_ip (last :: rest) Hm Hr Hnet Hrecv Hdel Hun)
    as (Hrun & Hview & _).
  fold s0 in Hview.
  assert (Hlast :
            forall s,
              time_view s
              = time_view (fold_left TCPSocket._decrease_timeout
                             (charged_times m net recvs) s0) ->
              time_view (TCPSocket._decrease_timeout s (elapsed last))
              = time_view (fold_left TCPSocket._decrease_timeout
                             (charged_times m net (recvs ++ [last])) s0)).
  { intros s Hs.
    rewrite (charged_times_app m net (recvs ++ [last])), map_app, app_assoc.
    rewrite <- charged_times_app, fold_left_app. cbn [map fold_left].
    apply decrease_timeout_view, Hs. }
  subst final. rewrite Hrun. split; [| split].
  - intros e Hl Hos. cbn [TCP.read_loop]. unfold TCPSocket.recv.
    rewrite Hl. unfold os_failure in Hos. rewrite Hos.
    cbn [TCP.sock]. rewrite <- Hview. reflexivity.
  - intros Hl. cbn [TCP.read_loop]. unfold TCPSocket.recv. rewrite Hl.
    cbn [TCP.sock]. apply Hlast, Hview.
  - intros c Hl Hne Hmatch.
    rewrite (@read_loop_match_now m r _ (accumulated chunks) last c rest
               (TCP.net_shutdown net) Hr Hl Hne Hmatch).
    rewrite close_and_return_view. apply Hlast, Hview.
Qed.

End RunProperties.
Lemma run_without_pattern_never_reads_witness :
  let m :=
    {| TCP.base := BaseMonitor__init__ 10 5 2; TCP.name := lit "tcp";
       TCP.port := 80; TCP.use_tls := false; TCP.verify_tls := true;
       TCP.match_re := None; TCP._match_re_compiled := None;
       TCP.send_string := None; TCP._send_bytes := None |} in
  let net :=
    {| TCP.net_connect := mkCall (1 # 10) (Ok tt);
       TCP.net_handshake := fun _ => mkCall 0 (Ok tt);
       TCP.net_sendall := mkCall 0 (Ok tt);
       TCP.net_recv := [];
       TCP.net_shutdown := Ok tt |} in
  TCP.run m (lit "192.0.2.1")
    (with_recv net [mkCall 1 (Raise (mkExn TimeoutError_ (lit "timed out")))])
  = TCP.run m (lit "192.0.2.1") net.
Proof.
  intros m net.
  exact (proj1 (@run_without_pattern_never_reads LiteralPython m
                  (lit "192.0.2.1") net eq_refl) _).
Defined.

Lemma connection_failure_is_reported_witness :
  let refused :=
    mkExn ConnectionRefusedError_ (lit "[Errno 111] Connection refused") in
  let net :=
    {| TCP.net_connect := mkCall (1 # 100) (Raise refused);
       TCP.net_handshake := fun _ => mkCall 0 (Ok tt);
       TCP.net_sendall := mkCall 0 (Ok tt);
       TCP.net_recv := [];
       TCP.net_shutdown := Ok tt |} in
  TCP.result_of (TCP.run pong_monitor (lit "192.0.2.1") net)
  = TCP.Raised
      (mkExn MonitorFailed_
         (lit "ConnectionRefusedError [Errno 111] Connection refused during socket.connect()")).
Proof.
  intros refused net.
  exact (proj1 (proj1 (@connection_failure_is_reported LiteralPython
                         pong_monitor (lit "192.0.2.1") net refused eq_refl)
                  eq_refl)).
Defined.

Lemma tls_verification_policy_witness :
  let self_signed :=
    mkExn SSLCertVerificationError_
      (lit "[SSL: CERTIFICATE_VERIFY_FAILED] certificate verify failed: self-signed certificate") in
  let net :=
    {| TCP.net_connect := mkCall (1 # 10) (Ok tt);
       TCP.net_handshake :=
         fun ctx =>
           match TCPSocket.verify ctx with
           | TCPSocket.CERT_NONE => mkCall (1 # 5) (Ok tt)
           | TCPSocket.CERT_REQUIRED => mkCall (1 # 5) (Raise self_signed)
           end;
       TCP.net_sendall := mkCall 0 (Ok tt);
       TCP.net_recv := [];
       TCP.net_shutdown := Ok tt |} in
  let monitor verify :=
    {| TCP.base := BaseMonitor__init__ 10 5 2; TCP.name := lit "tcp";
       TCP.port := 443; TCP.use_tls := true; TCP.verify_tls := verify;
       TCP.match_re := None; TCP._match_re_compiled := None;
       TCP.send_string := None; TCP._send_bytes := None |} in
  TCP.result_of (TCP.run (monitor false) (lit "192.0.2.1") net)
  = TCP.Returned
  /\ TCP.result_of (TCP.run (monitor true) (lit "192.0.2.1") net)
     = TCP.Raised
         (mkExn MonitorFailed_
            (lit "SSL error: [SSL: CERTIFICATE_VERIFY_FAILED] certificate verify failed: self-signed certificate during TLS handshake")).
Proof.
  intros self_signed net monitor. split.
  - refine (proj1 (proj2 (@tls_verification_policy LiteralPython
                            (monitor false) (lit "192.0.2.1") net
                            eq_refl eq_refl)
                     eq_refl eq_refl eq_refl eq_refl _)).
    intros e H. discriminate H.
  - exact (proj1 (proj1 (@tls_verification_policy LiteralPython
                           (monitor true) (lit "192.0.2.1") net
                           eq_refl eq_refl)
                    eq_refl self_signed eq_refl eq_refl)).
Defined.

Lemma socket_released_after_reading_witness :
  let net :=
    {| TCP.net_connect := mkCall (1 # 10) (Ok tt);
       TCP.net_handshake := fun _ => mkCall 0 (Ok tt);
       TCP.net_sendall := mkCall 0 (Ok tt);
       TCP.net_recv :=
         [mkCall (1 # 2) (Ok [x70; x6f]); mkCall (1 # 4) (Ok [x6e; x67])];
       TCP.net_shutdown := Ok tt |} in
  TCP.result_of (TCP.run pong_monitor (lit "192.0.2.1") net) = TCP.Returned
  /\ handle_view (TCP.sock (TCP.run pong_monitor (lit "192.0.2.1") net))
     = (true, true)
  /\ TCP.log (TCP.run pong_monitor (lit "192.0.2.1") net) = [].
Proof.
  intros net.
  assert (Hdel : delivers [mkCall (1 # 2) (Ok [x70; x6f])] [[x70; x6f]])
    by (split; [reflexivity | repeat constructor; discriminate]).
  assert (Hnet : connection_succeeds pong_monitor net)
    by (split; [reflexivity
               | split; [intros H; discriminate H | intros H; now elim H]]).
  assert (Hne : [x6e; x67] <> []) by discriminate.
  exact (proj2 (proj2 (@socket_released_after_reading LiteralPython
                         pong_monitor (lit "192.0.2.1") net
                         (LiteralEngine.mkRegex false false (lit "pong"))
                         [[x70; x6f]] [mkCall (1 # 2) (Ok [x70; x6f])]
                         (mkCall (1 # 4) (Ok [x6e; x67])) []
                         pong_monitor_constructed eq_refl Hnet eq_refl Hdel
                         eq_refl)
                  [x6e; x67] eq_refl Hne eq_refl)
           eq_refl).
Defined.

Lemma remote_close_leaves_handle_open_witness :
  let net :=
    {| TCP.net_connect := mkCall (1 # 10) (Ok tt);
       TCP.net_handshake := fun _ => mkCall 0 (Ok tt);
       TCP.net_sendall := mkCall 0 (Ok tt);
       TCP.net_recv :=
         [mkCall (1 # 2) (Ok [x70; x69]); mkCall (1 # 2) (Ok [])];
       TCP.net_shutdown := Ok tt |} in
  handle_view (TCP.sock (TCP.run pong_monitor (lit "192.0.2.1") net))
  = (false, false)
  /\ TCP.log (TCP.run pong_monitor (lit "192.0.2.1") net) = [].
Proof.
  intros net.
  assert (Hdel : delivers [mkCall (1 # 2) (Ok [x70; x69])] [[x70; x69]])
    by (split; [reflexivity | repeat constructor; discriminate]).
  assert (Hnet : connection_succeeds pong_monitor net)
    by (split; [reflexivity
               | split; [intros H; discriminate H | intros H; now elim H]]).
  exact (@remote_close_leaves_handle_open LiteralPython
           pong_monitor (lit "192.0.2.1") net
           (LiteralEngine.mkRegex false false (lit "pong"))
           [[x70; x69]] [mkCall (1 # 2) (Ok [x70; x69])]
           (mkCall (1 # 2) (Ok [])) []
           pong_monitor_constructed eq_refl Hnet eq_refl Hdel eq_refl
           eq_refl).
Defined.

Lemma run_charges_connect_send_and_receives_witness :
  let net :=
    {| TCP.net_connect := mkCall (1 # 10) (Ok tt);
       TCP.net_handshake := fun _ => mkCall 0 (Ok tt);
       TCP.net_sendall := mkCall 0 (Ok tt);
       TCP.net_recv :=
         [mkCall (1 # 2) (Ok [x70; x6f]); mkCall (1 # 4) (Ok [x6e; x67])];
       TCP.net_shutdown := Ok tt |} in
  time_view (TCP.sock (TCP.run pong_monitor (lit "192.0.2.1") net))
  = time_view
      (fold_left TCPSocket._decrease_timeout [1 # 10; 1 # 2; 1 # 4]
         (TCPSocket.__init__ (lit "192.0.2.1") 80 5 true)).
Proof.
  intros net.
  assert (Hdel : delivers [mkCall (1 # 2) (Ok [x70; x6f])] [[x70; x6f]])
    by (split; [reflexivity | repeat constructor; discriminate]).
  assert (Hnet : connection_succeeds pong_monitor net)
    by (split; [reflexivity
               | split; [intros H; discriminate H | intros H; now elim H]]).
  assert (Hne : [x6e; x67] <> []) by discriminate.
  exact (proj2 (proj2 (@run_charges_connect_send_and_receives LiteralPython
                         pong_monitor (lit "192.0.2.1") net
                         (LiteralEngine.mkRegex false false (lit "pong"))
                         [[x70; x6f]] [mkCall (1 # 2) (Ok [x70; x6f])]
                         (mkCall (1 # 4) (Ok [x6e; x67])) []
                         pong_monitor_constructed eq_refl Hnet eq_refl Hdel
                         eq_refl))
           [x6e; x67] eq_refl Hne eq_refl).
Defined.

(* ================================================================== *)
(** * Further properties of the constructors *)
(* ================================================================== *)

Section Constructors.
Context {Py : PythonLib}.

(** The three checks of [TCP.__init__] log what they raise. *)
Lemma init_port_logged (port : pyval) :
  match TCP.init_port port with
  | (l, Ok z) => l = [] /\ (1 <= z <= 65535)%Z /\ as_int port = Some z
  | (l, Raise e) =>
    l = [(ERROR, e_str e)]
    /\ e = mkExn Error_
             (lit "port " ++ [34%N] ++ str_of_pyval port ++ [34%N]
              ++ lit " must be an integer between 1 and 65535")
  end.
Proof.
  unfold TCP.init_port, raise_Error.
  destruct (as_int port) as [z |]; [| split; reflexivity].
  destruct (z <? 1)%Z eqn:H1; [split; reflexivity |].
  destruct (z >? 65535)%Z eqn:H2; [split; reflexivity |].
  cbn. split; [reflexivity | split; [| reflexivity]].
  apply Z.ltb_ge in H1. rewrite Z.gtb_ltb in H2. apply Z.ltb_ge in H2. lia.
Qed.

Lemma init_match_re_logged (match_re : pyval) :
  match TCP.init_match_re match_re with
  | (l, Ok _) => l = []
  | (l, Raise e) =>
    l = [(ERROR, e_str e)] /\ e_class e = Error_
    /\ (starts_with (lit "match_re ") (e_str e)
        || starts_with (lit "failed to compile a regular expression")
             (e_str e)) = true
  end.
Proof.
  unfold TCP.init_match_re, raise_Error.
  destruct match_re as [| b | z | p | o]; cbn [as_str];
    try (repeat split; reflexivity).
  destruct (TCP.MAX_MATCH_RE_LEN <? List.length p)%nat;
    [repeat split; reflexivity |].
  destruct (re_compile_I p) as [r | e]; [reflexivity |].
  rewrite catches_Exception. repeat split; reflexivity.
Qed.

Lemma init_send_string_logged (send_string : pyval) :
  match TCP.init_send_string send_string with
  | (l, Ok _) => l = []
  | (l, Raise e) =>
    if class_eqb (e_class e) Error_
    then l = [(ERROR, e_str e)]
         /\ starts_with (lit "send_string ") (e_str e) = true
    else l = []
  end.
Proof.
  unfold TCP.init_send_string, raise_Error.
  destruct send_string as [| b | z | s | o]; cbn [as_str];
    try (repeat split; reflexivity).
  destruct (TCP.MAX_SEND_STRING_LEN <? List.length s)%nat;
    [repeat split; reflexivity |].
  unfold encode. destruct (existsb is_surrogate s); reflexivity.
Qed.

(** X13.  The constructor of the TCP monitor logs exactly what it raises:
    when it raises the validation error, one ERROR record with the text of
    the error has been logged; when it succeeds, or fails otherwise (an
    unencodable send string), nothing has been logged. *)
Theorem construction_error_is_logged
    (port : pyval) (use_tls verify_tls : bool) (send_string match_re : pyval)
    (interval timeout : Q) (retries : Z) :
  let out := TCP.__init__ port use_tls verify_tls send_string match_re
               interval timeout retries in
  match snd out with
  | Ok _ => fst out = []
  | Raise e =>
    if class_eqb (e_class e) Error_
    then fst out = [(ERROR, e_str e)]
    else fst out = []
  end.
Proof.
  cbv zeta. unfold TCP.__init__.
  pose proof (init_port_logged port) as Hp.
  pose proof (init_match_re_logged match_re) as Hm.
  pose proof (init_send_string_logged send_string) as Hs.
  destruct (TCP.init_port port) as [l [z | e]].
  - destruct Hp as (-> & _).
    destruct (TCP.init_match_re match_re) as [l' [[re c] | e]].
    + subst l'.
      destruct (TCP.init_send_string send_string) as [l'' [[ss sb] | e]].
      * subst l''. reflexivity.
      * cbn [fst snd app].
        destruct (class_eqb (e_class e) Error_); [apply Hs | exact Hs].
    + destruct Hm as (-> & Hc & _). cbn [fst snd app]. rewrite Hc.
      reflexivity.
  - destruct Hp as (-> & ->). reflexivity.
Qed.

(** X14.  The constructor checks the port, then the pattern, then the send
    string, and reports the first check that fails: with an invalid port the
    error is the port error whatever the other arguments; with a valid port
    and an invalid pattern it is an error about the pattern, whatever the
    send string. *)
Theorem construction_reports_first_invalid
    (port : pyval) (use_tls verify_tls : bool) (send_string match_re : pyval)
    (interval timeout : Q) (retries : Z) :
  (port_ok port = false ->
   snd (TCP.__init__ port use_tls verify_tls send_string match_re
          interval timeout retries)
   = Raise (mkExn Error_
              (lit "port " ++ [34%N] ++ str_of_pyval port ++ [34%N]
               ++ lit " must be an integer between 1 and 65535")))
  /\ (port_ok port = true -> pattern_ok match_re = false ->
      exists msg,
        snd (TCP.__init__ port use_tls verify_tls send_string match_re
               interval timeout retries) = Raise (mkExn Error_ msg)
        /\ (starts_with (lit "match_re ") msg
            || starts_with (lit "failed to compile a regular expression")
                 msg) = true).
Proof.
  pose proof (init_port_spec port) as Hspec.
  pose proof (init_port_logged port) as Hp.
  pose proof (init_match_re_spec match_re) as Hmspec.
  pose proof (init_match_re_logged match_re) as Hm.
  split.
  - intros Hbad. rewrite Hbad in Hspec. destruct Hspec as [msg Hmsg].
    unfold TCP.__init__. rewrite Hmsg in *. destruct Hp as (_ & Hp).
    cbn [snd]. rewrite Hp. reflexivity.
  - intros Hgood Hbad. rewrite Hgood in Hspec. rewrite Hbad in Hmspec.
    destruct Hspec as [z Hz]. destruct Hmspec as [msg Hmsg].
    unfold TCP.__init__. rewrite Hz, Hmsg in *. cbn [snd].
    destruct Hm as (_ & _ & Hm). exists msg. split; [reflexivity | exact Hm].
Qed.

(** X15.  What a constructed TCP monitor holds: the name "tcp"; a port
    between 1 and 65535; a pattern and its compiled form together or not at
    all, the pattern of at most 128 characters and the compiled form the one
    [re.compile] gave for it; the send string and its bytes together or not
    at all, the string of at most 256 characters, free of surrogates, and
    the bytes its UTF-8 encoding. *)
Theorem constructed_monitor_is_valid (m : TCP.t) :
  constructed m ->
  TCP.name m = lit "tcp"
  /\ (1 <= TCP.port m <= 65535)%Z
  /\ match TCP.match_re m with
     | None => TCP._match_re_compiled m = None
     | Some p =>
       (List.length p <= 128)%nat
       /\ exists r, TCP._match_re_compiled m = Some r
                    /\ re_compile_I p = Ok r
     end
  /\ match TCP.send_string m with
     | None => TCP._send_bytes m = None
     | Some s =>
       (List.length s <= 256)%nat
       /\ existsb is_surrogate s = false
       /\ TCP._send_bytes m = Some (flat_map utf8_encode_char s)
     end.
Proof.
  intros Hm.
  pose proof (constructed_match_re Hm) as Hre.
  pose proof (constructed_send_bytes Hm) as Hsb.
  destruct Hm as (port & u & v & ss & mr & i & t & r & H).
  unfold TCP.__init__ in H.
  pose proof (init_port_logged port) as Hp.
  destruct (TCP.init_port port) as [l [z | e]]; [| discriminate H].
  destruct Hp as (_ & Hz & _).
  destruct (TCP.init_match_re mr) as [l' [[re c] | e]]; [| discriminate H].
  destruct (TCP.init_send_string ss) as [l'' [[s sb] | e]];
    [| discriminate H].
  cbn [snd] in H. injection H as <-. cbn in *.
  split; [reflexivity | split; [exact Hz | split]].
  - destruct re as [p |]; [| exact Hre].
    destruct Hre as (rx & Hc & Hcomp & Hlen).
    split; [exact Hlen | exists rx; split; assumption].
  - destruct s as [s |]; [| exact Hsb].
    destruct Hsb as (Henc & Hbytes & Hlen).
    split; [exact Hlen | split; [| exact Hbytes]].
    unfold encode in Henc.
    destruct (existsb is_surrogate s); [discriminate Henc | reflexivity].
Qed.

(** X16.  The constructor of the external script monitor raises the
    validation error if and only if the script path is not textual, or the
    pattern is present and is not textual, or is longer than 128 characters,
    or does not compile; otherwise it builds a monitor named
    "external_script" that holds the path, and the pattern with its compiled
    form. *)
Theorem script_construction_fails_iff_invalid
    (script_path match_re : pyval) (interval timeout : Q) (retries : Z) :
  let out := ExternalScript.__init__ script_path match_re
               interval timeout retries in
  raises_Error out
  = negb (match as_str script_path with Some _ => true | None => false end
          && pattern_ok match_re)
  /\ (forall m, snd out = Ok m ->
      fst out = []
      /\ ExternalScript.name m = lit "external_script"
      /\ script_path = PyStr (ExternalScript.script_path m)
      /\ match ExternalScript.match_re m with
         | None =>
           match_re = PyNone /\ ExternalScript._match_re_compiled m = None
         | Some p =>
           match_re = PyStr p
           /\ exists r, ExternalScript._match_re_compiled m = Some r
                        /\ re_compile_I p = Ok r
         end).
Proof.
  cbv zeta. unfold raises_Error, ExternalScript.__init__, pattern_ok.
  destruct script_path as [| b | z | path | o]; cbn [as_str];
    try (split; [reflexivity | intros m H; discriminate H]).
  destruct match_re as [| b | z | p | o]; cbn [as_str andb negb];
    try (split; [reflexivity | intros m H; discriminate H]).
  - split; [reflexivity |]. intros m H. cbn in H. injection H as <-.
    cbn. repeat split.
  - unfold ExternalScript.MAX_MATCH_RE_LEN.
    rewrite (Nat.ltb_antisym (List.length p) 128).
    destruct (List.length p <=? 128)%nat; cbn [negb andb];
      [| split; [reflexivity | intros m H; discriminate H]].
    destruct (re_compile_I p) as [r | e] eqn:Hc.
    + split; [reflexivity |]. intros m H. cbn in H. injection H as <-.
      cbn. repeat split. exists r. split; [reflexivity | exact Hc].
    + rewrite catches_Exception.
      split; [reflexivity | intros m H; discriminate H].
Qed.

End Constructors.

Lemma construction_reports_first_invalid_witness :
  snd (TCP.__init__ (PyInt 70000) false true (PyInt 7) (PyStr (lit "("))
         10 5 2)
  = Raise (mkExn Error_
             (lit "port " ++ [34%N] ++ lit "70000" ++ [34%N]
              ++ lit " must be an integer between 1 and 65535")).
Proof.
  exact (proj1 (@construction_reports_first_invalid LiteralPython
                  (PyInt 70000) false true (PyInt 7) (PyStr (lit "("))
                  10 5 2) eq_refl).
Defined.

Lemma constructed_monitor_is_valid_witness :
  (1 <= TCP.port hello_monitor <= 65535)%Z
  /\ TCP._send_bytes hello_monitor
     = Some (flat_map utf8_encode_char (lit "PING")).
Proof.
  destruct (@constructed_monitor_is_valid LiteralPython hello_monitor
              hello_monitor_constructed) as (_ & Hport & _ & Hsend).
  split; [exact Hport | exact (proj2 (proj2 Hsend))].
Defined.

Lemma script_construction_fails_iff_invalid_witness :
  ExternalScript.name ok_script = lit "external_script"
  /\ PyStr (lit "/usr/local/bin/check.sh")
     = PyStr (ExternalScript.script_path ok_script).
Proof.
  destruct (proj2 (@script_construction_fails_iff_invalid LiteralPython
                     (PyStr (lit "/usr/local/bin/check.sh"))
                     (PyStr (lit "^OK$")) 10 5 2)
              ok_script eq_refl) as (_ & Hname & Hpath & _).
  split; [exact Hname | exact Hpath].
Defined.

(* ================================================================== *)
(** * Further properties: what a run logs and raises *)
(* ================================================================== *)

Section RunEffects.
Context {Py : PythonLib}.

Lemma close_and_return_effects (s : TCPSocket.t) (net : TCP.network) :
  quiet_or_warned net (TCP.close_and_return s (TCP.net_shutdown net))
  /\ (shutdown_is_os_level net ->
      TCP.result_of (TCP.close_and_return s (TCP.net_shutdown net))
      = TCP.Returned).
Proof.
  unfold quiet_or_warned, shutdown_is_os_level, TCP.close_and_return,
    TCPSocket.close.
  destruct (TCP.net_shutdown net) as [u | e] eqn:Hsd.
  - split; [left; reflexivity | reflexivity].
  - destruct (catches OSError_ e) eqn:Hos.
    + split; [| reflexivity].
      right. exists e. repeat split. exact Hos.
    + split; [left; reflexivity |].
      intros H. specialize (H e eq_refl). unfold os_failure in H. congruence.
Qed.

Lemma read_loop_effects (m : TCP.t) (net : TCP.network)
    (recvs : list (os_call bytes)) :
  forall (s : TCPSocket.t) (buf : pystr),
    let out := TCP.read_loop m s buf recvs (TCP.net_shutdown net) in
    quiet_or_warned net out
    /\ (shutdown_is_os_level net ->
        forall e, TCP.result_of out = TCP.Raised e ->
                  catches ProtocolError_ e = false).
Proof.
  assert (Hfail : forall s msg,
             let out := {| TCP.sock := s; TCP.log := [];
                           TCP.result_of :=
                             TCP.Raised (mkExn MonitorFailed_ msg) |} in
             quiet_or_warned net out
             /\ (shutdown_is_os_level net ->
                 forall e, TCP.result_of out = TCP.Raised e ->
                           catches ProtocolError_ e = false)).
  { intros s msg. cbv zeta. split; [left; reflexivity |].
    intros _ e H. cbn [TCP.result_of] in H. injection H as <-. reflexivity. }
  induction recvs as [| c recvs IH]; intros s buf; cbv zeta.
  - split; [left; reflexivity | intros _ e H; discriminate H].
  - cbn [TCP.read_loop]. unfold TCPSocket.recv.
    destruct (outcome c) as [recv_bytes | e].
    + destruct recv_bytes as [| b recv_bytes]; [apply Hfail |].
      destruct (TCP._match_re_compiled m) as [r |].
      * destruct (re_search r _).
        -- destruct (close_and_return_effects
                       (TCPSocket._decrease_timeout s (elapsed c)) net)
             as [Hq Hr].
           split; [exact Hq |].
           intros Hsd e H. rewrite (Hr Hsd) in H. discriminate H.
        -- apply IH.
      * split; [left; reflexivity |].
        intros _ e H. cbn [TCP.result_of] in H. injection H as <-.
        reflexivity.
    + destruct (catches OSError_ e) eqn:Hos.
      * change (catches ProtocolError_ (TCPSocket.during e "socket.recv()"))
          with true.
        apply Hfail.
      * destruct (catches ProtocolError_ e) eqn:Hp; [apply Hfail |].
        split; [left; reflexivity |].
        intros _ e' H. cbn [TCP.result_of] in H. injection H as <-. exact Hp.
Qed.

(** X17.  All that a run of the TCP monitor ever logs is the warning of a
    shutdown that failed with an OS error, and then the run has returned
    successfully: for every monitor and every behaviour of the network, the
    log of the run is empty or holds that one warning. *)
Theorem run_logs_only_the_shutdown_warning
    (m : TCP.t) (dst_ip : pystr) (net : TCP.network) :
  quiet_or_warned net (TCP.run m dst_ip net).
Proof.
  unfold TCP.run.
  destruct (TCP.connect_and_send m _ net) as [s [u | e]].
  - destruct (TCP.match_re m).
    + apply (read_loop_effects m net (TCP.net_recv net) s []).
    + apply close_and_return_effects.
  - destruct (catches ProtocolError_ e); left; reflexivity.
Qed.

(** X18.  [ProtocolError] never leaves a run: provided the shutdown inside
    [close] fails with OS errors only, whatever exception a run raises is not
    a [ProtocolError]; the errors of the socket helper reach the caller as
    [MonitorFailed]. *)
Theorem protocol_error_never_leaves_run
    (m : TCP.t) (dst_ip : pystr) (net : TCP.network) :
  shutdown_is_os_level net ->
  forall e,
    TCP.result_of (TCP.run m dst_ip net) = TCP.Raised e ->
    catches ProtocolError_ e = false.
Proof.
  intros Hsd e. unfold TCP.run.
  destruct (TCP.connect_and_send m _ net) as [s [u | e']].
  - destruct (TCP.match_re m).
    + apply (read_loop_effects m net (TCP.net_recv net) s []), Hsd.
    + rewrite (proj2 (close_and_return_effects s net) Hsd).
      intros H. discriminate H.
  - destruct (catches ProtocolError_ e') eqn:Hp; cbn [TCP.result_of].
    + intros H. injection H as <-. reflexivity.
    + intros H. injection H as <-. exact Hp.
Qed.

End RunEffects.

Lemma protocol_error_never_leaves_run_witness :
  let net :=
    {| TCP.net_connect := mkCall (1 # 10) (Ok tt);
       TCP.net_handshake := fun _ => mkCall 0 (Ok tt);
       TCP.net_sendall := mkCall 0 (Ok tt);
       TCP.net_recv :=
         [mkCall 4 (Raise (mkExn TimeoutError_ (lit "timed out")))];
       TCP.net_shutdown := Ok tt |} in
  catches ProtocolError_
    (mkExn MonitorFailed_
       (lit "got TimeoutError timed out during socket.recv(), no data received from the peer"))
  = false.
Proof.
  intros net.
  refine (@protocol_error_never_leaves_run LiteralPython pong_monitor
            (lit "192.0.2.1") net _ _ eq_refl).
  intros e H. discriminate H.
Defined.

(* ================================================================== *)
(** * Further properties of the external script monitor *)
(* ================================================================== *)

Section ScriptEffects.
Context {Py : PythonLib}.
Import ExternalScript.

(** X19.  Which exceptions of [subprocess.run] a run converts.  A
    [TimeoutExpired] becomes a [MonitorFailed] telling of the timeout and
    its length, a [CalledProcessError] becomes a [MonitorFailed] carrying
    the text of the error, both logged at ERROR; the two messages are never
    the same.  Every other exception leaves the run as it is, and nothing is
    logged for it. *)
Theorem script_exceptions_converted
    (m : ExternalScript.t) (dst_ip : pystr) (e : exn) :
  let out := run m dst_ip (Raise e) in
  let timed_out :=
    lit "external script timed out after "
    ++ str_of_number (timeout (base m)) ++ lit " seconds" in
  let failed :=
    lit "external script failed with error: " ++ e_str e in
  (catches TimeoutExpired_ e = true ->
   out = ([(ERROR, timed_out)], Raise (mkExn MonitorFailed_ timed_out)))
  /\ (catches TimeoutExpired_ e = false ->
      catches CalledProcessError_ e = true ->
      out = ([(ERROR, failed)], Raise (mkExn MonitorFailed_ failed)))
  /\ (out = ([], Raise e)
      <-> catches TimeoutExpired_ e = false
          /\ catches CalledProcessError_ e = false)
  /\ timed_out <> failed.
Proof.
  cbv zeta. unfold run, raise_MonitorFailed.
  split; [| split; [| split]].
  - intros ->. reflexivity.
  - intros -> ->. reflexivity.
  - destruct (catches TimeoutExpired_ e) eqn:Ht.
    + split; [intros H; discriminate H | intros [H _]; discriminate H].
    + destruct (catches CalledProcessError_ e) eqn:Hc.
      * split; [intros H; discriminate H | intros [_ H]; discriminate H].
      * split; [intros _; split; reflexivity | reflexivity].
  - intros H. cbn in H. discriminate H.
Qed.

Lemma completed_run_effects (m : ExternalScript.t) (dst_ip : pystr)
    (cp : CompletedProcess) (r : option regex) :
  _match_re_compiled m = r ->
  (match_re m <> None -> r <> None) ->
  let out := run m dst_ip (Ok cp) in
  match snd out with
  | Raise e => e_class e = MonitorFailed_ /\ fst out = [(ERROR, e_str e)]
  | Ok _ =>
    fst out
    = [(INFO, lit "external script ran successfully with output: "
              ++ strip (stdout cp))]
  end.
Proof.
  intros Hr Hsome. cbv zeta. unfold run, raise_MonitorFailed.
  destruct (returncode cp =? 0)%Z; cbn [negb]; [| split; reflexivity].
  destruct (match_re m) as [p |]; [| reflexivity].
  rewrite Hr. destruct r as [rx |]; [| exfalso; apply Hsome; congruence].
  destruct (re_search rx (strip (stdout cp))); cbn [negb];
    [reflexivity | split; reflexivity].
Qed.

(** X20.  Whatever a script that ran to completion printed and returned, a
    run of a constructed monitor either succeeds, logging one INFO record
    with the stripped standard output, or raises [MonitorFailed] and nothing
    else, logging one ERROR record with the text of the failure. *)
Theorem completed_script_is_logged
    (m : ExternalScript.t) (dst_ip : pystr) (cp : CompletedProcess) :
  script_constructed m ->
  let out := run m dst_ip (Ok cp) in
  match snd out with
  | Raise e => e_class e = MonitorFailed_ /\ fst out = [(ERROR, e_str e)]
  | Ok _ =>
    fst out
    = [(INFO, lit "external script ran successfully with output: "
              ++ strip (stdout cp))]
  end.
Proof.
  intros Hm. pose proof (script_constructed_match_re Hm) as Hre.
  apply completed_run_effects with (r := _match_re_compiled m);
    [reflexivity |].
  intros Hsome Hnone. destruct (match_re m) as [p |]; [| congruence].
  destruct Hre as (r & Hr & _). congruence.
Qed.

End ScriptEffects.

Lemma script_exceptions_converted_witness :
  ExternalScript.run ok_script (lit "192.0.2.1")
    (Raise (mkExn TimeoutExpired_
              (lit "Command '['/usr/local/bin/check.sh', '192.0.2.1']' timed out after 5 seconds")))
  = ([(ERROR, lit "external script timed out after 5 seconds")],
     Raise (mkExn MonitorFailed_
              (lit "external script timed out after 5 seconds"))).
Proof.
  exact (proj1 (@script_exceptions_converted LiteralPython ok_script
                  (lit "192.0.2.1")
                  (mkExn TimeoutExpired_
                     (lit "Command '['/usr/local/bin/check.sh', '192.0.2.1']' timed out after 5 seconds")))
           eq_refl).
Defined.

Lemma completed_script_is_logged_witness :
  fst (ExternalScript.run ok_script (lit "192.0.2.1")
         (Ok (ExternalScript.mkCompleted (lit "OK" ++ [10%N]) [] 0)))
  = [(INFO, lit "external script ran successfully with output: OK")].
Proof.
  exact (@completed_script_is_logged LiteralPython ok_script
           (lit "192.0.2.1")
           (ExternalScript.mkCompleted (lit "OK" ++ [10%N]) [] 0)
           ok_script_constructed).
Defined.

(* ================================================================== *)
(** * Further properties: ASCII responses *)
(* ================================================================== *)

(** For ASCII data the text accumulated chunk by chunk is the text of the
    whole response: the split into chunks leaves no trace. *)
Lemma accumulated_ascii (chunks : list bytes) :
  forallb is_ascii (List.concat chunks) = true ->
  accumulated chunks = map Byte.to_N (List.concat chunks).
Proof.
  unfold accumulated.
  induction chunks as [| c cs IH]; intros H; [reflexivity |].
  cbn [List.concat map] in *. rewrite forallb_app in H.
  apply andb_prop in H as [Hc Hcs].
  rewrite map_app, (IH Hcs). f_equal.
  rewrite <- (app_nil_r c) at 1.
  rewrite decode_ascii_prefix by exact Hc. apply app_nil_r.
Qed.

Section AsciiResponses.
Context {Py : PythonLib}.

(** X21.  An ASCII response is matched however the network splits it: when
    the bytes received, in one or more chunks with data, are all ASCII and
    the pattern is found in their text taken as a whole, the run returns
    successfully. *)
Theorem ascii_response_matches_however_split
    (m : TCP.t) (dst_ip : pystr) (net : TCP.network) (r : regex)
    (chunks : list bytes) (recvs rest : list (os_call bytes)) :
  constructed m ->
  TCP._match_re_compiled m = Some r ->
  connection_succeeds m net ->
  shutdown_is_os_level net ->
  TCP.net_recv net = recvs ++ rest ->
  chunks <> [] ->
  delivers recvs chunks ->
  forallb is_ascii (List.concat chunks) = true ->
  re_search r (map Byte.to_N (List.concat chunks)) = true ->
  TCP.result_of (TCP.run m dst_ip net) = TCP.Returned.
Proof.
  intros Hm Hr Hnet Hsd Hrecv Hne Hdel Hascii Hmatch.
  rewrite <- (accumulated_ascii chunks Hascii) in Hmatch.
  pose proof (constructed_match_re Hm) as Hre. rewrite Hr in Hre.
  unfold TCP.run.
  pose proof (connect_and_send_ok
                (TCPSocket.__init__ dst_ip (TCP.port m)
                   (timeout (TCP.base m)) true) Hm Hnet) as Hok.
  destruct (TCP.connect_and_send m _ net) as [s res]. cbn [snd] in Hok.
  subst res.
  destruct (TCP.match_re m) as [p |]; [| discriminate Hre].
  rewrite Hrecv.
  eapply read_loop_matches;
    [exact Hr | exact Hsd | exact Hne | exact Hdel | exact Hmatch].
Qed.

End AsciiResponses.

Lemma ascii_response_matches_however_split_witness :
  let net chunks :=
    {| TCP.net_connect := mkCall (1 # 10) (Ok tt);
       TCP.net_handshake := fun _ => mkCall 0 (Ok tt);
       TCP.net_sendall := mkCall 0 (Ok tt);
       TCP.net_recv := map (fun c => mkCall (1 # 4) (Ok c)) chunks;
       TCP.net_shutdown := Ok tt |} in
  TCP.result_of
    (TCP.run pong_monitor (lit "192.0.2.1") (net [[x70]; [x6f; x6e]; [x67]]))
  = TCP.Returned
  /\ TCP.result_of
       (TCP.run pong_monitor (lit "192.0.2.1") (net [[x70; x6f; x6e; x67]]))
     = TCP.Returned.
Proof.
  intros net.
  assert (Hnet : forall chunks, connection_succeeds pong_monitor (net chunks))
    by (intros chunks;
        split; [reflexivity
               | split; [intros H; discriminate H | intros H; now elim H]]).
  assert (Hsd : forall chunks, shutdown_is_os_level (net chunks))
    by (intros chunks e H; discriminate H).
  split.
  - apply (@ascii_response_matches_however_split LiteralPython pong_monitor
             (lit "192.0.2.1") (net [[x70]; [x6f; x6e]; [x67]])
             (LiteralEngine.mkRegex false false (lit "pong"))
             [[x70]; [x6f; x6e]; [x67]]
             (map (fun c => mkCall (1 # 4) (Ok c)) [[x70]; [x6f; x6e]; [x67]])
             [] pong_monitor_constructed eq_refl (Hnet _) (Hsd _)).
    + symmetry. apply app_nil_r.
    + discriminate.
    + split; [reflexivity | repeat constructor; discriminate].
    + reflexivity.
    + reflexivity.
  - apply (@ascii_response_matches_however_split LiteralPython pong_monitor
             (lit "192.0.2.1") (net [[x70; x6f; x6e; x67]])
             (LiteralEngine.mkRegex false false (lit "pong"))
             [[x70; x6f; x6e; x67]]
             (map (fun c => mkCall (1 # 4) (Ok c)) [[x70; x6f; x6e; x67]])
             [] pong_monitor_constructed eq_refl (Hnet _) (Hsd _)).
    + symmetry. apply app_nil_r.
    + discriminate.
    + split; [reflexivity | repeat constructor; discriminate].
    + reflexivity.
    + reflexivity.
Defined.
